(** * Guest relevance scoring and analysis orchestration

    A shallow embedding of the scoring engine
    ([relevance_scoring_engine.py], class [GuestRelevanceScorer]) and of the
    orchestration layer ([podcast_guest_tracker.py], class
    [OneClickPodcastGuestTracker]), followed by the properties of the
    specification that concern them.

    Modelling conventions.
    - A Python [dict] with optional keys is a record of [option] fields;
      [d.get(k, v)] is [default v (k d)].  Dictionaries keyed by arbitrary
      strings ([social_following], [host_cache]) are [gmap string _].
    - A Python [set] of strings is a [gset string].
    - A Python [str] is a [string] whose characters are code points below
      256; [lower], [split] and [isspace] follow Python on that range.
    - A Python [float] is an exact rational ([Q]): every constant of the
      scorer is a decimal fraction and is taken at its decimal value, and
      the sub-scores are computed without rounding error.  The weighted sum
      of the sub-scores is also given as the interpreter computes it, with
      every product and sum rounded to binary64 ([Binary64],
      [weighted_score_binary64]); the two are compared in the section on the
      aggregation.  Results of [float(str)] additionally carry [inf] and
      [nan].
    - Operations that can raise ([l[0]], [a / b], [d[k]]) are written in an
      exception monad, so that "does not raise" is a statement about the
      guards of the source and not about the shape of the model.
    - The wall clock and the external collaborators (guest extraction, host
      analysis, narration) are explicit: the clock is a component of the
      world state and the collaborators are functions of their arguments and
      of the time of the call. *)

From Stdlib Require Import ZArith QArith Qround Qabs Qpower Lia Lqa.
From Stdlib Require Import String Ascii List Permutation Sorted.
From stdpp Require Import base option list gmap strings pretty.
Import ListNotations.

Local Open Scope string_scope.
Local Open Scope list_scope.
Local Open Scope Z_scope.

(** ** Python builtins *)

Module Py.

(** Exceptions that the modelled code can raise. *)
Inductive exn : Type :=
| IndexError
| ZeroDivisionError
| KeyError (key : string)
| RuntimeError (msg : string).

(** [str(e)] *)
Definition str_of_exn (e : exn) : string :=
  match e with
  | IndexError => "list index out of range"
  | ZeroDivisionError => "division by zero"
  | KeyError k => "'" +:+ k +:+ "'"
  | RuntimeError m => m
  end.

Inductive exc (A : Type) : Type :=
| Ok (a : A)
| Raise (e : exn).
Arguments Ok {A} a.
Arguments Raise {A} e.

#[global] Instance exc_ret : MRet exc := fun _ a => Ok a.
#[global] Instance exc_bind : MBind exc := fun _ _ k m =>
  match m with
  | Ok a => k a
  | Raise e => Raise e
  end.

#[global] Instance exc_fmap : FMap exc := fun _ _ f m =>
  match m with
  | Ok a => Ok (f a)
  | Raise e => Raise e
  end.

Definition returns {A} (m : exc A) : Prop := exists a, m = Ok a.

(** [l[0]] *)
Definition index0 {A} (l : list A) : exc A :=
  match l with
  | [] => Raise IndexError
  | x :: _ => Ok x
  end.

(** [a / b] on numbers *)
Definition truediv (a b : Q) : exc Q :=
  if Qeq_bool b 0 then Raise ZeroDivisionError else Ok (a / b)%Q.

(** Comparison of floats and the two-argument [min] and [max], which
    return their first argument unless the second is strictly better. *)
Definition ltb (a b : Q) : bool := negb (Qle_bool b a).
Definition leb (a b : Q) : bool := Qle_bool a b.
Definition min (a b : Q) : Q := if ltb b a then b else a.
Definition max (a b : Q) : Q := if ltb a b then b else a.

(** [round(x)] to an [int]: the nearest integer, ties to the even one. *)
Definition round (x : Q) : Z :=
  let f := Qfloor x in
  let r := (x - inject_Z f)%Q in
  if ltb r (1 # 2) then f
  else if ltb (1 # 2) r then f + 1
  else if Z.even f then f else f + 1.

(** *** Strings *)

Definition code (c : ascii) : N := N_of_ascii c.

(** [c.isspace()] for a code point below 256. *)
Definition isspace (c : ascii) : bool :=
  let n := code c in
  ((9 <=? n) && (n <=? 13) || (28 <=? n) && (n <=? 32)
   || (n =? 133) || (n =? 160))%N.

(** [c.lower()] for a code point below 256: the ASCII capitals and the
    Latin-1 capitals 0xC0..0xDE except the multiplication sign. *)
Definition lower_char (c : ascii) : ascii :=
  let n := code c in
  if ((65 <=? n) && (n <=? 90)
      || (192 <=? n) && (n <=? 222) && negb (n =? 215))%N
  then ascii_of_N (n + 32) else c.

Fixpoint lower (s : string) : string :=
  match s with
  | EmptyString => EmptyString
  | String c t => String (lower_char c) (lower t)
  end.

(** [needle in hay] *)
Fixpoint contains (needle hay : string) : bool :=
  if String.prefix needle hay then true
  else match hay with
       | EmptyString => false
       | String _ t => contains needle t
       end.

(** [s.replace(c, '')] for a one-character pattern. *)
Fixpoint remove_char (c : ascii) (s : string) : string :=
  match s with
  | EmptyString => EmptyString
  | String d t =>
      if Ascii.eqb c d then remove_char c t else String d (remove_char c t)
  end.

(** [s.split()]: the maximal runs of non-whitespace characters.  [cur] is
    the word being read, reversed. *)
Definition flush (cur : list ascii) (acc : list string) : list string :=
  match cur with
  | [] => acc
  | _ => string_of_list_ascii (rev cur) :: acc
  end.

Fixpoint split_aux (s : string) (cur : list ascii) : list string :=
  match s with
  | EmptyString => flush cur []
  | String c t =>
      if isspace c then flush cur (split_aux t [])
      else split_aux t (c :: cur)
  end.

Definition split (s : string) : list string := split_aux s [].

Definition len (s : string) : Z := Z.of_nat (String.length s).

(** *** [float(str)]

    The value of a float read from text: a finite number, an infinity or
    a NaN.  Finite values are exact. *)
Inductive xfloat : Type :=
| Nan
| Inf (negative : bool)
| Fin (q : Q).

(** [x * c] for a positive finite constant [c] *)
Definition scale (x : xfloat) (c : Q) : xfloat :=
  match x with
  | Fin q => Fin (q * c)%Q
  | _ => x
  end.

(** [x > c] for a finite constant [c]; every comparison with a NaN is
    false. *)
Definition gt (x : xfloat) (c : Q) : bool :=
  match x with
  | Fin q => ltb c q
  | Inf negative => negb negative
  | Nan => false
  end.

Definition is_digit (c : ascii) : bool :=
  let n := code c in ((48 <=? n) && (n <=? 57))%N.

Definition digit_val (c : ascii) : Z := Z.of_N (code c) - 48.

Definition is_char (c d : ascii) : bool := Ascii.eqb c d.

(** [digitpart ::= digit (["_"] digit)*], read after its first digit:
    the accumulated value, the number of digits read and the rest. *)
Fixpoint digits_tl (l : list ascii) (acc : Z) (n : Z)
  : Z * Z * list ascii :=
  match l with
  | c :: t =>
      if is_digit c then digits_tl t (10 * acc + digit_val c) (n + 1)
      else if is_char c "_" then
        match t with
        | d :: t' =>
            if is_digit d then digits_tl t' (10 * acc + digit_val d) (n + 1)
            else (acc, n, l)
        | [] => (acc, n, l)
        end
      else (acc, n, l)
  | [] => (acc, n, l)
  end.

Definition digitpart (l : list ascii) : option (Z * Z * list ascii) :=
  match l with
  | c :: t => if is_digit c then Some (digits_tl t (digit_val c) 1) else None
  | [] => None
  end.

(** [sign ::= "+" | "-"], optional: whether it is a minus, and the rest. *)
Definition sign (l : list ascii) : bool * list ascii :=
  match l with
  | c :: t =>
      if is_char c "-" then (true, t)
      else if is_char c "+" then (false, t)
      else (false, l)
  | [] => (false, l)
  end.

(** [number ::= [digitpart] "." digitpart | digitpart ["."]]: the
    mantissa as an integer, the number of fraction digits and the rest. *)
Definition number (l : list ascii) : option (Z * Z * list ascii) :=
  match digitpart l with
  | Some (i, _, r) =>
      match r with
      | c :: r' =>
          if is_char c "." then
            match r' with
            | d :: t =>
                if is_digit d
                then Some (digits_tl t (10 * i + digit_val d) 1)
                else Some (i, 0, r')
            | [] => Some (i, 0, r')
            end
          else Some (i, 0, r)
      | [] => Some (i, 0, r)
      end
  | None =>
      match l with
      | c :: r' =>
          if is_char c "." then
            match digitpart r' with
            | Some (f, n, r'') => Some (f, n, r'')
            | None => None
            end
          else None
      | [] => None
      end
  end.

(** [exponent ::= ("e" | "E") [sign] digitpart], optional. *)
Definition exponent (l : list ascii) : option (Z * list ascii) :=
  match l with
  | c :: t =>
      if is_char (lower_char c) "e" then
        let '(neg, t') := sign t in
        match digitpart t' with
        | Some (e, _, r) => Some (if neg then - e else e, r)
        | None => None
        end
      else Some (0, l)
  | [] => Some (0, l)
  end.

Definition absfloatvalue (l : list ascii) : option xfloat :=
  let w := lower (string_of_list_ascii l) in
  if String.eqb w "inf" || String.eqb w "infinity" then Some (Inf false)
  else if String.eqb w "nan" then Some Nan
  else
    match number l with
    | Some (m, n, r) =>
        match exponent r with
        | Some (e, []) => Some (Fin (inject_Z m * Qpower 10 (e - n))%Q)
        | _ => None
        end
    | None => None
    end.

Definition negate (x : xfloat) : xfloat :=
  match x with
  | Nan => Nan
  | Inf negative => Inf (negb negative)
  | Fin q => Fin (- q)%Q
  end.

Fixpoint lstrip (l : list ascii) : list ascii :=
  match l with
  | c :: t => if isspace c then lstrip t else l
  | [] => []
  end.

Definition strip (l : list ascii) : list ascii :=
  rev (lstrip (rev (lstrip l))).

(** [float(s)]; [None] stands for the [ValueError] of an ill-formed
    text. *)
Definition float (s : string) : option xfloat :=
  let '(neg, l) := sign (strip (list_ascii_of_string s)) in
  match absfloatvalue l with
  | Some x => Some (if neg then negate x else x)
  | None => None
  end.

(** [s.strip()] *)
Definition strip_string (s : string) : string :=
  string_of_list_ascii (strip (list_ascii_of_string s)).

End Py.

(** ** Binary64 arithmetic

    The finite numbers of the binary64 format are the rationals
    [m * 2 ^ e] with [|m| < 2 ^ 53] and [-1074 <= e]; an arithmetic
    operation returns the number of the format nearest to the exact
    result, the one with the even [m] when two are equally near.  Results
    of magnitude [2 ^ 1024] or more, which are not finite, are outside
    this model; the values of the aggregation stay below 128. *)

Module Binary64.

Definition pow2 (e : Z) : Q := Qpower 2 e.

(** The integer part of the binary logarithm of a positive rational. *)
Definition ilog2 (q : Q) : Z :=
  let k := Z.log2 (Qnum q) - Z.log2 (Zpos (Qden q)) in
  if Qle_bool (pow2 k) q then k else k - 1.

(** The exponent of the last binary digit kept for [q]: 52 places below
    its leading digit, and never below that of the subnormal numbers. *)
Definition ulp_exponent (q : Q) : Z := Z.max (ilog2 (Qabs q) - 52) (-1074).

(** Rounding to the nearest number of the format, ties to even. *)
Definition rnd (q : Q) : Q :=
  if Qeq_bool q 0 then 0%Q
  else
    let e := ulp_exponent q in
    (inject_Z (Py.round (q / pow2 e)) * pow2 e)%Q.

(** [x + y] and [x * y] on floats. *)
Definition add (x y : Q) : Q := rnd (x + y).
Definition mul (x y : Q) : Q := rnd (x * y).

(** Whether a rational is a number of the format. *)
Definition representable (x : Q) : bool := Qeq_bool (rnd x) x.

End Binary64.


(** ** Data model *)

(** [extraction_metadata] of a guest profile. *)
Record ExtractionMetadata : Type := {
  data_quality_score : option Z;
  confidence_score : option Z
}.

(** The guest profile handed to the scorer. *)
Record GuestProfile : Type := {
  name : option string;
  industry : option string;
  bio_summary : option string;
  expertise_areas : option (list string);
  key_topics : option (list string);
  authority_indicators : option (list string);
  social_following : option (gmap string string);
  previous_podcasts : option (list string);
  popularity_indicators : option (list string);
  recent_activities : option (list string);
  potential_interview_topics : option (list string);
  extraction_metadata : option ExtractionMetadata
}.

(** One sampled content item of [raw_video_data]. *)
Record Video : Type := {
  title : option string;
  view_count : option Z;
  like_count : option Z;
  comment_count : option Z
}.

(** The inner [channel_dna] record. *)
Record ChannelDNA : Type := {
  primary_topics : option (list string);
  audience_profile : option string;
  preferred_guest_types : option (list string);
  engagement_drivers : option (list string);
  content_style : option string
}.

(** The value stored under the host analysis' [channel_dna] key, which
    holds the record above under a key of the same name. *)
Module Insights.
Record t : Type := { channel_dna : option ChannelDNA }.
End Insights.

(** The host analysis.  An analysis that failed is the dictionary
    [{"error": msg}]. *)
Record HostAnalysis : Type := {
  channel_url : option string;
  videos_analyzed : option Z;
  channel_dna : option Insights.t;
  raw_video_data : option (list Video);
  error : option string
}.

(** The empty dictionary, and [bool(d)] of a host-analysis dictionary: it
    has at least one key. *)
Definition empty_host : HostAnalysis :=
  {| channel_url := None; videos_analyzed := None; channel_dna := None;
     raw_video_data := None; error := None |}.

Definition host_truthy (h : HostAnalysis) : bool :=
  bool_decide (is_Some (channel_url h)) || bool_decide (is_Some (videos_analyzed h))
  || bool_decide (is_Some (channel_dna h)) || bool_decide (is_Some (raw_video_data h))
  || bool_decide (is_Some (error h)).

(** [host_analysis.get('channel_dna', {}).get('channel_dna', {})] *)
Definition inner_dna (h : HostAnalysis) : ChannelDNA :=
  let empty := {| primary_topics := None; audience_profile := None;
                  preferred_guest_types := None; engagement_drivers := None;
                  content_style := None |} in
  default empty
    (Insights.channel_dna
       (default {| Insights.channel_dna := None |} (channel_dna h))).

(** The five scoring factors, in the order in which the scorer lists
    them. *)
Inductive Factor : Type :=
| topic_alignment
| authority_score
| audience_appeal
| uniqueness_factor
| engagement_potential.

Inductive Recommendation : Type :=
| HIGHLY_RECOMMENDED
| RECOMMENDED
| CONSIDER
| LOW_PRIORITY
| NOT_RECOMMENDED.

(** The three levels, used for the confidence in an analysis and for the
    estimated audience engagement. *)
Inductive Confidence : Type := HIGH | MEDIUM | LOW.

Record BreakdownEntry : Type := { score : Z; weight : Q }.

Record InterviewRecommendations : Type := {
  estimated_audience_engagement : Confidence;
  preparation_notes : list string;
  focus_topics : list string
}.

(** The dictionary returned by the scorer. *)
Record RelevanceResult : Type := {
  guest_name : string;
  overall_relevance_score : Z;
  recommendation : Recommendation;
  confidence_level : Confidence;
  score_breakdown : list (Factor * BreakdownEntry);
  key_strengths : list string;
  areas_of_concern : list string;
  interview_recommendations : InterviewRecommendations;
  analysis_timestamp : Q
}.

(** ** The client of the text-generation service: [OllamaClient] *)

Module OllamaClient.

(** The value under the ["response"] key of the service's answer: a text,
    or a JSON value of another kind. *)
Inductive value : Type :=
| Text (s : string)
| NotText.

(** The dictionary that [generate_text] returns. *)
Record Generation : Type := { generated_text : value; model : string }.

(** [generate_text].  [reply] is what the body of its [try] block comes
    to: an exception of the request, of the status check or of the
    decoding, or the decoded answer's ["response"] value, if it has one. *)
Definition generate_text (reply : Py.exc (option value)) (model : string)
  : Generation :=
  match reply with
  | Py.Ok result =>
      {| generated_text := default (Text "") result; model := model |}
  | Py.Raise e =>
      {| generated_text := Text ("Error: " +:+ Py.str_of_exn e); model := model |}
  end.

Definition generate_with_8b (reply : Py.exc (option value)) : Generation :=
  generate_text reply "llama3:8b".

Definition generate_with_70b (reply : Py.exc (option value)) : Generation :=
  generate_text reply "llama3.1:70b".

End OllamaClient.

(** ** The scorer: [GuestRelevanceScorer] *)

Module GuestRelevanceScorer.

(** [self.weights], as set by [__init__]. *)
Definition weights (f : Factor) : Q :=
  match f with
  | topic_alignment => 0.35
  | authority_score => 0.25
  | audience_appeal => 0.20
  | uniqueness_factor => 0.10
  | engagement_potential => 0.10
  end%Q.

(** [bool(l)] of a list, and [len(l)]. *)
Definition nonempty {A} (l : list A) : bool :=
  match l with [] => false | _ => true end.
Definition len {A} (l : list A) : Z := Z.of_nat (length l).

(** [a in b or b in a] *)
Definition overlap (a b : string) : bool :=
  Py.contains a b || Py.contains b a.

(** *** Topic alignment *)

(** The words of [item.lower().split()] longer than three characters,
    added to the set [acc]. *)
Definition add_words (acc : gset string) (item : string) : gset string :=
  foldl (fun acc word => if (3 <? Py.len word)%Z then {[ word ]} ∪ acc else acc)
        acc (Py.split (Py.lower item)).

Definition keywords (items : list string) : gset string :=
  foldl add_words ∅ items.

(** The number of guest keywords that overlap some channel keyword. *)
Definition count_matches (guest_keywords channel_keywords : gset string) : Z :=
  len (List.filter
         (fun keyword =>
            existsb (fun channel_keyword => overlap keyword channel_keyword)
                    (elements channel_keywords))
         (elements guest_keywords)).

(** The boost loop: 0.2, capped at 1, for every pair of an expertise
    string and a topic string of which one contains the other. *)
Definition boost (guest_expertise channel_topics : list string) (s : Q) : Q :=
  foldl (fun s expertise =>
           foldl (fun s topic =>
                    if overlap (Py.lower expertise) (Py.lower topic)
                    then Py.min 1.0 (s + 0.2) else s)
                 s channel_topics)
        s guest_expertise.

Definition calculate_topic_alignment (g : GuestProfile) (h : HostAnalysis)
  : Py.exc Q :=
  let guest_expertise := default [] (expertise_areas g) in
  let guest_topics := default [] (key_topics g) in
  let channel_topics := default [] (primary_topics (inner_dna h)) in
  if negb (nonempty guest_expertise) || negb (nonempty channel_topics)
  then mret 0.5%Q
  else
    let guest_keywords := keywords (guest_expertise ++ guest_topics) in
    let channel_keywords := keywords channel_topics in
    if bool_decide (channel_keywords = ∅) then mret 0.5%Q
    else
      let matches := count_matches guest_keywords channel_keywords in
      ratio ← Py.truediv (inject_Z matches)
                (inject_Z (Z.max 1 (Z.of_nat (size channel_keywords))));
      let alignment_score := Py.min 1.0 ratio in
      mret (boost guest_expertise channel_topics alignment_score).

(** *** Authority *)

Definition strong_terms : list string :=
  ["founder"; "ceo"; "author"; "expert"; "award"; "professor"; "phd";
   "leader"].

Definition is_strong (indicator : string) : bool :=
  existsb (fun term => Py.contains term (Py.lower indicator)) strong_terms.

(** The conversion of the Twitter count inside the [try] block; [None]
    when [float] raises. *)
Definition followers_of (twitter_followers : string) : option Py.xfloat :=
  let l := Py.lower twitter_followers in
  if Py.contains "k" l then
    x ← Py.float (Py.remove_char "k" l); Some (Py.scale x 1000)
  else if Py.contains "m" l then
    x ← Py.float (Py.remove_char "m" l); Some (Py.scale x 1000000)
  else Py.float (Py.remove_char "," twitter_followers).

Definition add_follower_bonus (s : Q) (followers : Py.xfloat) : Q :=
  if Py.gt followers 1000000 then s + 0.2
  else if Py.gt followers 100000 then s + 0.15
  else if Py.gt followers 10000 then s + 0.1
  else if Py.gt followers 1000 then s + 0.05
  else s.

(** [previous_podcasts and previous_podcasts[0] != 'Unable to determine'] *)
Definition has_podcasts (previous_podcasts : list string) : Py.exc bool :=
  if nonempty previous_podcasts then
    first ← Py.index0 previous_podcasts;
    mret (negb (String.eqb first "Unable to determine"))
  else mret false.

Definition calculate_authority_score (g : GuestProfile) (h : HostAnalysis)
  : Py.exc Q :=
  let authority_indicators := default [] (authority_indicators g) in
  let social_following := default ∅ (social_following g) in
  let s := 0.5%Q in
  let s :=
    if nonempty authority_indicators then
      let strong_indicators := len (List.filter is_strong authority_indicators) in
      (s + Py.min 0.3 (inject_Z strong_indicators * 0.1))%Q
    else s in
  let s :=
    if bool_decide (social_following ≠ ∅) then
      let twitter_followers := default "unknown" (social_following !! "twitter") in
      let s :=
        if negb (String.eqb twitter_followers "unknown") then
          match followers_of twitter_followers with
          | Some followers => add_follower_bonus s followers
          | None => s
          end
        else s in
      let linkedin := default "unknown" (social_following !! "linkedin") in
      if negb (String.eqb linkedin "unknown") && Py.contains "500+" linkedin
      then (s + 0.05)%Q else s
    else s in
  let previous_podcasts := default [] (previous_podcasts g) in
  experienced ← has_podcasts previous_podcasts;
  let s :=
    if (experienced : bool)
    then (s + Py.min 0.1 (inject_Z (len previous_podcasts) * 0.02))%Q
    else s in
  mret (Py.min 1.0 s).

(** *** Audience appeal *)

(** [count and count != 'unknown'] *)
Definition known_count (count : string) : bool :=
  negb (String.eqb count "") && negb (String.eqb count "unknown").

Definition calculate_audience_appeal (g : GuestProfile) (h : HostAnalysis)
  : Py.exc Q :=
  let audience_profile := default "" (audience_profile (inner_dna h)) in
  let guest_industry := default "" (industry g) in
  let guest_bio := default "" (bio_summary g) in
  let s := 0.6%Q in
  let social_following := default ∅ (social_following g) in
  let s :=
    if bool_decide (social_following ≠ ∅) then
      let platforms_with_following :=
        len (List.filter (fun pc => known_count (snd pc))
                         (map_to_list social_following)) in
      (s + Py.min 0.2 (inject_Z platforms_with_following * 0.05))%Q
    else s in
  let popularity_indicators := default [] (popularity_indicators g) in
  let s :=
    if nonempty popularity_indicators
    then (s + Py.min 0.2 (inject_Z (len popularity_indicators) * 0.05))%Q
    else s in
  let s :=
    if negb (String.eqb audience_profile "")
       && (negb (String.eqb guest_industry "") || negb (String.eqb guest_bio ""))
    then
      let audience_keywords := Py.split (Py.lower audience_profile) in
      let guest_text := Py.lower (guest_industry +:+ " " +:+ guest_bio) in
      let matches :=
        len (List.filter
               (fun keyword => (3 <? Py.len keyword)%Z && Py.contains keyword guest_text)
               audience_keywords) in
      (s + Py.min 0.2 (inject_Z matches * 0.04))%Q
    else s in
  mret (Py.min 1.0 s).

(** *** Uniqueness *)

(** The loop over the sampled videos: whether it left through [break]
    on a title containing the guest's name, and the number of titles
    counted as similar before that. *)
Fixpoint scan_titles (guest_name : string) (guest_expertise : list string)
         (recent_videos : list Video) (similar_topics_count : Z) : bool * Z :=
  match recent_videos with
  | [] => (false, similar_topics_count)
  | video :: rest =>
      let title := Py.lower (default "" (title video)) in
      if Py.contains guest_name title then (true, similar_topics_count)
      else
        scan_titles guest_name guest_expertise rest
          (if existsb (fun expertise => Py.contains expertise title) guest_expertise
           then similar_topics_count + 1 else similar_topics_count)
  end.

(** The condition of the bonus: the guest has an industry and no primary
    topic contains it. *)
Definition has_new_industry (g : GuestProfile) (h : HostAnalysis) : bool :=
  let primary_topics := map Py.lower (default [] (primary_topics (inner_dna h))) in
  let guest_industry := Py.lower (default "" (industry g)) in
  negb (String.eqb guest_industry "")
  && negb (existsb (fun topic => Py.contains guest_industry topic) primary_topics).

Definition calculate_uniqueness_factor (g : GuestProfile) (h : HostAnalysis)
  : Py.exc Q :=
  let recent_videos := default [] (raw_video_data h) in
  let guest_name := Py.lower (default "" (name g)) in
  let guest_expertise := map Py.lower (default [] (expertise_areas g)) in
  let s := 0.7%Q in
  let '(guest_appeared, similar_topics_count) :=
    scan_titles guest_name guest_expertise recent_videos 0 in
  let s := if guest_appeared then (s - 0.3)%Q else s in
  let s :=
    if (0 <? similar_topics_count)%Z
    then (s - Py.min 0.3 (inject_Z similar_topics_count * 0.05))%Q
    else s in
  let s := if has_new_industry g h then (s + 0.1)%Q else s in
  mret (Py.max 0.1 (Py.min 1.0 s)).

(** *** Engagement potential *)

Definition timely_terms : list string :=
  ["recent"; "new"; "launch"; "announce"; "publish"; "release"].

Definition is_timely (activity : string) : bool :=
  existsb (fun term => Py.contains term (Py.lower activity)) timely_terms.

Definition calculate_engagement_potential (g : GuestProfile) (h : HostAnalysis)
  : Py.exc Q :=
  let engagement_drivers := default [] (engagement_drivers (inner_dna h)) in
  let guest_topics := default [] (key_topics g) in
  let guest_activities := default [] (recent_activities g) in
  let s := 0.5%Q in
  let timely_topics := List.filter is_timely guest_activities in
  let s := (s + Py.min 0.2 (inject_Z (len timely_topics) * 0.05))%Q in
  let s :=
    if nonempty engagement_drivers && nonempty guest_topics then
      let matches :=
        len (List.filter
               (fun driver =>
                  existsb (fun topic => overlap (Py.lower driver) (Py.lower topic))
                          guest_topics)
               engagement_drivers) in
      (s + Py.min 0.3 (inject_Z matches * 0.1))%Q
    else s in
  let previous_podcasts := default [] (previous_podcasts g) in
  experienced ← has_podcasts previous_podcasts;
  let s :=
    if (experienced : bool)
    then (s + Py.min 0.1 (inject_Z (len previous_podcasts) * 0.02))%Q
    else s in
  mret (Py.min 1.0 s).

(** *** Tiers, strengths and concerns *)

Definition determine_recommendation (overall_score : Z) : Recommendation :=
  if 85 <=? overall_score then HIGHLY_RECOMMENDED
  else if 70 <=? overall_score then RECOMMENDED
  else if 55 <=? overall_score then CONSIDER
  else if 40 <=? overall_score then LOW_PRIORITY
  else NOT_RECOMMENDED.

Definition strong_strength (f : Factor) : string :=
  match f with
  | topic_alignment => "Strong alignment with channel topics"
  | authority_score => "High authority/credibility in their field"
  | audience_appeal => "Strong potential audience appeal"
  | uniqueness_factor => "Brings fresh perspective to the channel"
  | engagement_potential => "High potential for audience engagement"
  end.

Definition moderate_strength (f : Factor) : string :=
  match f with
  | topic_alignment => "Good alignment with channel topics"
  | authority_score => "Solid credentials in their field"
  | audience_appeal => "Appealing to channel audience"
  | uniqueness_factor => "Relatively fresh perspective"
  | engagement_potential => "Good potential for engagement"
  end.

Definition concern (f : Factor) : string :=
  match f with
  | topic_alignment => "Limited alignment with channel topics"
  | authority_score => "Limited authority/credibility in relevant fields"
  | audience_appeal => "May not appeal to channel audience"
  | uniqueness_factor => "Similar to previous guests/content"
  | engagement_potential => "Limited potential for audience engagement"
  end.

(** The strings of the factors whose score, on the 100-point scale,
    satisfies [test], in the order of the dictionary. *)
Definition select (test : Q -> bool) (text : Factor -> string)
           (scores : list (Factor * Q)) : list string :=
  map (fun fs => text (fst fs))
      (List.filter (fun fs => test (snd fs * 100)%Q) scores).

Definition identify_key_strengths (scores : list (Factor * Q)) : list string :=
  let strengths := select (fun score_100 => Py.leb 80 score_100) strong_strength scores in
  if negb (nonempty strengths)
  then select (fun score_100 => Py.leb 70 score_100) moderate_strength scores
  else strengths.

Definition identify_areas_of_concern (scores : list (Factor * Q)) : list string :=
  select (fun score_100 => Py.leb score_100 40) concern scores.

(** *** Interview recommendations *)

(** The notes added for the first two interview topics that overlap a
    channel topic. *)
Definition topic_notes (guest_topics channel_topics : list string) : list string :=
  map (fun topic => "Focus on " +:+ topic +:+ " which aligns with channel interests")
      (List.filter
         (fun topic =>
            existsb (fun channel_topic => overlap (Py.lower topic) (Py.lower channel_topic))
                    channel_topics)
         (take 2 guest_topics)).

Definition generate_interview_recommendations
           (g : GuestProfile) (h : HostAnalysis) (overall_score : Z)
  : Py.exc InterviewRecommendations :=
  let guest_topics := default [] (potential_interview_topics g) in
  let guest_expertise := default [] (expertise_areas g) in
  let channel_topics := default [] (primary_topics (inner_dna h)) in
  let estimated_engagement :=
    if 80 <=? overall_score then HIGH
    else if 60 <=? overall_score then MEDIUM
    else LOW in
  notes ←
    (if 70 <=? overall_score then
       mret (["Research guest's recent work and publications"]
             ++ (if nonempty guest_topics && nonempty channel_topics
                 then topic_notes guest_topics channel_topics else []))
     else
       alignment ← calculate_topic_alignment g h;
       let concerns :=
         identify_areas_of_concern
           [(topic_alignment, alignment); (authority_score, 0.5%Q);
            (audience_appeal, 0.5%Q); (uniqueness_factor, 0.5%Q);
            (engagement_potential, 0.5%Q)] in
       mret (["Carefully prepare to bridge guest expertise with channel topics"]
             ++ (if existsb (String.eqb "Limited alignment with channel topics") concerns
                 then ["Consider narrowing interview focus to most relevant topics"]
                 else [])));
  first ← Py.index0 (default ["Unknown"] (previous_podcasts g));
  let notes :=
    if String.eqb first "Unable to determine"
    then notes ++ ["Guest may have limited podcast experience - prepare accordingly"]
    else notes in
  mret {| estimated_audience_engagement := estimated_engagement;
          preparation_notes := notes;
          focus_topics :=
            if nonempty guest_topics then take 3 guest_topics
            else take 3 guest_expertise |}.

(** *** Confidence *)

Definition determine_confidence_level (g : GuestProfile) (h : HostAnalysis)
  : Confidence :=
  let metadata :=
    default {| data_quality_score := None; confidence_score := None |}
            (extraction_metadata g) in
  let data_quality := default 0 (data_quality_score metadata) in
  let confidence_score := default 0 (confidence_score metadata) in
  let host_videos_analyzed := default 0 (videos_analyzed h) in
  if (70 <=? data_quality) && (70 <=? confidence_score) && (20 <=? host_videos_analyzed)
  then HIGH
  else if (50 <=? data_quality) && (50 <=? confidence_score) && (10 <=? host_videos_analyzed)
  then MEDIUM
  else LOW.

(** *** The overall score *)

(** The weighted sum of the five sub-scores on the 100-point scale,
    rounded to an integer. *)
Definition weighted_score (topic authority appeal uniqueness engagement : Q) : Z :=
  Py.round
    ((topic * weights topic_alignment
      + authority * weights authority_score
      + appeal * weights audience_appeal
      + uniqueness * weights uniqueness_factor
      + engagement * weights engagement_potential) * 100)%Q.

Definition breakdown (f : Factor) (s : Q) : Factor * BreakdownEntry :=
  (f, {| score := Py.round (s * 100)%Q; weight := weights f |}).

(** [now] is the reading of the wall clock taken by [datetime.now()]
    when the result is compiled. *)
Definition calculate_overall_relevance_score
           (g : GuestProfile) (h : HostAnalysis) (now : Q)
  : Py.exc RelevanceResult :=
  let guest_name := default "Unknown Guest" (name g) in
  topic ← calculate_topic_alignment g h;
  authority ← calculate_authority_score g h;
  appeal ← calculate_audience_appeal g h;
  uniqueness ← calculate_uniqueness_factor g h;
  engagement ← calculate_engagement_potential g h;
  let overall_score := weighted_score topic authority appeal uniqueness engagement in
  let recommendation := determine_recommendation overall_score in
  let scores :=
    [(topic_alignment, topic); (authority_score, authority);
     (audience_appeal, appeal); (uniqueness_factor, uniqueness);
     (engagement_potential, engagement)] in
  let key_strengths := identify_key_strengths scores in
  let areas_of_concern := identify_areas_of_concern scores in
  interview_recommendations ←
    generate_interview_recommendations g h overall_score;
  let confidence_level := determine_confidence_level g h in
  mret {| guest_name := guest_name;
          overall_relevance_score := overall_score;
          recommendation := recommendation;
          confidence_level := confidence_level;
          score_breakdown :=
            [breakdown topic_alignment topic;
             breakdown authority_score authority;
             breakdown audience_appeal appeal;
             breakdown uniqueness_factor uniqueness;
             breakdown engagement_potential engagement];
          key_strengths := key_strengths;
          areas_of_concern := areas_of_concern;
          interview_recommendations := interview_recommendations;
          analysis_timestamp := now |}.

(** *** Narration *)

(** The tier as the result dictionary spells it. *)
Definition recommendation_name (r : Recommendation) : string :=
  match r with
  | HIGHLY_RECOMMENDED => "HIGHLY_RECOMMENDED"
  | RECOMMENDED => "RECOMMENDED"
  | CONSIDER => "CONSIDER"
  | LOW_PRIORITY => "LOW_PRIORITY"
  | NOT_RECOMMENDED => "NOT_RECOMMENDED"
  end.

Definition generate_fallback_validation (relevance_analysis : RelevanceResult)
  : string :=
  let score := pretty (overall_relevance_score relevance_analysis) in
  let recommendation := recommendation relevance_analysis in
  let strengths := key_strengths relevance_analysis in
  let concerns := areas_of_concern relevance_analysis in
  match recommendation with
  | HIGHLY_RECOMMENDED | RECOMMENDED =>
      match strengths with
      | first :: _ =>
          "This guest scored " +:+ score +:+ "/100, resulting in a "
          +:+ recommendation_name recommendation
          +:+ " rating. The analysis highlights " +:+ Py.lower first
          +:+ " as a key strength. Based on the data, this appears to be a good match for the channel."
      | [] =>
          "This guest scored " +:+ score +:+ "/100, resulting in a "
          +:+ recommendation_name recommendation
          +:+ " rating. The overall alignment between guest expertise and channel content appears strong. This seems to be a suitable match for the podcast."
      end
  | CONSIDER =>
      match strengths, concerns with
      | strength :: _, concern :: _ =>
          "With a score of " +:+ score
          +:+ "/100, this guest falls into the CONSIDER category. While "
          +:+ Py.lower strength +:+ ", there are concerns about "
          +:+ Py.lower concern
          +:+ ". This guest may be worth considering but isn't an obvious perfect match."
      | _, _ =>
          "With a score of " +:+ score
          +:+ "/100, this guest falls into the CONSIDER category. The analysis shows moderate alignment with the channel, with both strengths and limitations. Further consideration is recommended."
      end
  | LOW_PRIORITY | NOT_RECOMMENDED =>
      match concerns with
      | first :: _ =>
          "This guest scored " +:+ score +:+ "/100, resulting in a "
          +:+ recommendation_name recommendation
          +:+ " rating. The primary concern is " +:+ Py.lower first
          +:+ ". Based on the analysis, there may be better candidates for this channel."
      | [] =>
          "This guest scored " +:+ score +:+ "/100, resulting in a "
          +:+ recommendation_name recommendation
          +:+ " rating. The overall alignment between guest and channel appears limited. There may be better candidates to prioritize."
      end
  end.

(** [call_llm_for_scoring_validation], given what the request of the
    client comes to.  The prompt is made of the three records, which hold
    texts, numbers and lists of them only, before the [try] is entered.  The
    generated text is stripped and returned unless it is empty; a generated
    value that is not a text has no [strip], which the handler turns into
    the fallback. *)
Definition call_llm_for_scoring_validation
           (relevance_analysis : RelevanceResult) (guest_profile : GuestProfile)
           (host_analysis : HostAnalysis)
           (reply : Py.exc (option OllamaClient.value)) : string :=
  match OllamaClient.generated_text (OllamaClient.generate_with_70b reply) with
  | OllamaClient.Text text =>
      let validation := Py.strip_string text in
      if negb (String.eqb validation "") then validation
      else generate_fallback_validation relevance_analysis
  | OllamaClient.NotText => generate_fallback_validation relevance_analysis
  end.

(** The weighted sum as the interpreter computes it: the sub-scores and the
    weights are floats, the five products are added from left to right, the
    sum is multiplied by 100, and every operation rounds its result. *)
Definition weighted_score_binary64
           (topic authority appeal uniqueness engagement : Q) : Z :=
  let w f := Binary64.rnd (weights f) in
  Py.round
    (Binary64.mul
       (Binary64.add
          (Binary64.add
             (Binary64.add
                (Binary64.add (Binary64.mul topic (w topic_alignment))
                              (Binary64.mul authority (w authority_score)))
                (Binary64.mul appeal (w audience_appeal)))
             (Binary64.mul uniqueness (w uniqueness_factor)))
          (Binary64.mul engagement (w engagement_potential)))
       100).

End GuestRelevanceScorer.

(** ** The orchestrator: [OneClickPodcastGuestTracker] *)

(** [sorted(l, key=key, reverse=True)] and [l.sort(key=key, reverse=True)]:
    the stable sort by decreasing key.  An element is inserted in front of
    the first element whose key does not exceed its own, so that elements of
    equal key stay in their original order. *)
Fixpoint insert_desc {A} (key : A -> Z) (x : A) (l : list A) : list A :=
  match l with
  | [] => [x]
  | y :: t => if key y <=? key x then x :: y :: t else y :: insert_desc key x t
  end.

Fixpoint sort_desc {A} (key : A -> Z) (l : list A) : list A :=
  match l with
  | [] => []
  | x :: t => insert_desc key x (sort_desc key t)
  end.

(** One element of the batch input. *)
Module GuestInfo.
Record t : Type := { name : option string; url : option string }.
End GuestInfo.

Module AnalysisMetadata.
Record t : Type := {
  guest_name : string;
  guest_url : string;
  host_channel_url : string;
  analysis_timestamp : Q
}.
End AnalysisMetadata.

Module RecommendationSummary.
Record t : Type := {
  overall_score : Z;
  recommendation : Recommendation;
  confidence : Confidence;
  key_decision_factors : list string
}.
End RecommendationSummary.

(** The dictionary of a completed single-guest analysis. *)
Record Analysis : Type := {
  analysis_metadata : AnalysisMetadata.t;
  guest_profile : GuestProfile;
  host_analysis : HostAnalysis;
  relevance_analysis : RelevanceResult;
  llm_validation : string;
  final_report : string;
  recommendation_summary : RecommendationSummary.t
}.

(** What the single-guest operation returns: the dictionary above, or the
    structural error record, which is the one that has an ["error"] key. *)
Inductive AnalysisResult : Type :=
| Completed (a : Analysis)
| Failed (error : string) (analysis_metadata : AnalysisMetadata.t).

(** An element of [failed_analyses]. *)
Module FailedAnalysis.
Record t : Type := { guest_info : GuestInfo.t; error : string }.
End FailedAnalysis.

(** An element of [ranking]. *)
Module RankingEntry.
Record t : Type := {
  rank : Z;
  name : string;
  score : Z;
  recommendation : Recommendation
}.
End RankingEntry.

Module BatchMetadata.
Record t : Type := {
  total_guests : Z;
  successful_analyses : Z;
  failed_analyses : Z;
  host_channel_url : string;
  analysis_timestamp : Q
}.
End BatchMetadata.

Record BatchResult : Type := {
  batch_metadata : BatchMetadata.t;
  guest_analyses : list Analysis;
  failed_analyses : list FailedAnalysis.t;
  batch_summary : string;
  ranking : list RankingEntry.t
}.

(** An entry of [self.host_cache]. *)
Record CacheEntry : Type := { data : HostAnalysis; timestamp : Q }.

(** The state the orchestrator runs in: its cache, the wall clock, and the
    record of the calls made to the two analysers (most recent first). *)
Record World : Type := {
  host_cache : gmap string CacheEntry;
  clock : Q;
  host_calls : list string;
  guest_calls : list (string * string)
}.

(** The external collaborators.  A call is made at a time and returns at a
    time; the guest analysis may raise, the host analysis reports a failure
    through an ["error"] key, the narration falls back to a template. *)
Record Collaborators : Type := {
  extract_enhanced_person_name : string -> string;
  analyze_guest : string -> string -> Q -> Py.exc GuestProfile * Q;
  analyze_host_channel : string -> Q -> HostAnalysis * Q;
  call_llm_for_scoring_validation :
    RelevanceResult -> GuestProfile -> HostAnalysis -> Q -> string * Q;
  generate_comprehensive_report :
    GuestProfile -> HostAnalysis -> RelevanceResult -> string -> Q -> string;
  generate_batch_summary : list Analysis -> list FailedAnalysis.t -> string
}.

Module OneClickPodcastGuestTracker.

Definition set_clock (t : Q) (w : World) : World :=
  {| host_cache := host_cache w; clock := t;
     host_calls := host_calls w; guest_calls := guest_calls w |}.

Definition log_host_call (url : string) (w : World) : World :=
  {| host_cache := host_cache w; clock := clock w;
     host_calls := url :: host_calls w; guest_calls := guest_calls w |}.

Definition log_guest_call (guest_name guest_url : string) (w : World) : World :=
  {| host_cache := host_cache w; clock := clock w;
     host_calls := host_calls w;
     guest_calls := (guest_name, guest_url) :: guest_calls w |}.

(** [self.host_cache[url] = {'data': h, 'timestamp': time.time()}] *)
Definition store (url : string) (h : HostAnalysis) (w : World) : World :=
  {| host_cache := <[ url := {| data := h; timestamp := clock w |} ]> (host_cache w);
     clock := clock w;
     host_calls := host_calls w; guest_calls := guest_calls w |}.

(** [await self.host_analyzer.analyze_host_channel(url)] *)
Definition run_host_analyzer (c : Collaborators) (url : string) (w : World)
  : HostAnalysis * World :=
  let '(h, t) := analyze_host_channel c url (clock w) in
  (h, set_clock t (log_host_call url w)).

(** The cache check of step 2: the stored analysis when caching is on,
    the key is present and the entry is younger than 86400 seconds. *)
Definition cached (use_cache : bool) (url : string) (w : World)
  : option HostAnalysis :=
  if use_cache then
    match host_cache w !! url with
    | Some entry =>
        let cache_age := (clock w - timestamp entry)%Q in
        if Py.ltb cache_age 86400 then Some (data entry) else None
    | None => None
    end
  else None.

(** The body of [if not host_analysis:]: run the analyser and store its
    result unless caching is off or the result has an ["error"] key. *)
Definition analyze_and_store (c : Collaborators) (use_cache : bool)
           (url : string) (w : World) : HostAnalysis * World :=
  let '(host_analysis, w) := run_host_analyzer c url w in
  if use_cache && negb (bool_decide (is_Some (error host_analysis)))
  then (host_analysis, store url host_analysis w)
  else (host_analysis, w).

(** Step 2 of the single-guest operation: the host analysis from the
    cache, or from the analyser when the cache gave nothing, or gave an
    empty dictionary. *)
Definition obtain_host_analysis (c : Collaborators) (use_cache : bool)
           (url : string) (w : World) : HostAnalysis * World :=
  match cached use_cache url w with
  | Some host_analysis =>
      if host_truthy host_analysis then (host_analysis, w)
      else analyze_and_store c use_cache url w
  | None => analyze_and_store c use_cache url w
  end.

(** [factor.replace('_', ' ').title()] *)
Definition factor_title (f : Factor) : string :=
  match f with
  | topic_alignment => "Topic Alignment"
  | authority_score => "Authority Score"
  | audience_appeal => "Audience Appeal"
  | uniqueness_factor => "Uniqueness Factor"
  | engagement_potential => "Engagement Potential"
  end.

Definition extract_key_decision_factors (r : RelevanceResult) : list string :=
  let scores := map (fun fe => (fst fe, score (snd fe))) (score_breakdown r) in
  let sorted_factors := sort_desc snd scores in
  let factors :=
    map (fun fs => factor_title (fst fs) +:+ ": " +:+ pretty (snd fs) +:+ "/100")
        (List.filter (fun fs => 60 <? snd fs) (take 3 sorted_factors)) in
  if overall_relevance_score r <? 60 then
    match areas_of_concern r with
    | first :: _ => factors ++ ["Main concern: " +:+ first]
    | [] => factors
    end
  else factors.

Definition metadata_of (guest_name guest_url host_channel_url : string)
           (w : World) : AnalysisMetadata.t :=
  {| AnalysisMetadata.guest_name := guest_name;
     AnalysisMetadata.guest_url := guest_url;
     AnalysisMetadata.host_channel_url := host_channel_url;
     AnalysisMetadata.analysis_timestamp := clock w |}.

(** The single-guest operation.  Everything happens inside one [try];
    an exception of any step yields the structural error record. *)
Definition resolve_name (c : Collaborators) (guest_name guest_url : string)
  : string :=
  if String.eqb guest_name "" || String.eqb guest_name "Unknown"
  then extract_enhanced_person_name c guest_url else guest_name.

Definition analyze_podcast_guest_complete (c : Collaborators)
           (guest_name guest_url host_channel_url : string) (use_cache : bool)
           (w : World) : AnalysisResult * World :=
  let guest_name := resolve_name c guest_name guest_url in
  let '(extracted, t) := analyze_guest c guest_name guest_url (clock w) in
  let w := set_clock t (log_guest_call guest_name guest_url w) in
  match extracted with
  | Py.Raise e =>
      (Failed (Py.str_of_exn e)
              (metadata_of guest_name guest_url host_channel_url w), w)
  | Py.Ok guest_profile =>
      let '(host_analysis, w) := obtain_host_analysis c use_cache host_channel_url w in
      match GuestRelevanceScorer.calculate_overall_relevance_score
              guest_profile host_analysis (clock w) with
      | Py.Raise e =>
          (Failed (Py.str_of_exn e)
                  (metadata_of guest_name guest_url host_channel_url w), w)
      | Py.Ok relevance_analysis =>
          let '(llm_validation, t) :=
            call_llm_for_scoring_validation c relevance_analysis guest_profile
                                            host_analysis (clock w) in
          let w := set_clock t w in
          let final_report :=
            generate_comprehensive_report c guest_profile host_analysis
                                          relevance_analysis llm_validation (clock w) in
          (Completed
             {| analysis_metadata :=
                  metadata_of guest_name guest_url host_channel_url w;
                guest_profile := guest_profile;
                host_analysis := host_analysis;
                relevance_analysis := relevance_analysis;
                llm_validation := llm_validation;
                final_report := final_report;
                recommendation_summary :=
                  {| RecommendationSummary.overall_score :=
                       overall_relevance_score relevance_analysis;
                     RecommendationSummary.recommendation :=
                       recommendation relevance_analysis;
                     RecommendationSummary.confidence :=
                       confidence_level relevance_analysis;
                     RecommendationSummary.key_decision_factors :=
                       extract_key_decision_factors relevance_analysis |} |},
           w)
      end
  end.

(** [d[key]] on a batch input element. *)
Definition getitem (key : string) (field : option string) : Py.exc string :=
  match field with
  | Some v => Py.Ok v
  | None => Py.Raise (Py.KeyError key)
  end.

(** The body of the [try] in the batch loop. *)
Definition attempt (c : Collaborators) (host_channel_url : string)
           (guest_info : GuestInfo.t) (w : World)
  : Py.exc AnalysisResult * World :=
  match getitem "name" (GuestInfo.name guest_info) with
  | Py.Raise e => (Py.Raise e, w)
  | Py.Ok guest_name =>
      match getitem "url" (GuestInfo.url guest_info) with
      | Py.Raise e => (Py.Raise e, w)
      | Py.Ok guest_url =>
          let '(result, w) :=
            analyze_podcast_guest_complete c guest_name guest_url
                                           host_channel_url true w in
          (Py.Ok result, w)
      end
  end.

(** The batch loop, with its two accumulators. *)
Fixpoint analyze_each (c : Collaborators) (host_channel_url : string)
         (guest_list : list GuestInfo.t)
         (results : list Analysis) (failed : list FailedAnalysis.t) (w : World)
  : list Analysis * list FailedAnalysis.t * World :=
  match guest_list with
  | [] => (results, failed, w)
  | guest_info :: rest =>
      let '(outcome, w) := attempt c host_channel_url guest_info w in
      match outcome with
      | Py.Ok (Completed result) =>
          analyze_each c host_channel_url rest (results ++ [result]) failed w
      | Py.Ok (Failed error _) =>
          analyze_each c host_channel_url rest results
            (failed ++ [{| FailedAnalysis.guest_info := guest_info;
                           FailedAnalysis.error := error |}]) w
      | Py.Raise e =>
          analyze_each c host_channel_url rest results
            (failed ++ [{| FailedAnalysis.guest_info := guest_info;
                           FailedAnalysis.error := Py.str_of_exn e |}]) w
      end
  end.

(** The sort key [x['recommendation_summary']['overall_score']]. *)
Definition score_of (x : Analysis) : Z :=
  RecommendationSummary.overall_score (recommendation_summary x).

Definition ranking_entry (i : nat) (result : Analysis) : RankingEntry.t :=
  {| RankingEntry.rank := Z.of_nat i + 1;
     RankingEntry.name := AnalysisMetadata.guest_name (analysis_metadata result);
     RankingEntry.score :=
       RecommendationSummary.overall_score (recommendation_summary result);
     RankingEntry.recommendation :=
       RecommendationSummary.recommendation (recommendation_summary result) |}.

(** The head of the batch operation: the host analysis, made once and
    stored whatever it is. *)
Definition analyze_host_once (c : Collaborators) (host_channel_url : string)
           (w : World) : World :=
  let '(host_analysis, w) := run_host_analyzer c host_channel_url w in
  store host_channel_url host_analysis w.

Definition batch_analyze_guests (c : Collaborators)
           (guest_list : list GuestInfo.t) (host_channel_url : string) (w : World)
  : BatchResult * World :=
  let w := analyze_host_once c host_channel_url w in
  let '(results, failed, w) := analyze_each c host_channel_url guest_list [] [] w in
  let results := sort_desc score_of results in
  ({| batch_metadata :=
        {| BatchMetadata.total_guests := Z.of_nat (length guest_list);
           BatchMetadata.successful_analyses := Z.of_nat (length results);
           BatchMetadata.failed_analyses := Z.of_nat (length failed);
           BatchMetadata.host_channel_url := host_channel_url;
           BatchMetadata.analysis_timestamp := clock w |};
      guest_analyses := results;
      failed_analyses := failed;
      batch_summary := generate_batch_summary c results failed;
      ranking := imap ranking_entry results |}, w).

End OneClickPodcastGuestTracker.

(** ** The API layer: [PodcastGuestTrackerAPI] *)

Module PodcastGuestTrackerAPI.

(** The three dictionaries that an endpoint returns: [{'error': ...}],
    [{'success': True, 'data': ...}] and [{'success': False, 'error': ...}]. *)
Inductive Response : Type :=
| Invalid (error : string)
| Success (data : AnalysisResult)
| Failure (error : string).

Definition required_fields : list string :=
  ["guest_name"; "guest_url"; "host_channel_url"].

(** The loop over the required fields: the first one that is not a key of
    the request. *)
Fixpoint first_missing (fields : list string) (request_data : gmap string string)
  : option string :=
  match fields with
  | [] => None
  | field :: rest =>
      match request_data !! field with
      | None => Some field
      | Some _ => first_missing rest request_data
      end
  end.

(** [request_data[key]] *)
Definition getitem (key : string) (request_data : gmap string string)
  : Py.exc string :=
  match request_data !! key with
  | Some v => Py.Ok v
  | None => Py.Raise (Py.KeyError key)
  end.

(** [analyze_single_guest].  The tracker of the API object keeps its cache
    from one request to the next. *)
Definition analyze_single_guest (c : Collaborators)
           (request_data : gmap string string) (w : World) : Response * World :=
  match first_missing required_fields request_data with
  | Some field => (Invalid ("Missing required field: " +:+ field), w)
  | None =>
      match guest_name ← getitem "guest_name" request_data;
            guest_url ← getitem "guest_url" request_data;
            host_channel_url ← getitem "host_channel_url" request_data;
            mret (guest_name, guest_url, host_channel_url) with
      | Py.Ok (guest_name, guest_url, host_channel_url) =>
          let '(result, w) :=
            OneClickPodcastGuestTracker.analyze_podcast_guest_complete
              c guest_name guest_url host_channel_url true w in
          (Success result, w)
      | Py.Raise e => (Failure (Py.str_of_exn e), w)
      end
  end.

End PodcastGuestTrackerAPI.

(** ** The command-line runner: [run_analyzer] *)

Module RunAnalyzer.

(** A value of the summary dictionary. *)
Inductive value : Type :=
| Int (z : Z)
| Str (s : string)
| Strs (l : list string).

Definition confidence_name (c : Confidence) : string :=
  match c with
  | HIGH => "HIGH"
  | MEDIUM => "MEDIUM"
  | LOW => "LOW"
  end.

(** The ["recommendation_summary"] dictionary of a completed analysis, key
    by key. *)
Definition summary_items (s : RecommendationSummary.t) : list (string * value) :=
  [("overall_score", Int (RecommendationSummary.overall_score s));
   ("recommendation",
    Str (GuestRelevanceScorer.recommendation_name
           (RecommendationSummary.recommendation s)));
   ("confidence", Str (confidence_name (RecommendationSummary.confidence s)));
   ("key_decision_factors", Strs (RecommendationSummary.key_decision_factors s))].

(** [d[key]] on a dictionary given by its items. *)
Fixpoint subscript (key : string) (items : list (string * value)) : Py.exc value :=
  match items with
  | [] => Py.Raise (Py.KeyError key)
  | (k, v) :: rest => if String.eqb k key then Py.Ok v else subscript key rest
  end.

(** [result['recommendation_summary'][key]]; the error record has no
    summary. *)
Definition summary_field (result : AnalysisResult) (key : string)
  : Py.exc value :=
  match result with
  | Completed a => subscript key (summary_items (recommendation_summary a))
  | Failed _ _ => Py.Raise (Py.KeyError "recommendation_summary")
  end.

(** [s.replace(a, b)] for one-character [a] and [b]. *)
Fixpoint replace_char (a b : ascii) (s : string) : string :=
  match s with
  | EmptyString => EmptyString
  | String c t =>
      String (if Ascii.eqb c a then b else c) (replace_char a b t)
  end.

Definition output_file (guest_name : string) : string :=
  Py.lower (replace_char " " "_" guest_name) +:+ "_analysis.json".

(** The tracker that the runner makes starts with an empty cache. *)
Definition new_tracker (w : World) : World :=
  {| host_cache := ∅; clock := clock w;
     host_calls := host_calls w; guest_calls := guest_calls w |}.

(** [analyze_guest].  A run that gets to its end has written the result
    to the output file and returns it; the pair stands for both. *)
Definition analyze_guest (c : Collaborators)
           (guest_name guest_url host_channel : string) (w : World)
  : Py.exc (string * AnalysisResult) * World :=
  let '(result, w) :=
    OneClickPodcastGuestTracker.analyze_podcast_guest_complete
      c guest_name guest_url host_channel true (new_tracker w) in
  (_ ← summary_field result "overall_score";
   _ ← summary_field result "recommendation";
   _ ← summary_field result "confidence_level";
   _ ← summary_field result "explanation_points";
   mret (output_file guest_name, result), w).

End RunAnalyzer.

(** ** The quality of the data on a guest: [PremiumGuestAnalyzer] *)

Module PremiumGuestAnalyzer.

Record Profile : Type := {
  bio : option string;
  content_snippet : option string
}.

Record SearchResult : Type := {
  title : string;
  url : string;
  content : string
}.

Record AnalysisData : Type := {
  profiles : option (list Profile);
  search_results : option (list SearchResult);
  data_sources : option (list string)
}.

(** The truth value of [d.get(key)] for a text. *)
Definition truthy (field : option string) : bool :=
  match field with
  | Some s => negb (String.eqb s "")
  | None => false
  end.

(** The body of the loop over the profiles. *)
Definition profile_step (score : Z) (profile : Profile) : Z :=
  let score :=
    if truthy (bio profile)
       && negb (Py.contains "manual" (Py.lower (default "" (bio profile))))
    then score + 30 else score in
  if truthy (content_snippet profile)
     && (50 <? Py.len (default "" (content_snippet profile)))
  then score + 20 else score.

Definition calculate_data_quality (analysis_data : AnalysisData) : Z :=
  let score := fold_left profile_step (default [] (profiles analysis_data)) 0 in
  let search_results := default [] (search_results analysis_data) in
  let score :=
    if GuestRelevanceScorer.nonempty search_results
       && (0 <? GuestRelevanceScorer.len search_results)
    then score + 25 else score in
  let sources := default [] (data_sources analysis_data) in
  let score := score + Z.of_nat (size (list_to_set sources : gset string)) * 5 in
  Z.min score 100.

End PremiumGuestAnalyzer.

(** ** Sample inputs *)

Module Samples.

(** The guest profile and the host analysis with no key at all. *)
Definition no_guest : GuestProfile :=
  {| name := None; industry := None; bio_summary := None;
     expertise_areas := None; key_topics := None;
     authority_indicators := None; social_following := None;
     previous_podcasts := None; popularity_indicators := None;
     recent_activities := None; potential_interview_topics := None;
     extraction_metadata := None |}.

Definition dna_with_topics (topics : list string) : option Insights.t :=
  Some {| Insights.channel_dna :=
            Some {| primary_topics := Some topics; audience_profile := None;
                    preferred_guest_types := None; engagement_drivers := None;
                    content_style := None |} |}.

Definition video_titled (t : string) : Video :=
  {| title := Some t; view_count := None; like_count := None;
     comment_count := None |}.

(** The end-to-end scenario of the specification. *)
Definition scenario_guest : GuestProfile :=
  {| name := None; industry := None; bio_summary := None;
     expertise_areas := Some ["artificial intelligence"; "startups"];
     key_topics := None;
     authority_indicators := Some ["Founder"; "CEO"];
     social_following := Some {[ "twitter" := "2M" ]};
     previous_podcasts := None; popularity_indicators := None;
     recent_activities := None; potential_interview_topics := None;
     extraction_metadata := None |}.

Definition scenario_host : HostAnalysis :=
  {| channel_url := None; videos_analyzed := None;
     channel_dna := dna_with_topics ["technology"; "entrepreneurship"];
     raw_video_data := None; error := None |}.


(** The three videos of the mock host analyser, and a guest who was on
    the second one and whose expertise is the subject of the first. *)
Definition mock_videos : list Video :=
  [video_titled "AI and the Future of Technology with Dr. Smith";
   video_titled "Building Successful Startups with Jane Doe";
   video_titled "The Science of Learning with Prof. Johnson"].

Definition mock_host : HostAnalysis :=
  {| channel_url := Some "https://youtube.com/@lexfridman";
     videos_analyzed := Some 3;
     channel_dna := dna_with_topics ["Technology"; "Entrepreneurship"; "Science"];
     raw_video_data := Some mock_videos;
     error := None |}.

Definition returning_guest : GuestProfile :=
  {| name := Some "Jane Doe"; industry := None; bio_summary := None;
     expertise_areas := Some ["Technology"]; key_topics := None;
     authority_indicators := None; social_following := None;
     previous_podcasts := None; popularity_indicators := None;
     recent_activities := None; potential_interview_topics := None;
     extraction_metadata := None |}.

(** A profile that lists no earlier podcast appearance. *)
Definition never_on_a_podcast : GuestProfile :=
  {| name := Some "Ada"; industry := None; bio_summary := None;
     expertise_areas := None; key_topics := None;
     authority_indicators := None; social_following := None;
     previous_podcasts := Some []; popularity_indicators := None;
     recent_activities := None; potential_interview_topics := None;
     extraction_metadata := None |}.

(** The dictionary that the host analyser returns when it fails. *)
Definition error_host : HostAnalysis :=
  {| channel_url := None; videos_analyzed := None; channel_dna := None;
     raw_video_data := None; error := Some "Host channel analysis failed" |}.

Definition profile_named (n : string) : GuestProfile :=
  {| name := Some n; industry := None; bio_summary := None;
     expertise_areas := None; key_topics := None;
     authority_indicators := None; social_following := None;
     previous_podcasts := None; popularity_indicators := None;
     recent_activities := None; potential_interview_topics := None;
     extraction_metadata := None |}.

(** Collaborators that take one second per call: the guest analysis
    returns a profile that has only a name, unless the name is empty; the
    host analysis is the one of the mock analyser. *)
Definition mock_collaborators : Collaborators :=
  {| extract_enhanced_person_name := fun _ => "";
     analyze_guest := fun guest_name _ t =>
       (if String.eqb guest_name ""
        then Py.Raise (Py.RuntimeError "no such person")
        else Py.Ok (profile_named guest_name), t + 1)%Q;
     analyze_host_channel := fun _ t => (mock_host, t + 1)%Q;
     call_llm_for_scoring_validation := fun _ _ _ t => ("", t + 1)%Q;
     generate_comprehensive_report := fun _ _ _ _ _ => "";
     generate_batch_summary := fun _ _ => "" |}.

(** The same, with a host analyser that fails. *)
Definition failing_host_collaborators : Collaborators :=
  {| extract_enhanced_person_name := extract_enhanced_person_name mock_collaborators;
     analyze_guest := analyze_guest mock_collaborators;
     analyze_host_channel := fun _ t => (error_host, t + 1)%Q;
     call_llm_for_scoring_validation :=
       call_llm_for_scoring_validation mock_collaborators;
     generate_comprehensive_report := generate_comprehensive_report mock_collaborators;
     generate_batch_summary := generate_batch_summary mock_collaborators |}.

Definition lex : string := "https://youtube.com/@lexfridman".

(** A batch in which the first element has a name that resolves to
    nothing and the second has no address. *)
Definition hopeless_batch : list GuestInfo.t :=
  [{| GuestInfo.name := Some ""; GuestInfo.url := Some "https://twitter.com/nobody" |};
   {| GuestInfo.name := Some "Naval Ravikant"; GuestInfo.url := None |}].

Definition fresh_world : World :=
  {| host_cache := ∅; clock := 0; host_calls := []; guest_calls := [] |}.

Definition mock_entry : CacheEntry := {| data := mock_host; timestamp := 1000 |}.

(** A world whose cache holds the mock analysis of one channel, stored at
    time 1000, read at a given time. *)
Definition world_at (t : Q) : World :=
  {| host_cache := {[ lex := mock_entry ]}; clock := t;
     host_calls := []; guest_calls := [] |}.

(** The first two guests of the sample batch file. *)
Definition sample_batch : list GuestInfo.t :=
  [{| GuestInfo.name := Some "Naval Ravikant";
      GuestInfo.url := Some "https://twitter.com/naval" |};
   {| GuestInfo.name := Some "Tim Ferriss";
      GuestInfo.url := Some "https://twitter.com/tferriss" |}].

(** A result with no concern. *)
Definition plain_result : RelevanceResult :=
  {| guest_name := "Ada"; overall_relevance_score := 54;
     recommendation := LOW_PRIORITY; confidence_level := LOW;
     score_breakdown :=
       [GuestRelevanceScorer.breakdown topic_alignment 0.5;
        GuestRelevanceScorer.breakdown authority_score 0.5;
        GuestRelevanceScorer.breakdown audience_appeal 0.6;
        GuestRelevanceScorer.breakdown uniqueness_factor 0.7;
        GuestRelevanceScorer.breakdown engagement_potential 0.5];
     key_strengths := ["Relatively fresh perspective"];
     areas_of_concern := [];
     interview_recommendations :=
       {| estimated_audience_engagement := LOW;
          preparation_notes :=
            ["Carefully prepare to bridge guest expertise with channel topics"];
          focus_topics := [] |};
     analysis_timestamp := 0 |}.

(** A request for a guest whose name resolves to nothing. *)
Definition nameless_request : gmap string string :=
  {[ "guest_name" := ""; "guest_url" := "https://twitter.com/nobody";
     "host_channel_url" := lex ]}.

(** The profile recorded when a page could not be read, and the data of an
    analysis that found nothing else. *)
Definition unread_profile : PremiumGuestAnalyzer.Profile :=
  {| PremiumGuestAnalyzer.bio := Some "Manual verification required";
     PremiumGuestAnalyzer.content_snippet := Some "Unable to extract content" |}.

Definition twitter_only : PremiumGuestAnalyzer.AnalysisData :=
  {| PremiumGuestAnalyzer.profiles := Some [];
     PremiumGuestAnalyzer.search_results := Some [];
     PremiumGuestAnalyzer.data_sources := Some ["twitter"] |}.

(** A guest whose expertise is the channel's own topics. *)
Definition matching_guest : GuestProfile :=
  {| name := None; industry := None; bio_summary := None;
     expertise_areas := Some ["technology"; "entrepreneurship"];
     key_topics := None;
     authority_indicators := Some ["Founder"; "CEO"];
     social_following := Some {[ "twitter" := "2M" ]};
     previous_podcasts := None; popularity_indicators := None;
     recent_activities := None; potential_interview_topics := None;
     extraction_metadata := None |}.

(** A result with a low score and a concern. *)
Definition concerned_result : RelevanceResult :=
  {| guest_name := "Ada"; overall_relevance_score := 48;
     recommendation := LOW_PRIORITY; confidence_level := LOW;
     score_breakdown :=
       [GuestRelevanceScorer.breakdown topic_alignment 0;
        GuestRelevanceScorer.breakdown authority_score 0.9;
        GuestRelevanceScorer.breakdown audience_appeal 0.65;
        GuestRelevanceScorer.breakdown uniqueness_factor 0.7;
        GuestRelevanceScorer.breakdown engagement_potential 0.5];
     key_strengths := ["High authority/credibility in their field"];
     areas_of_concern := ["Limited alignment with channel topics"];
     interview_recommendations :=
       {| estimated_audience_engagement := LOW;
          preparation_notes :=
            ["Carefully prepare to bridge guest expertise with channel topics"];
          focus_topics := [] |};
     analysis_timestamp := 0 |}.

End Samples.

(** ** Notions used in the statements *)

(** The position of a tier in the order of the five tiers, lowest first. *)
Definition tier_rank (r : Recommendation) : Z :=
  match r with
  | NOT_RECOMMENDED => 0
  | LOW_PRIORITY => 1
  | CONSIDER => 2
  | RECOMMENDED => 3
  | HIGHLY_RECOMMENDED => 4
  end.

(** The lowercased titles of the sampled videos, the guest's lowercased
    name and the guest's lowercased expertise areas. *)
Definition titles_of (h : HostAnalysis) : list string :=
  map (fun video => Py.lower (default "" (title video)))
      (default [] (raw_video_data h)).

Definition lower_name (g : GuestProfile) : string :=
  Py.lower (default "" (name g)).

Definition lower_expertise (g : GuestProfile) : list string :=
  map Py.lower (default [] (expertise_areas g)).

(** Whether some title contains the name; the titles that precede the
    first such title (all of them when there is none); and the number of
    titles that contain an expertise area. *)
Definition name_in_titles (guest_name : string) (titles : list string) : bool :=
  existsb (Py.contains guest_name) titles.

Fixpoint titles_before_name (guest_name : string) (titles : list string)
  : list string :=
  match titles with
  | [] => []
  | t :: rest =>
      if Py.contains guest_name t then []
      else t :: titles_before_name guest_name rest
  end.

Definition similar_titles (expertise : list string) (titles : list string) : Z :=
  Z.of_nat (length (List.filter
                      (fun t => existsb (fun e => Py.contains e t) expertise)
                      titles)).

Definition clamp (s : Q) : Q := Py.max 0.1 (Py.min 1.0 s).

(** The uniqueness factor in the words of the specification: the flat
    repeat-guest penalty when the name occurs in a title, and only
    otherwise the penalty for the titles that contain an expertise area. *)
Definition uniqueness_as_specified (g : GuestProfile) (h : HostAnalysis) : Q :=
  let s := 0.7%Q in
  let s :=
    if name_in_titles (lower_name g) (titles_of h) then (s - 0.3)%Q
    else
      (s - Py.min 0.3
             (inject_Z (similar_titles (lower_expertise g) (titles_of h)) * 0.05))%Q in
  let s := if GuestRelevanceScorer.has_new_industry g h then (s + 0.1)%Q else s in
  clamp s.

(** The uniqueness factor as the scan computes it: both penalties apply,
    the second one for the titles scanned before the scan leaves. *)
Definition uniqueness_as_scanned (g : GuestProfile) (h : HostAnalysis) : Q :=
  let scanned := titles_before_name (lower_name g) (titles_of h) in
  let similar := similar_titles (lower_expertise g) scanned in
  let s := 0.7%Q in
  let s := if name_in_titles (lower_name g) (titles_of h) then (s - 0.3)%Q else s in
  let s := if 0 <? similar then (s - Py.min 0.3 (inject_Z similar * 0.05))%Q else s in
  let s := if GuestRelevanceScorer.has_new_industry g h then (s + 0.1)%Q else s in
  clamp s.

(** A result with its time stamp replaced. *)
Definition with_timestamp (t : Q) (r : RelevanceResult) : RelevanceResult :=
  {| guest_name := guest_name r;
     overall_relevance_score := overall_relevance_score r;
     recommendation := recommendation r;
     confidence_level := confidence_level r;
     score_breakdown := score_breakdown r;
     key_strengths := key_strengths r;
     areas_of_concern := areas_of_concern r;
     interview_recommendations := interview_recommendations r;
     analysis_timestamp := t |}.

(** The outcome of every guest of a batch, in input order: each attempt
    starts in the world that the previous one left. *)
Fixpoint outcomes (c : Collaborators) (host_channel_url : string)
         (guest_list : list GuestInfo.t) (w : World)
  : list (GuestInfo.t * Py.exc AnalysisResult) :=
  match guest_list with
  | [] => []
  | guest_info :: rest =>
      let '(outcome, w) :=
        OneClickPodcastGuestTracker.attempt c host_channel_url guest_info w in
      (guest_info, outcome) :: outcomes c host_channel_url rest w
  end.

(** An outcome is a success, which is a completed analysis, or a failure,
    which is an error result or an exception. *)
Definition success_of (o : GuestInfo.t * Py.exc AnalysisResult) : option Analysis :=
  match snd o with
  | Py.Ok (Completed a) => Some a
  | _ => None
  end.

Definition failure_of (o : GuestInfo.t * Py.exc AnalysisResult)
  : option FailedAnalysis.t :=
  match snd o with
  | Py.Ok (Completed _) => None
  | Py.Ok (Failed error _) =>
      Some {| FailedAnalysis.guest_info := fst o; FailedAnalysis.error := error |}
  | Py.Raise e =>
      Some {| FailedAnalysis.guest_info := fst o;
              FailedAnalysis.error := Py.str_of_exn e |}
  end.

(** The call to the guest analyser that a batch element leads to, if it
    has both keys. *)
Definition call_of (c : Collaborators) (guest_info : GuestInfo.t)
  : option (string * string) :=
  guest_name ← GuestInfo.name guest_info;
  guest_url ← GuestInfo.url guest_info;
  Some (OneClickPodcastGuestTracker.resolve_name c guest_name guest_url, guest_url).

(** What a ranking entry says of a guest, apart from the rank, and the
    same data read from an analysis. *)
Definition unranked (e : RankingEntry.t) : string * Z * Recommendation :=
  (RankingEntry.name e, RankingEntry.score e, RankingEntry.recommendation e).

Definition summary_of (a : Analysis) : string * Z * Recommendation :=
  (AnalysisMetadata.guest_name (analysis_metadata a),
   RecommendationSummary.overall_score (recommendation_summary a),
   RecommendationSummary.recommendation (recommendation_summary a)).

(** The entries of a given score. *)
Definition with_score (s : Z) (l : list (string * Z * Recommendation))
  : list (string * Z * Recommendation) :=
  List.filter (fun e => snd (fst e) =? s) l.

(** A list of scores in which every score is at least every later one. *)
Definition descending (l : list Z) : Prop :=
  StronglySorted (fun a b => b <= a) l.

(** The position of a level in the order LOW, MEDIUM, HIGH. *)
Definition level_rank (c : Confidence) : Z :=
  match c with
  | LOW => 0
  | MEDIUM => 1
  | HIGH => 2
  end.

(** The three numbers that the confidence level is read from, with their
    defaults. *)
Definition data_quality_of (g : GuestProfile) : Z :=
  default 0 (data_quality_score
               (default {| data_quality_score := None; confidence_score := None |}
                        (extraction_metadata g))).

Definition confidence_score_of (g : GuestProfile) : Z :=
  default 0 (confidence_score
               (default {| data_quality_score := None; confidence_score := None |}
                        (extraction_metadata g))).

Definition videos_analyzed_of (h : HostAnalysis) : Z :=
  default 0 (videos_analyzed h).

(** Whether some expertise area and some primary topic contain one
    another, case aside. *)
Definition direct_match (g : GuestProfile) (h : HostAnalysis) : bool :=
  existsb
    (fun expertise =>
       existsb (fun topic =>
                  GuestRelevanceScorer.overlap (Py.lower expertise) (Py.lower topic))
               (default [] (primary_topics (inner_dna h))))
    (default [] (expertise_areas g)).

(** A text starts, or ends, with a character that is not white space. *)
Definition starts_trimmed (s : string) : Prop :=
  exists a t, list_ascii_of_string s = a :: t /\ Py.isspace a = false.

Definition ends_trimmed (s : string) : Prop :=
  exists a t, rev (list_ascii_of_string s) = a :: t /\ Py.isspace a = false.

(** [analysis_data['profiles'].append(profile)] and
    [analysis_data['data_sources'].append(source)] *)
Definition add_profile (profile : PremiumGuestAnalyzer.Profile)
           (d : PremiumGuestAnalyzer.AnalysisData) : PremiumGuestAnalyzer.AnalysisData :=
  {| PremiumGuestAnalyzer.profiles :=
       Some (default [] (PremiumGuestAnalyzer.profiles d) ++ [profile]);
     PremiumGuestAnalyzer.search_results := PremiumGuestAnalyzer.search_results d;
     PremiumGuestAnalyzer.data_sources := PremiumGuestAnalyzer.data_sources d |}.

Definition add_source (source : string)
           (d : PremiumGuestAnalyzer.AnalysisData) : PremiumGuestAnalyzer.AnalysisData :=
  {| PremiumGuestAnalyzer.profiles := PremiumGuestAnalyzer.profiles d;
     PremiumGuestAnalyzer.search_results := PremiumGuestAnalyzer.search_results d;
     PremiumGuestAnalyzer.data_sources :=
       Some (default [] (PremiumGuestAnalyzer.data_sources d) ++ [source]) |}.

(** How near to half an integer the exact weighted sum has to be for its
    binary64 value to round to another integer. *)
Definition tie_margin : Q := 1 # 4000000000000.

(** The scores of the breakdown, factor by factor. *)
Definition factor_scores (r : RelevanceResult) : list (Factor * Z) :=
  map (fun fe => (fst fe, score (snd fe))) (score_breakdown r).

(** The line of a factor, and whether a line is the one of a concern. *)
Definition factor_line (fs : Factor * Z) : string :=
  OneClickPodcastGuestTracker.factor_title (fst fs)
  +:+ ": " +:+ pretty (snd fs) +:+ "/100".

Definition is_concern_line (line : string) : bool :=
  String.prefix "Main concern: " line.

(** * Properties *)

(** ** Properties of the builtins *)

Lemma ltb_lt (a b : Q) : Py.ltb a b = true <-> (a < b)%Q.
Proof.
  unfold Py.ltb. rewrite negb_true_iff.
  destruct (Qle_bool b a) eqn:E.
  - apply Qle_bool_iff in E. split; [discriminate | intros H; lra].
  - split; [intros _ | reflexivity].
    apply Qnot_le_lt. intros H. apply Qle_bool_iff in H. congruence.
Qed.

Lemma ltb_ge (a b : Q) : Py.ltb a b = false <-> (b <= a)%Q.
Proof.
  unfold Py.ltb. rewrite negb_false_iff. apply Qle_bool_iff.
Qed.

Lemma min_le_l (a b : Q) : (Py.min a b <= a)%Q.
Proof.
  unfold Py.min. destruct (Py.ltb b a) eqn:E.
  - apply ltb_lt in E. lra.
  - lra.
Qed.

Lemma min_le_r (a b : Q) : (Py.min a b <= b)%Q.
Proof.
  unfold Py.min. destruct (Py.ltb b a) eqn:E.
  - lra.
  - apply ltb_ge in E. exact E.
Qed.

Lemma max_ge_l (a b : Q) : (a <= Py.max a b)%Q.
Proof.
  unfold Py.max. destruct (Py.ltb a b) eqn:E.
  - apply ltb_lt in E. lra.
  - lra.
Qed.

Lemma max_le (a b c : Q) : (a <= c)%Q -> (b <= c)%Q -> (Py.max a b <= c)%Q.
Proof. intros Ha Hb. unfold Py.max. destruct (Py.ltb a b); assumption. Qed.

(** [round] maps an interval with integer end points into itself. *)
Lemma round_bounds (lo hi : Z) (x : Q) :
  (inject_Z lo <= x)%Q -> (x <= inject_Z hi)%Q ->
  lo <= Py.round x <= hi.
Proof.
  intros Hlo Hhi.
  assert (Hf1 : lo <= Qfloor x).
  { rewrite <- (Qfloor_Z lo). apply Qfloor_resp_le. exact Hlo. }
  assert (Hf2 : Qfloor x <= hi).
  { rewrite <- (Qfloor_Z hi). apply Qfloor_resp_le. exact Hhi. }
  assert (Hup : (1 # 2 <= x - inject_Z (Qfloor x))%Q -> Qfloor x + 1 <= hi).
  { intros Hr.
    assert (Hlt : (inject_Z (Qfloor x) < inject_Z hi)%Q) by lra.
    rewrite <- Zlt_Qlt in Hlt. lia. }
  unfold Py.round.
  destruct (Py.ltb (x - inject_Z (Qfloor x)) (1 # 2)) eqn:E1; [lia |].
  apply ltb_ge in E1. specialize (Hup E1).
  destruct (Py.ltb (1 # 2) (x - inject_Z (Qfloor x))); [lia |].
  destruct (Z.even (Qfloor x)); lia.
Qed.

(** [round] does not distinguish two representations of one rational. *)
Lemma round_compat (x y : Q) : (x == y)%Q -> Py.round x = Py.round y.
Proof.
  intros H. unfold Py.round, Py.ltb.
  rewrite (Qfloor_comp _ _ H).
  assert (Hr : (x - inject_Z (Qfloor y) == y - inject_Z (Qfloor y))%Q)
    by (rewrite H; reflexivity).
  rewrite !Hr. reflexivity.
Qed.


(** ** Recommendation tiers *)

(** C5.  The tier is a function of the integer score alone, with the bands
    >= 85, 70..84, 55..69, 40..54 and < 40, and it is monotone: a higher
    score never gets a lower-ranked tier. *)
Theorem determine_recommendation_bands_monotone (s1 s2 : Z) :
  match GuestRelevanceScorer.determine_recommendation s1 with
  | HIGHLY_RECOMMENDED => 85 <= s1
  | RECOMMENDED => 70 <= s1 <= 84
  | CONSIDER => 55 <= s1 <= 69
  | LOW_PRIORITY => 40 <= s1 <= 54
  | NOT_RECOMMENDED => s1 < 40
  end
  /\ (s1 <= s2 ->
      tier_rank (GuestRelevanceScorer.determine_recommendation s1)
      <= tier_rank (GuestRelevanceScorer.determine_recommendation s2)).
Proof.
  unfold GuestRelevanceScorer.determine_recommendation.
  split.
  - destruct (85 <=? s1) eqn:E1; [lia |].
    destruct (70 <=? s1) eqn:E2; [lia |].
    destruct (55 <=? s1) eqn:E3; [lia |].
    destruct (40 <=? s1) eqn:E4; lia.
  - intros Hle.
    destruct (85 <=? s1) eqn:A1, (85 <=? s2) eqn:B1; simpl; try lia;
      destruct (70 <=? s1) eqn:A2, (70 <=? s2) eqn:B2; simpl; try lia;
      destruct (55 <=? s1) eqn:A3, (55 <=? s2) eqn:B3; simpl; try lia;
      destruct (40 <=? s1) eqn:A4, (40 <=? s2) eqn:B4; simpl; lia.
Qed.

Lemma determine_recommendation_bands_monotone_witness :
  69 <= 70
  /\ tier_rank (GuestRelevanceScorer.determine_recommendation 69)
     <= tier_rank (GuestRelevanceScorer.determine_recommendation 70).
Proof.
  split; [lia |].
  apply (proj2 (determine_recommendation_bands_monotone 69 70)). lia.
Defined.

(** ** Aggregation *)

(** The overall score of a result is the weighted score of its five
    sub-scores. *)
Lemma overall_is_weighted_score (g : GuestProfile) (h : HostAnalysis) (now : Q)
      (r : RelevanceResult) :
  GuestRelevanceScorer.calculate_overall_relevance_score g h now = Py.Ok r ->
  exists t a p u e,
    GuestRelevanceScorer.calculate_topic_alignment g h = Py.Ok t
    /\ GuestRelevanceScorer.calculate_authority_score g h = Py.Ok a
    /\ GuestRelevanceScorer.calculate_audience_appeal g h = Py.Ok p
    /\ GuestRelevanceScorer.calculate_uniqueness_factor g h = Py.Ok u
    /\ GuestRelevanceScorer.calculate_engagement_potential g h = Py.Ok e
    /\ overall_relevance_score r = GuestRelevanceScorer.weighted_score t a p u e.
Proof.
  unfold GuestRelevanceScorer.calculate_overall_relevance_score.
  destruct (GuestRelevanceScorer.calculate_topic_alignment g h) as [t|]; [| discriminate].
  destruct (GuestRelevanceScorer.calculate_authority_score g h) as [a|]; [| discriminate].
  destruct (GuestRelevanceScorer.calculate_audience_appeal g h) as [p|]; [| discriminate].
  destruct (GuestRelevanceScorer.calculate_uniqueness_factor g h) as [u|]; [| discriminate].
  destruct (GuestRelevanceScorer.calculate_engagement_potential g h) as [e|]; [| discriminate].
  cbn [mbind Py.exc_bind].
  destruct (GuestRelevanceScorer.generate_interview_recommendations _ _ _); [| discriminate].
  cbn [mbind Py.exc_bind mret Py.exc_ret].
  intros [= <-]. exists t, a, p, u, e. repeat split; reflexivity.
Qed.

Lemma pow2_pos (e : Z) : (0 < Binary64.pow2 e)%Q.
Proof. apply Qpower_0_lt. reflexivity. Qed.

Lemma pow2_plus (a b : Z) :
  (Binary64.pow2 (a + b) == Binary64.pow2 a * Binary64.pow2 b)%Q.
Proof. apply Qpower_plus. discriminate. Qed.

Lemma pow2_mono (a b : Z) : a <= b -> (Binary64.pow2 a <= Binary64.pow2 b)%Q.
Proof. intros H. apply Qpower_le_compat_l; [exact H | discriminate]. Qed.

Lemma pow2_inject (n : Z) : 0 <= n -> (Binary64.pow2 n == inject_Z (2 ^ n))%Q.
Proof. intros H. symmetry. apply (Zpower_Qpower 2 n H). Qed.

(** [round] is off by at most one half. *)
Lemma round_error (y : Q) :
  (y - (1 # 2) <= inject_Z (Py.round y) <= y + (1 # 2))%Q.
Proof.
  unfold Py.round.
  pose proof (Qfloor_le y) as Hlo. pose proof (Qlt_floor y) as Hhi.
  rewrite inject_Z_plus in Hhi. change (inject_Z 1) with 1%Q in Hhi.
  destruct (Py.ltb (y - inject_Z (Qfloor y)) (1 # 2)) eqn:E1.
  { apply ltb_lt in E1. lra. }
  apply ltb_ge in E1.
  destruct (Py.ltb (1 # 2) (y - inject_Z (Qfloor y))) eqn:E2.
  { rewrite inject_Z_plus. change (inject_Z 1) with 1%Q. lra. }
  apply ltb_ge in E2.
  destruct (Z.even (Qfloor y)).
  - lra.
  - rewrite inject_Z_plus. change (inject_Z 1) with 1%Q. lra.
Qed.

Lemma ilog2_lower (q : Q) : (0 < q)%Q -> (Binary64.pow2 (Binary64.ilog2 q) <= q)%Q.
Proof.
  intros Hq. unfold Binary64.ilog2.
  destruct (Qle_bool _ q) eqn:E; [apply Qle_bool_iff; exact E |].
  destruct q as [n d]. cbn [Qnum Qden].
  assert (Hn : 0 < n) by (unfold Qlt in Hq; cbn in Hq; lia).
  pose proof (Z.log2_spec n Hn) as [Hn1 _].
  pose proof (Z.log2_spec (Z.pos d) (Pos2Z.is_pos d)) as [_ Hd2].
  pose proof (Z.log2_nonneg n) as Hln. pose proof (Z.log2_nonneg (Z.pos d)) as Hld.
  set (ln := Z.log2 n) in *. set (ld := Z.log2 (Z.pos d)) in *.
  assert (Hsplit : (Binary64.pow2 (ln - ld - 1) * Binary64.pow2 (Z.succ ld)
                    == Binary64.pow2 ln)%Q).
  { rewrite <- pow2_plus. replace (ln - ld - 1 + Z.succ ld) with ln by lia.
    reflexivity. }
  rewrite (pow2_inject ln Hln), (pow2_inject (Z.succ ld)) in Hsplit by lia.
  pose proof (pow2_pos (ln - ld - 1)) as Hpos.
  set (c := Binary64.pow2 (ln - ld - 1)) in *.
  assert (Hd : (inject_Z (Z.pos d) < inject_Z (2 ^ Z.succ ld))%Q)
    by (rewrite <- Zlt_Qlt; exact Hd2).
  assert (Hnn : (inject_Z (2 ^ ln) <= inject_Z n)%Q)
    by (rewrite <- Zle_Qle; exact Hn1).
  assert (Hcd : (c * inject_Z (Z.pos d) <= inject_Z n)%Q).
  { apply Qle_trans with (c * inject_Z (2 ^ Z.succ ld))%Q; [| lra].
    rewrite (Qmult_comm c), (Qmult_comm c).
    apply Qmult_le_compat_r; lra. }
  rewrite (Qmake_Qdiv n d).
  apply Qle_shift_div_l; [reflexivity | exact Hcd].
Qed.

Lemma ilog2_upper (q : Q) (k : Z) :
  (0 < q)%Q -> (q < Binary64.pow2 (k + 1))%Q -> Binary64.ilog2 q <= k.
Proof.
  intros Hq Hlt. pose proof (ilog2_lower q Hq) as Hlo.
  destruct (Z_le_gt_dec (Binary64.ilog2 q) k) as [H | H]; [exact H |].
  pose proof (pow2_mono (k + 1) (Binary64.ilog2 q) ltac:(lia)). lra.
Qed.

(** The absolute error of one rounding, for a value below [2 ^ (k + 1)]. *)
Lemma rnd_error (x : Q) (k : Z) :
  (0 <= x)%Q -> (x < Binary64.pow2 (k + 1))%Q -> -1022 <= k ->
  (x - Binary64.pow2 (k - 53) <= Binary64.rnd x <= x + Binary64.pow2 (k - 53))%Q
  /\ (0 <= Binary64.rnd x)%Q.
Proof.
  intros H0 Hlt Hk. pose proof (pow2_pos (k - 53)) as Hp'.
  unfold Binary64.rnd. destruct (Qeq_bool x 0) eqn:E.
  { apply Qeq_bool_eq in E. lra. }
  apply Qeq_bool_neq in E.
  assert (Hx : (0 < x)%Q) by lra.
  set (e := Binary64.ulp_exponent x). cbn zeta.
  assert (He : e <= k - 52).
  { unfold e, Binary64.ulp_exponent.
    assert (Binary64.ilog2 (Qabs x) <= k).
    { apply ilog2_upper; rewrite (Qabs_pos x H0); assumption. }
    lia. }
  pose proof (pow2_pos e) as HP.
  pose proof (pow2_mono e (k - 52) He) as HPle.
  assert (Hdouble : (Binary64.pow2 (k - 52) == 2 * Binary64.pow2 (k - 53))%Q).
  { replace (k - 52) with (1 + (k - 53)) by lia. rewrite pow2_plus. reflexivity. }
  set (P := Binary64.pow2 e) in *. set (P' := Binary64.pow2 (k - 53)) in *.
  set (y := (x / P)%Q).
  assert (Hy : (y * P == x)%Q).
  { unfold y. field. lra. }
  pose proof (round_error y) as [Hm1 Hm2].
  set (m := inject_Z (Py.round y)) in *.
  assert (H1 : (0 <= (m - (y - (1 # 2))) * P)%Q)
    by (apply Qmult_le_0_compat; lra).
  assert (H2 : (0 <= ((y + (1 # 2)) - m) * P)%Q)
    by (apply Qmult_le_0_compat; lra).
  assert (Hy0 : (0 <= y)%Q).
  { unfold y. apply Qle_shift_div_l; [exact HP | lra]. }
  assert (Hm0 : (0 <= m)%Q).
  { unfold m. change 0%Q with (inject_Z 0). rewrite <- Zle_Qle.
    destruct (Z_le_gt_dec 0 (Py.round y)) as [Hge | Hneg]; [exact Hge |].
    assert (Hle : (inject_Z (Py.round y) <= inject_Z (-1))%Q)
      by (rewrite <- Zle_Qle; lia).
    change (inject_Z (-1)) with (-1)%Q in Hle. fold m in Hle. lra. }
  split; [| apply Qmult_le_0_compat; lra].
  split; nra.
Qed.

Lemma pow2_m53 : (Binary64.pow2 (-53) == 1 # 9007199254740992)%Q.
Proof. reflexivity. Qed.

Lemma pow2_m47 : (Binary64.pow2 (-47) == 1 # 140737488355328)%Q.
Proof. reflexivity. Qed.

(** One rounding of a value below 2 moves it by at most [2 ^ -53]. *)
Lemma rnd_error_below_2 (x : Q) :
  (0 <= x)%Q -> (x < 2)%Q ->
  (x - (1 # 9007199254740992) <= Binary64.rnd x <= x + (1 # 9007199254740992))%Q
  /\ (0 <= Binary64.rnd x)%Q.
Proof.
  intros H0 H2.
  destruct (rnd_error x 0 H0) as [Herr Hpos]; [exact H2 | lia |].
  change (0 - 53) with (-53) in Herr. rewrite pow2_m53 in Herr.
  split; assumption.
Qed.

Lemma rnd_error_below_128 (x : Q) :
  (0 <= x)%Q -> (x < 128)%Q ->
  (x - (1 # 140737488355328) <= Binary64.rnd x <= x + (1 # 140737488355328))%Q.
Proof.
  intros H0 H2.
  destruct (rnd_error x 6 H0) as [Herr Hpos]; [exact H2 | lia |].
  change (6 - 53) with (-47) in Herr. rewrite pow2_m47 in Herr.
  exact Herr.
Qed.

(** A sub-score times a weight, as the interpreter computes it. *)
Lemma weighted_term_error (s w : Q) :
  (0 <= s <= 1)%Q -> (0 <= w <= 1)%Q ->
  (s * w - (2 # 9007199254740992)
   <= Binary64.mul s (Binary64.rnd w)
   <= s * w + (2 # 9007199254740992))%Q
  /\ (0 <= Binary64.mul s (Binary64.rnd w))%Q.
Proof.
  intros Hs Hw.
  destruct (rnd_error_below_2 w) as [[Hw1 Hw2] Hw0]; [lra | lra |].
  set (w' := Binary64.rnd w) in *.
  unfold Binary64.mul.
  destruct (rnd_error_below_2 (s * w')) as [[Hp1 Hp2] Hp0]; [nra | nra |].
  split; [| exact Hp0]. split; nra.
Qed.

Lemma sum_error (x' y' x y a b : Q) :
  (x - a <= x' <= x + a)%Q -> (y - b <= y' <= y + b)%Q ->
  (0 <= x')%Q -> (0 <= y')%Q -> (x' + y' < 2)%Q ->
  (x + y - (a + b + (1 # 9007199254740992))
   <= Binary64.add x' y'
   <= x + y + (a + b + (1 # 9007199254740992)))%Q
  /\ (0 <= Binary64.add x' y')%Q.
Proof.
  intros Hx Hy Hx0 Hy0 Hlt. unfold Binary64.add.
  destruct (rnd_error_below_2 (x' + y')) as [[H1 H2] H0]; [lra | lra |].
  split; [lra | exact H0].
Qed.

Lemma round_below_half (x : Q) (k : Z) :
  (x < inject_Z k + (1 # 2))%Q -> Py.round x <= k.
Proof.
  intros H. destruct (round_error x) as [_ Hhi].
  destruct (Z_le_gt_dec (Py.round x) k) as [Hle | Hgt]; [exact Hle |].
  assert (Hq : (inject_Z (k + 1) <= inject_Z (Py.round x))%Q)
    by (rewrite <- Zle_Qle; lia).
  rewrite inject_Z_plus in Hq. change (inject_Z 1) with 1%Q in Hq. lra.
Qed.

Lemma round_above_half (x : Q) (k : Z) :
  (inject_Z k - (1 # 2) < x)%Q -> k <= Py.round x.
Proof.
  intros H. destruct (round_error x) as [Hlo _].
  destruct (Z_le_gt_dec k (Py.round x)) as [Hle | Hgt]; [exact Hle |].
  assert (Hq : (inject_Z (Py.round x) <= inject_Z (k + -1))%Q)
    by (rewrite <- Zle_Qle; lia).
  rewrite inject_Z_plus in Hq.
  change (inject_Z (-1)) with (-1)%Q in Hq. lra.
Qed.

(** The value that the interpreter rounds to the overall score is within
    the tie margin of the exact weighted sum. *)
Lemma aggregation_error (t a p u e : Q) :
  (0 <= t <= 1)%Q -> (0 <= a <= 1)%Q -> (0 <= p <= 1)%Q ->
  (0 <= u <= 1)%Q -> (0 <= e <= 1)%Q ->
  exists v : Q,
    GuestRelevanceScorer.weighted_score_binary64 t a p u e = Py.round v
    /\ ((t * 0.35 + a * 0.25 + p * 0.20 + u * 0.10 + e * 0.10) * 100 - tie_margin
        < v
        < (t * 0.35 + a * 0.25 + p * 0.20 + u * 0.10 + e * 0.10) * 100 + tie_margin)%Q.
Proof.
  intros Ht Ha Hp Hu He. unfold GuestRelevanceScorer.weighted_score_binary64. cbn zeta.
  unfold GuestRelevanceScorer.weights.
  destruct (weighted_term_error t 0.35 Ht) as [E1 P1]; [lra |].
  destruct (weighted_term_error a 0.25 Ha) as [E2 P2]; [lra |].
  destruct (weighted_term_error p 0.20 Hp) as [E3 P3]; [lra |].
  destruct (weighted_term_error u 0.10 Hu) as [E4 P4]; [lra |].
  destruct (weighted_term_error e 0.10 He) as [E5 P5]; [lra |].
  set (x1 := Binary64.mul t _) in *. set (x2 := Binary64.mul a _) in *.
  set (x3 := Binary64.mul p _) in *. set (x4 := Binary64.mul u _) in *.
  set (x5 := Binary64.mul e _) in *.
  destruct (sum_error x1 x2 _ _ _ _ E1 E2 P1 P2) as [S2 Q2]; [lra |].
  set (s2 := Binary64.add x1 x2) in *.
  destruct (sum_error s2 x3 _ _ _ _ S2 E3 Q2 P3) as [S3 Q3]; [lra |].
  set (s3 := Binary64.add s2 x3) in *.
  destruct (sum_error s3 x4 _ _ _ _ S3 E4 Q3 P4) as [S4 Q4]; [lra |].
  set (s4 := Binary64.add s3 x4) in *.
  destruct (sum_error s4 x5 _ _ _ _ S4 E5 Q4 P5) as [S5 Q5]; [lra |].
  set (s5 := Binary64.add s4 x5) in *.
  eexists. split; [reflexivity |].
  unfold Binary64.mul.
  destruct (rnd_error_below_128 (s5 * 100)) as [F1 F2]; [lra | lra |].
  unfold tie_margin. split; lra.
Qed.

(** The score of the end-to-end model is the rounded exact sum. *)
Lemma weighted_score_exact (t a p u e : Q) :
  GuestRelevanceScorer.weighted_score t a p u e
  = Py.round ((t * 0.35 + a * 0.25 + p * 0.20 + u * 0.10 + e * 0.10) * 100)%Q.
Proof. reflexivity. Qed.

(** C4.  For sub-scores in [0,1] the overall score is the integer nearest
    to the binary64 value of
    ((((0.35 t + 0.25 a) + 0.20 p) + 0.10 u) + 0.10 e) * 100, which is within
    the tie margin of the exact weighted sum: the score lies between 0 and
    100, is at most one away from round(100 * (0.35 t + 0.25 a + 0.20 p +
    0.10 u + 0.10 e)), and equals it unless the exact sum is within the
    margin of half an integer.  The five weights sum to exactly 1, as
    decimals and as floats added in their order. *)
Theorem overall_score_in_binary64 (t a p u e : Q) :
  (0 <= t <= 1)%Q -> (0 <= a <= 1)%Q -> (0 <= p <= 1)%Q ->
  (0 <= u <= 1)%Q -> (0 <= e <= 1)%Q ->
  let exact :=
    ((t * 0.35 + a * 0.25 + p * 0.20 + u * 0.10 + e * 0.10) * 100)%Q in
  let w f := Binary64.rnd (GuestRelevanceScorer.weights f) in
  (GuestRelevanceScorer.weights topic_alignment
   + GuestRelevanceScorer.weights authority_score
   + GuestRelevanceScorer.weights audience_appeal
   + GuestRelevanceScorer.weights uniqueness_factor
   + GuestRelevanceScorer.weights engagement_potential == 1)%Q
  /\ (Binary64.add
        (Binary64.add
           (Binary64.add (Binary64.add (w topic_alignment) (w authority_score))
                         (w audience_appeal))
           (w uniqueness_factor))
        (w engagement_potential) == 1)%Q
  /\ 0 <= GuestRelevanceScorer.weighted_score_binary64 t a p u e <= 100
  /\ Z.abs (GuestRelevanceScorer.weighted_score_binary64 t a p u e - Py.round exact) <= 1
  /\ ((forall k : Z,
          (exact + tie_margin <= inject_Z k + (1 # 2))%Q
          \/ (inject_Z k + (1 # 2) + tie_margin <= exact)%Q) ->
      GuestRelevanceScorer.weighted_score_binary64 t a p u e = Py.round exact).
Proof.
  intros Ht Ha Hp Hu He. cbn zeta.
  split; [reflexivity |].
  split; [vm_compute; reflexivity |].
  destruct (aggregation_error t a p u e Ht Ha Hp Hu He) as (v & -> & Hv1 & Hv2).
  set (exact := ((t * 0.35 + a * 0.25 + p * 0.20 + u * 0.10 + e * 0.10) * 100)%Q) in *.
  assert (Hexact : (0 <= exact <= 100)%Q) by (unfold exact; lra).
  unfold tie_margin in *.
  destruct (round_error exact) as [Hn1 Hn2].
  set (n := Py.round exact) in *.
  split.
  { split.
    - apply round_above_half. change (inject_Z 0) with 0%Q. lra.
    - apply round_below_half. change (inject_Z 100) with 100%Q. lra. }
  split.
  { assert (Hup : Py.round v <= n + 1).
    { apply round_below_half. rewrite inject_Z_plus.
      change (inject_Z 1) with 1%Q. lra. }
    assert (Hdown : n + -1 <= Py.round v).
    { apply round_above_half. rewrite inject_Z_plus.
      change (inject_Z (-1)) with (-1)%Q. lra. }
    lia. }
  intros Hties.
  assert (Hup : Py.round v <= n).
  { apply round_below_half. destruct (Hties n) as [H | H]; lra. }
  assert (Hdown : n <= Py.round v).
  { apply round_above_half. destruct (Hties (n + -1)) as [H | H];
      rewrite inject_Z_plus in H; change (inject_Z (-1)) with (-1)%Q in H; lra. }
  lia.
Qed.

Lemma overall_score_in_binary64_witness :
  0 <= GuestRelevanceScorer.weighted_score_binary64 1 1 1 1 1 <= 100
  /\ GuestRelevanceScorer.weighted_score_binary64 1 1 1 1 1
     = Py.round ((1 * 0.35 + 1 * 0.25 + 1 * 0.20 + 1 * 0.10 + 1 * 0.10) * 100)%Q.
Proof.
  assert (H1 : (0 <= 1 <= 1)%Q) by (split; discriminate).
  pose proof (overall_score_in_binary64 1 1 1 1 1 H1 H1 H1 H1 H1) as H.
  destruct H as (_ & _ & Hrange & _ & Hexact).
  split; [exact Hrange |].
  apply Hexact. intros k.
  destruct (Z_le_gt_dec 100 k) as [Hk | Hk].
  - left. assert (Hq : (inject_Z 100 <= inject_Z k)%Q) by (rewrite <- Zle_Qle; exact Hk).
    change (inject_Z 100) with 100%Q in Hq. unfold tie_margin. lra.
  - right. assert (Hq : (inject_Z k <= inject_Z 99)%Q) by (rewrite <- Zle_Qle; lia).
    change (inject_Z 99) with 99%Q in Hq. unfold tie_margin. lra.
Defined.

(** The overall score is not always the rounded exact sum: with the
    sub-scores 0.5, 0.5, 0.6, 0.7 and 0.55 as floats the exact sum is just
    below 54.5 and rounds to 54, and the interpreter's sum is just above
    and rounds to 55. *)
Lemma overall_score_is_not_the_exact_formula :
  exists t a p u e : Q,
    ((0 <= t <= 1)%Q /\ (0 <= a <= 1)%Q /\ (0 <= p <= 1)%Q
     /\ (0 <= u <= 1)%Q /\ (0 <= e <= 1)%Q)
    /\ forallb Binary64.representable [t; a; p; u; e] = true
    /\ GuestRelevanceScorer.weighted_score_binary64 t a p u e = 55
    /\ Py.round ((t * 0.35 + a * 0.25 + p * 0.20 + u * 0.10 + e * 0.10) * 100)%Q
       = 54.
Proof.
  exists 0.5%Q, 0.5%Q, (Binary64.rnd 0.6), (Binary64.rnd 0.7), (Binary64.rnd 0.55).
  split; [vm_compute; repeat split; discriminate |].
  split; [vm_compute; reflexivity |].
  split; vm_compute; reflexivity.
Qed.

(** ** Missing data *)

Lemma truediv_max_returns (a : Q) (n : Z) :
  Py.truediv a (inject_Z (Z.max 1 n)) = Py.Ok (a / inject_Z (Z.max 1 n))%Q.
Proof.
  unfold Py.truediv.
  destruct (Qeq_bool (inject_Z (Z.max 1 n)) 0) eqn:E; [| reflexivity].
  apply Qeq_bool_iff in E. unfold Qeq in E. simpl in E. lia.
Qed.

(** The index [previous_podcasts[0]] is only taken of a non-empty list. *)
Lemma has_podcasts_returns (l : list string) :
  Py.returns (GuestRelevanceScorer.has_podcasts l).
Proof.
  destruct l as [| first rest]; eexists; reflexivity.
Qed.

Lemma topic_alignment_returns (g : GuestProfile) (h : HostAnalysis) :
  Py.returns (GuestRelevanceScorer.calculate_topic_alignment g h).
Proof.
  unfold GuestRelevanceScorer.calculate_topic_alignment.
  destruct (_ || _); [eexists; reflexivity |].
  destruct (bool_decide _); [eexists; reflexivity |].
  rewrite truediv_max_returns. eexists; reflexivity.
Qed.

Lemma authority_score_returns (g : GuestProfile) (h : HostAnalysis) :
  Py.returns (GuestRelevanceScorer.calculate_authority_score g h).
Proof.
  unfold GuestRelevanceScorer.calculate_authority_score.
  destruct (has_podcasts_returns (default [] (previous_podcasts g))) as [b ->].
  eexists; reflexivity.
Qed.

Lemma audience_appeal_returns (g : GuestProfile) (h : HostAnalysis) :
  Py.returns (GuestRelevanceScorer.calculate_audience_appeal g h).
Proof. eexists; reflexivity. Qed.

Lemma engagement_potential_returns (g : GuestProfile) (h : HostAnalysis) :
  Py.returns (GuestRelevanceScorer.calculate_engagement_potential g h).
Proof.
  unfold GuestRelevanceScorer.calculate_engagement_potential.
  destruct (has_podcasts_returns (default [] (previous_podcasts g))) as [b ->].
  eexists; reflexivity.
Qed.

Lemma uniqueness_factor_returns (g : GuestProfile) (h : HostAnalysis) :
  Py.returns (GuestRelevanceScorer.calculate_uniqueness_factor g h).
Proof.
  unfold GuestRelevanceScorer.calculate_uniqueness_factor.
  destruct (GuestRelevanceScorer.scan_titles _ _ _ _).
  eexists; reflexivity.
Qed.

(** C9.  With no expertise area or no primary topic, absent or empty, the
    topic alignment is exactly 0.5; and whatever fields are missing from
    either record, none of the five sub-score computations raises. *)
Theorem topic_alignment_neutral_subscores_never_raise
        (g : GuestProfile) (h : HostAnalysis) :
  (default [] (expertise_areas g) = []
   \/ default [] (primary_topics (inner_dna h)) = [] ->
   GuestRelevanceScorer.calculate_topic_alignment g h = Py.Ok 0.5%Q)
  /\ Py.returns (GuestRelevanceScorer.calculate_topic_alignment g h)
  /\ Py.returns (GuestRelevanceScorer.calculate_authority_score g h)
  /\ Py.returns (GuestRelevanceScorer.calculate_audience_appeal g h)
  /\ Py.returns (GuestRelevanceScorer.calculate_uniqueness_factor g h)
  /\ Py.returns (GuestRelevanceScorer.calculate_engagement_potential g h).
Proof.
  split; [| repeat split].
  - unfold GuestRelevanceScorer.calculate_topic_alignment.
    intros [-> | ->]; [reflexivity |].
    rewrite orb_true_r. reflexivity.
  - apply topic_alignment_returns.
  - apply authority_score_returns.
  - apply audience_appeal_returns.
  - apply uniqueness_factor_returns.
  - apply engagement_potential_returns.
Qed.

Lemma topic_alignment_neutral_subscores_never_raise_witness :
  GuestRelevanceScorer.calculate_topic_alignment
    Samples.no_guest Samples.scenario_host = Py.Ok 0.5%Q.
Proof.
  apply (topic_alignment_neutral_subscores_never_raise
           Samples.no_guest Samples.scenario_host).
  left. reflexivity.
Defined.

(** ** Uniqueness *)



(** The scan loop, in terms of the titles: it leaves exactly when some
    title contains the name, and counts the similar titles before it. *)
Lemma scan_titles_spec (guest_name : string) (expertise : list string)
      (videos : list Video) (count : Z) :
  GuestRelevanceScorer.scan_titles guest_name expertise videos count
  = (name_in_titles guest_name
       (map (fun video => Py.lower (default "" (title video))) videos),
     count + similar_titles expertise
               (titles_before_name guest_name
                  (map (fun video => Py.lower (default "" (title video))) videos))).
Proof.
  revert count.
  induction videos as [| video rest IH]; intros count.
  - cbn. f_equal. unfold similar_titles. cbn. lia.
  - cbn [GuestRelevanceScorer.scan_titles map name_in_titles existsb
         titles_before_name].
    destruct (Py.contains guest_name (Py.lower (default "" (title video)))) eqn:E.
    + cbn. f_equal. unfold similar_titles. cbn. lia.
    + rewrite IH. cbn [orb]. unfold name_in_titles. f_equal.
      unfold similar_titles. cbn [List.filter].
      destruct (existsb _ expertise); cbn [length]; lia.
Qed.

Lemma clamp_range (s : Q) : (0.1 <= clamp s <= 1)%Q.
Proof.
  unfold clamp. split.
  - apply max_ge_l.
  - apply max_le; [discriminate |].
    apply Qle_trans with 1.0%Q; [apply min_le_l | discriminate].
Qed.

(** C3, as the code has it.  The factor starts from 0.7; a title that
    contains the lowercased name costs a flat 0.3 and ends the scan; the
    titles scanned before that point (all titles when no title contains the
    name) cost 0.05 per title that contains an expertise area, at most 0.3,
    whether or not the name was found; a non-empty industry contained in no
    primary topic adds 0.1; the result lies in [0.1, 1.0]. *)
Theorem uniqueness_factor_scan (g : GuestProfile) (h : HostAnalysis) :
  GuestRelevanceScorer.calculate_uniqueness_factor g h
  = Py.Ok (uniqueness_as_scanned g h)
  /\ (0.1 <= uniqueness_as_scanned g h <= 1)%Q.
Proof.
  split.
  - unfold GuestRelevanceScorer.calculate_uniqueness_factor.
    rewrite scan_titles_spec. reflexivity.
  - apply clamp_range.
Qed.

(** C3 fails as stated: on the sample videos of the mock analyser, a guest
    named in the second title whose expertise occurs in the first gets both
    penalties, 0.7 - 0.3 - 0.05 = 0.35, and not the 0.4 of the flat penalty
    alone. *)
Lemma uniqueness_penalties_add_up :
  exists v,
    GuestRelevanceScorer.calculate_uniqueness_factor
      Samples.returning_guest Samples.mock_host = Py.Ok v
    /\ (v == 0.35)%Q
    /\ (uniqueness_as_specified Samples.returning_guest Samples.mock_host == 0.4)%Q
    /\ ~ (v == uniqueness_as_specified Samples.returning_guest Samples.mock_host)%Q.
Proof.
  eexists. split; [reflexivity |].
  split; [vm_compute; reflexivity |].
  split; [vm_compute; reflexivity |].
  vm_compute. discriminate.
Qed.

(** ** The end-to-end scenario *)



(** ** Determinism *)

(** C1, as the code has it.  The result is a function of the two records
    and of the reading of the clock taken when the result is compiled: two
    calls on the same records agree on every field but [analysis_timestamp]
    (raising the same exception if one raises), and that field is the
    reading of the clock. *)
Theorem scorer_deterministic_up_to_timestamp
        (g : GuestProfile) (h : HostAnalysis) (t1 t2 : Q) :
  with_timestamp t2
    <$> GuestRelevanceScorer.calculate_overall_relevance_score g h t1
  = GuestRelevanceScorer.calculate_overall_relevance_score g h t2
  /\ analysis_timestamp
       <$> GuestRelevanceScorer.calculate_overall_relevance_score g h t1
     = (fun _ => t1)
         <$> GuestRelevanceScorer.calculate_overall_relevance_score g h t1.
Proof.
  unfold GuestRelevanceScorer.calculate_overall_relevance_score.
  destruct (GuestRelevanceScorer.calculate_topic_alignment g h) as [t|];
    [| split; reflexivity].
  destruct (GuestRelevanceScorer.calculate_authority_score g h) as [a|];
    [| split; reflexivity].
  destruct (GuestRelevanceScorer.calculate_audience_appeal g h) as [p|];
    [| split; reflexivity].
  destruct (GuestRelevanceScorer.calculate_uniqueness_factor g h) as [u|];
    [| split; reflexivity].
  destruct (GuestRelevanceScorer.calculate_engagement_potential g h) as [e|];
    [| split; reflexivity].
  cbn [mbind Py.exc_bind].
  destruct (GuestRelevanceScorer.generate_interview_recommendations _ _ _);
    split; reflexivity.
Qed.

(** C1 fails as stated: the same two records scored at two readings of the
    clock give two different results. *)
Lemma scorer_reads_the_clock :
  exists r1 r2,
    GuestRelevanceScorer.calculate_overall_relevance_score
      Samples.scenario_guest Samples.scenario_host 0 = Py.Ok r1
    /\ GuestRelevanceScorer.calculate_overall_relevance_score
         Samples.scenario_guest Samples.scenario_host 1 = Py.Ok r2
    /\ r1 <> r2.
Proof.
  do 2 eexists.
  split; [vm_compute; reflexivity |].
  split; [vm_compute; reflexivity |].
  intros H. apply (f_equal analysis_timestamp) in H. discriminate H.
Qed.

(** The interview recommendations index [previous_podcasts] without a
    guard: a profile whose [previous_podcasts] is present and empty makes
    the scorer raise, although every sub-score returns. *)
Lemma empty_previous_podcasts_raises (h : HostAnalysis) (now : Q) :
  GuestRelevanceScorer.calculate_overall_relevance_score
    Samples.never_on_a_podcast h now = Py.Raise Py.IndexError.
Proof.
  unfold GuestRelevanceScorer.calculate_overall_relevance_score.
  destruct (topic_alignment_returns Samples.never_on_a_podcast h) as [t Ht].
  destruct (authority_score_returns Samples.never_on_a_podcast h) as [a ->].
  destruct (uniqueness_factor_returns Samples.never_on_a_podcast h) as [u ->].
  destruct (engagement_potential_returns Samples.never_on_a_podcast h) as [e ->].
  destruct (audience_appeal_returns Samples.never_on_a_podcast h) as [p ->].
  rewrite Ht. cbn [mbind Py.exc_bind].
  generalize (GuestRelevanceScorer.weighted_score t a p u e).
  intros overall.
  unfold GuestRelevanceScorer.generate_interview_recommendations.
  destruct (70 <=? overall); [reflexivity |].
  rewrite Ht. reflexivity.
Qed.

(** ** The host-analysis cache *)

Lemma analyze_and_store_spec (c : Collaborators) (use_cache : bool)
      (url : string) (w : World) :
  let fresh := analyze_host_channel c url (clock w) in
  let w' := snd (OneClickPodcastGuestTracker.analyze_and_store c use_cache url w) in
  fst (OneClickPodcastGuestTracker.analyze_and_store c use_cache url w) = fst fresh
  /\ host_calls w' = url :: host_calls w
  /\ guest_calls w' = guest_calls w
  /\ clock w' = snd fresh
  /\ host_cache w'
     = if use_cache && negb (bool_decide (is_Some (error (fst fresh))))
       then <[ url := {| data := fst fresh; timestamp := snd fresh |} ]> (host_cache w)
       else host_cache w.
Proof.
  unfold OneClickPodcastGuestTracker.analyze_and_store,
    OneClickPodcastGuestTracker.run_host_analyzer.
  destruct (analyze_host_channel c url (clock w)) as [h t]. cbn [fst snd].
  destruct (use_cache && negb (bool_decide (is_Some (error h))));
    repeat split; reflexivity.
Qed.

(** C6, as the code has it.  With caching enabled, a request finds the
    stored analysis exactly while the entry is younger than 86400 seconds.
    Within that time a stored, non-empty analysis is returned and nothing
    else happens: no call to the analyser, no change of the cache.  With no
    entry, or an entry of age 86400 seconds or more, the analyser is called
    once and its result is returned, never the stored one; it replaces the
    entry, stamped with the time at which the analyser returned, unless it
    carries an ["error"] key, in which case the cache is left as it was. *)
Theorem host_cache_lookup (c : Collaborators) (url : string) (w : World) :
  let fresh := analyze_host_channel c url (clock w) in
  let w' := snd (OneClickPodcastGuestTracker.obtain_host_analysis c true url w) in
  (forall entry,
      host_cache w !! url = Some entry ->
      (clock w - timestamp entry < 86400)%Q ->
      host_truthy (data entry) = true ->
      OneClickPodcastGuestTracker.cached true url w = Some (data entry)
      /\ OneClickPodcastGuestTracker.obtain_host_analysis c true url w
         = (data entry, w))
  /\ (host_cache w !! url = None
      \/ (exists entry,
             host_cache w !! url = Some entry
             /\ (86400 <= clock w - timestamp entry)%Q) ->
      OneClickPodcastGuestTracker.cached true url w = None
      /\ fst (OneClickPodcastGuestTracker.obtain_host_analysis c true url w)
         = fst fresh
      /\ host_calls w' = url :: host_calls w
      /\ clock w' = snd fresh
      /\ host_cache w'
         = if bool_decide (is_Some (error (fst fresh)))
           then host_cache w
           else <[ url := {| data := fst fresh; timestamp := snd fresh |} ]>
                  (host_cache w)).
Proof.
  cbn zeta. split.
  - intros entry Hentry Hage Htruthy.
    assert (Hc : OneClickPodcastGuestTracker.cached true url w = Some (data entry)).
    { unfold OneClickPodcastGuestTracker.cached. rewrite Hentry.
      apply ltb_lt in Hage. rewrite Hage. reflexivity. }
    split; [exact Hc |].
    unfold OneClickPodcastGuestTracker.obtain_host_analysis.
    rewrite Hc, Htruthy. reflexivity.
  - intros Hmiss.
    assert (Hc : OneClickPodcastGuestTracker.cached true url w = None).
    { unfold OneClickPodcastGuestTracker.cached.
      destruct Hmiss as [-> | (entry & -> & Hage)]; [reflexivity |].
      apply ltb_ge in Hage. rewrite Hage. reflexivity. }
    split; [exact Hc |].
    unfold OneClickPodcastGuestTracker.obtain_host_analysis. rewrite Hc.
    destruct (analyze_and_store_spec c true url w) as (H1 & H2 & _ & H4 & H5).
    repeat split; [exact H1 | exact H2 | exact H4 |].
    rewrite H5. cbn [andb].
    destruct (bool_decide (is_Some (error (analyze_host_channel c url (clock w)).1)));
      reflexivity.
Qed.

Lemma host_cache_lookup_witness :
  OneClickPodcastGuestTracker.obtain_host_analysis
    Samples.mock_collaborators true Samples.lex (Samples.world_at 5000)
  = (Samples.mock_host, Samples.world_at 5000)
  /\ host_calls
       (snd (OneClickPodcastGuestTracker.obtain_host_analysis
               Samples.mock_collaborators true Samples.lex
               (Samples.world_at 90000)))
     = [Samples.lex].
Proof.
  split.
  - apply (proj1 (host_cache_lookup Samples.mock_collaborators Samples.lex
                    (Samples.world_at 5000)) Samples.mock_entry).
    + vm_compute. reflexivity.
    + reflexivity.
    + reflexivity.
  - apply (proj2 (host_cache_lookup Samples.mock_collaborators Samples.lex
                    (Samples.world_at 90000))).
    right. exists Samples.mock_entry. split.
    + vm_compute. reflexivity.
    + discriminate.
Defined.

(** C6 fails as stated: when the entry has expired and the analyser
    reports a failure, the analyser has been called but the entry is not
    overwritten and its time stamp is not reset. *)
Lemma failed_refresh_is_not_stored :
  (86400 <= clock (Samples.world_at 90000) - timestamp Samples.mock_entry)%Q
  /\ fst (OneClickPodcastGuestTracker.obtain_host_analysis
            Samples.failing_host_collaborators true Samples.lex
            (Samples.world_at 90000))
     = Samples.error_host
  /\ host_calls
       (snd (OneClickPodcastGuestTracker.obtain_host_analysis
               Samples.failing_host_collaborators true Samples.lex
               (Samples.world_at 90000)))
     = [Samples.lex]
  /\ host_cache
       (snd (OneClickPodcastGuestTracker.obtain_host_analysis
               Samples.failing_host_collaborators true Samples.lex
               (Samples.world_at 90000))) !! Samples.lex
     = Some Samples.mock_entry.
Proof.
  split; [discriminate |].
  split; [vm_compute; reflexivity |].
  split; vm_compute; reflexivity.
Qed.

(** With caching disabled the stored analysis is not consulted and the
    cache is not written. *)
Lemma uncached_lookup (c : Collaborators) (url : string) (w : World) :
  let fresh := analyze_host_channel c url (clock w) in
  let w' := snd (OneClickPodcastGuestTracker.obtain_host_analysis c false url w) in
  fst (OneClickPodcastGuestTracker.obtain_host_analysis c false url w) = fst fresh
  /\ host_calls w' = url :: host_calls w
  /\ host_cache w' = host_cache w.
Proof.
  cbn zeta. unfold OneClickPodcastGuestTracker.obtain_host_analysis.
  cbn [OneClickPodcastGuestTracker.cached].
  destruct (analyze_and_store_spec c false url w) as (H1 & H2 & _ & _ & H5).
  repeat split; assumption.
Qed.

(** ** The stable sort by decreasing key *)

Section SortDesc.
Context {A : Type} (key : A -> Z).

Lemma insert_desc_perm (x : A) (l : list A) :
  Permutation (insert_desc key x l) (x :: l).
Proof.
  induction l as [| y t IH]; cbn [insert_desc].
  - reflexivity.
  - destruct (key y <=? key x).
    + reflexivity.
    + rewrite IH. apply perm_swap.
Qed.

Lemma sort_desc_perm (l : list A) : Permutation (sort_desc key l) l.
Proof.
  induction l as [| x t IH]; cbn [sort_desc].
  - reflexivity.
  - rewrite insert_desc_perm. apply perm_skip, IH.
Qed.

Lemma sort_desc_length (l : list A) : length (sort_desc key l) = length l.
Proof. apply Permutation_length, sort_desc_perm. Qed.

Lemma insert_desc_sorted (x : A) (l : list A) :
  StronglySorted (fun a b => key b <= key a) l ->
  StronglySorted (fun a b => key b <= key a) (insert_desc key x l).
Proof.
  induction 1 as [| y t Hs IH Hall]; cbn [insert_desc].
  - constructor; [constructor | constructor].
  - destruct (key y <=? key x) eqn:E.
    + apply Z.leb_le in E. constructor.
      * constructor; assumption.
      * constructor; [exact E |].
        eapply Forall_impl; [exact Hall |]. cbn. intros z Hz. lia.
    + apply Z.leb_gt in E. constructor; [exact IH |].
      apply (Permutation_Forall (Permutation_sym (insert_desc_perm x t))).
      constructor; [lia | exact Hall].
Qed.

Lemma sort_desc_sorted (l : list A) :
  StronglySorted (fun a b => key b <= key a) (sort_desc key l).
Proof.
  induction l as [| x t IH]; cbn [sort_desc].
  - constructor.
  - apply insert_desc_sorted, IH.
Qed.

(** Stability: the elements of any given key are in their original
    order. *)
Lemma insert_desc_stable (s : Z) (x : A) (l : list A) :
  List.filter (fun a => key a =? s) (insert_desc key x l)
  = List.filter (fun a => key a =? s) (x :: l).
Proof.
  induction l as [| y t IH]; cbn [insert_desc]; [reflexivity |].
  destruct (key y <=? key x) eqn:E; [reflexivity |].
  apply Z.leb_gt in E.
  cbn [List.filter] in *. rewrite IH.
  destruct (key x =? s) eqn:Ex, (key y =? s) eqn:Ey; try reflexivity.
  apply Z.eqb_eq in Ex, Ey. lia.
Qed.

Lemma sort_desc_stable (s : Z) (l : list A) :
  List.filter (fun a => key a =? s) (sort_desc key l)
  = List.filter (fun a => key a =? s) l.
Proof.
  induction l as [| x t IH]; cbn [sort_desc]; [reflexivity |].
  rewrite insert_desc_stable. cbn [List.filter]. rewrite IH. reflexivity.
Qed.

Lemma sort_desc_keys_descending (l : list A) :
  descending (map key (sort_desc key l)).
Proof.
  unfold descending.
  induction (sort_desc_sorted l) as [| a t Hs IH Hall]; cbn [map]; constructor.
  - exact IH.
  - rewrite Forall_map. exact Hall.
Qed.

End SortDesc.

(** ** The batch operation *)

Lemma obtain_host_analysis_guest_calls (c : Collaborators) (use_cache : bool)
      (url : string) (w : World) :
  guest_calls (snd (OneClickPodcastGuestTracker.obtain_host_analysis c use_cache url w))
  = guest_calls w.
Proof.
  unfold OneClickPodcastGuestTracker.obtain_host_analysis.
  destruct (analyze_and_store_spec c use_cache url w) as (_ & _ & H & _).
  destruct (OneClickPodcastGuestTracker.cached use_cache url w) as [h |];
    [destruct (host_truthy h) |]; first [exact H | reflexivity].
Qed.

(** The single-guest operation calls the guest analyser once, under the
    resolved name. *)
Lemma analyze_guest_calls (c : Collaborators) (guest_name guest_url url : string)
      (use_cache : bool) (w : World) :
  guest_calls
    (snd (OneClickPodcastGuestTracker.analyze_podcast_guest_complete
            c guest_name guest_url url use_cache w))
  = (OneClickPodcastGuestTracker.resolve_name c guest_name guest_url, guest_url)
      :: guest_calls w.
Proof.
  unfold OneClickPodcastGuestTracker.analyze_podcast_guest_complete.
  destruct (analyze_guest c _ guest_url (clock w)) as [[profile | e] t];
    [| reflexivity].
  match goal with
  | |- context [OneClickPodcastGuestTracker.obtain_host_analysis c use_cache url ?w0] =>
      pose proof (obtain_host_analysis_guest_calls c use_cache url w0) as H;
      destruct (OneClickPodcastGuestTracker.obtain_host_analysis c use_cache url w0)
        as [h w1]
  end.
  cbn [snd] in H.
  destruct (GuestRelevanceScorer.calculate_overall_relevance_score profile h (clock w1));
    [| exact H].
  destruct (call_llm_for_scoring_validation c _ profile h (clock w1)).
  exact H.
Qed.

Lemma attempt_guest_calls (c : Collaborators) (url : string)
      (guest_info : GuestInfo.t) (w : World) :
  guest_calls (snd (OneClickPodcastGuestTracker.attempt c url guest_info w))
  = match call_of c guest_info with
    | Some call => call :: guest_calls w
    | None => guest_calls w
    end.
Proof.
  unfold OneClickPodcastGuestTracker.attempt, call_of.
  destruct (GuestInfo.name guest_info) as [n |]; [| reflexivity].
  destruct (GuestInfo.url guest_info) as [u |]; [| reflexivity].
  cbn [OneClickPodcastGuestTracker.getitem mbind option_bind].
  pose proof (analyze_guest_calls c n u url true w) as H.
  destruct (OneClickPodcastGuestTracker.analyze_podcast_guest_complete c n u url true w).
  exact H.
Qed.

(** The two accumulators of the loop collect the successes and the
    failures of the outcomes, in order; the loop attempts every guest. *)
Lemma analyze_each_outcomes (c : Collaborators) (url : string)
      (guest_list : list GuestInfo.t) (results : list Analysis)
      (failed : list FailedAnalysis.t) (w : World) :
  let run := OneClickPodcastGuestTracker.analyze_each c url guest_list results failed w in
  fst (fst run) = results ++ omap success_of (outcomes c url guest_list w)
  /\ snd (fst run) = failed ++ omap failure_of (outcomes c url guest_list w)
  /\ guest_calls (snd run) = rev (omap (call_of c) guest_list) ++ guest_calls w.
Proof.
  cbn zeta. revert results failed w.
  induction guest_list as [| guest_info rest IH]; intros results failed w.
  - cbn. rewrite !app_nil_r. repeat split; reflexivity.
  - cbn [OneClickPodcastGuestTracker.analyze_each outcomes].
    pose proof (attempt_guest_calls c url guest_info w) as Hcalls.
    destruct (OneClickPodcastGuestTracker.attempt c url guest_info w)
      as [outcome w1].
    cbn [snd] in Hcalls.
    assert (Hlog :
      rev (omap (call_of c) rest) ++ guest_calls w1
      = rev (omap (call_of c) (guest_info :: rest)) ++ guest_calls w).
    { rewrite Hcalls. cbn [omap list_omap].
      destruct (call_of c guest_info) as [call |]; [| reflexivity].
      cbn [rev]. rewrite <- app_assoc. reflexivity. }
    destruct outcome as [[a | error metadata] | e].
    + destruct (IH (results ++ [a]) failed w1) as (H1 & H2 & H3).
      rewrite H1, H2, H3, Hlog. cbn [omap list_omap success_of failure_of snd].
      rewrite <- app_assoc. repeat split; reflexivity.
    + destruct (IH results
                  (failed ++ [{| FailedAnalysis.guest_info := guest_info;
                                 FailedAnalysis.error := error |}]) w1)
        as (H1 & H2 & H3).
      rewrite H1, H2, H3, Hlog. cbn [omap list_omap success_of failure_of snd fst].
      rewrite <- app_assoc. repeat split; reflexivity.
    + destruct (IH results
                  (failed ++ [{| FailedAnalysis.guest_info := guest_info;
                                 FailedAnalysis.error := Py.str_of_exn e |}]) w1)
        as (H1 & H2 & H3).
      rewrite H1, H2, H3, Hlog. cbn [omap list_omap success_of failure_of snd fst].
      rewrite <- app_assoc. repeat split; reflexivity.
Qed.

Lemma outcomes_guests (c : Collaborators) (url : string)
      (guest_list : list GuestInfo.t) (w : World) :
  map fst (outcomes c url guest_list w) = guest_list.
Proof.
  revert w. induction guest_list as [| guest_info rest IH]; intros w.
  - reflexivity.
  - cbn [outcomes].
    destruct (OneClickPodcastGuestTracker.attempt c url guest_info w) as [o w1].
    cbn [map fst]. rewrite IH. reflexivity.
Qed.

(** Every outcome is a success or a failure, never both; a failure names
    its guest. *)
Lemma outcome_count (os : list (GuestInfo.t * Py.exc AnalysisResult)) :
  (length (omap success_of os) + length (omap failure_of os) = length os)%nat.
Proof.
  induction os as [| [guest_info [[a | error metadata] | e]] rest IH];
    cbn [omap list_omap success_of failure_of snd length] in *; lia.
Qed.

Lemma failures_when_no_success (os : list (GuestInfo.t * Py.exc AnalysisResult)) :
  omap success_of os = [] ->
  map FailedAnalysis.guest_info (omap failure_of os) = map fst os.
Proof.
  induction os as [| [guest_info [[a | error metadata] | e]] rest IH];
    cbn [omap list_omap success_of failure_of snd fst map];
    intros H; first [discriminate H | f_equal; exact (IH H) | reflexivity].
Qed.

Lemma analyze_host_once_guest_calls (c : Collaborators) (url : string) (w : World) :
  guest_calls (OneClickPodcastGuestTracker.analyze_host_once c url w) = guest_calls w.
Proof.
  unfold OneClickPodcastGuestTracker.analyze_host_once,
    OneClickPodcastGuestTracker.run_host_analyzer.
  destruct (analyze_host_channel c url (clock w)). reflexivity.
Qed.

(** The guests, scores and tiers of a ranking are those of the analyses it
    is made from, in the same order, and the ranks count from one. *)
Lemma ranking_unranked (k : nat) (l : list Analysis) :
  map unranked
      (imap (fun i => OneClickPodcastGuestTracker.ranking_entry (k + i)) l)
  = map summary_of l.
Proof.
  revert k. induction l as [| a rest IH]; intros k; [reflexivity |].
  cbn [imap map]. f_equal.
  rewrite <- (IH (S k)). f_equal. apply imap_ext. intros i x _. cbn.
  f_equal. lia.
Qed.

Lemma ranking_ranks (k : nat) (l : list Analysis) :
  map RankingEntry.rank
      (imap (fun i => OneClickPodcastGuestTracker.ranking_entry (k + i)) l)
  = map Z.of_nat (seq (S k) (length l)).
Proof.
  revert k. induction l as [| a rest IH]; intros k; [reflexivity |].
  cbn [imap map length seq]. f_equal.
  - cbn. lia.
  - rewrite <- (IH (S k)). f_equal. apply imap_ext. intros i x _. cbn.
    f_equal. lia.
Qed.

Lemma ranking_summaries (l : list Analysis) :
  map unranked (imap OneClickPodcastGuestTracker.ranking_entry l)
  = map summary_of l.
Proof. exact (ranking_unranked 0 l). Qed.

Lemma ranking_counts_from_one (l : list Analysis) :
  map RankingEntry.rank (imap OneClickPodcastGuestTracker.ranking_entry l)
  = map Z.of_nat (seq 1 (length l)).
Proof. exact (ranking_ranks 0 l). Qed.

Lemma with_score_summaries (s : Z) (l : list Analysis) :
  with_score s (map summary_of l)
  = map summary_of
        (List.filter (fun a => OneClickPodcastGuestTracker.score_of a =? s) l).
Proof.
  unfold with_score.
  induction l as [| a rest IH]; [reflexivity |].
  cbn [map List.filter]. rewrite IH.
  change (snd (fst (summary_of a))) with (OneClickPodcastGuestTracker.score_of a).
  destruct (OneClickPodcastGuestTracker.score_of a =? s); reflexivity.
Qed.

(** The batch result, in terms of the outcomes of the guests. *)
Lemma batch_result (c : Collaborators)
      (guest_list : list GuestInfo.t) (url : string) (w : World) :
  let os := outcomes c url guest_list
              (OneClickPodcastGuestTracker.analyze_host_once c url w) in
  let r := fst (OneClickPodcastGuestTracker.batch_analyze_guests c guest_list url w) in
  let w' := snd (OneClickPodcastGuestTracker.batch_analyze_guests c guest_list url w) in
  guest_analyses r
  = sort_desc OneClickPodcastGuestTracker.score_of (omap success_of os)
  /\ failed_analyses r = omap failure_of os
  /\ ranking r = imap OneClickPodcastGuestTracker.ranking_entry (guest_analyses r)
  /\ guest_calls w' = rev (omap (call_of c) guest_list) ++ guest_calls w.
Proof.
  cbn zeta.
  unfold OneClickPodcastGuestTracker.batch_analyze_guests.
  pose proof (analyze_each_outcomes c url guest_list [] []
                (OneClickPodcastGuestTracker.analyze_host_once c url w))
    as (H1 & H2 & H3).
  destruct (OneClickPodcastGuestTracker.analyze_each c url guest_list [] []
              (OneClickPodcastGuestTracker.analyze_host_once c url w))
    as [[results failed] w1].
  cbn [fst snd app guest_analyses failed_analyses ranking] in *.
  subst results failed.
  rewrite analyze_host_once_guest_calls in H3.
  repeat split; [exact H3].
Qed.

Lemma batch_accounts_for_every_guest (c : Collaborators) (url : string)
      (guest_list : list GuestInfo.t) (w : World) :
  (length (sort_desc OneClickPodcastGuestTracker.score_of
             (omap success_of (outcomes c url guest_list w)))
   + length (omap failure_of (outcomes c url guest_list w))
   = length guest_list)%nat.
Proof.
  rewrite sort_desc_length, outcome_count.
  rewrite <- (outcomes_guests c url guest_list w) at 2.
  rewrite length_map. reflexivity.
Qed.

(** C7.  The batch operation is a total function to a batch result.  Its
    list of failures holds, for every guest whose attempt ended in an error
    result or an exception, the guest and the error, in input order; every
    guest is in exactly one of the two lists; the guest analyser has been
    called for every guest that has a name and an address, whatever
    happened to the guests before it; and when no guest succeeds the
    ranking is empty and the failures are the whole input. *)
Theorem batch_isolates_failures (c : Collaborators)
        (guest_list : list GuestInfo.t) (url : string) (w : World) :
  let os := outcomes c url guest_list
              (OneClickPodcastGuestTracker.analyze_host_once c url w) in
  let r := fst (OneClickPodcastGuestTracker.batch_analyze_guests c guest_list url w) in
  let w' := snd (OneClickPodcastGuestTracker.batch_analyze_guests c guest_list url w) in
  map fst os = guest_list
  /\ failed_analyses r = omap failure_of os
  /\ Permutation (guest_analyses r) (omap success_of os)
  /\ (length (guest_analyses r) + length (failed_analyses r) = length guest_list)%nat
  /\ guest_calls w' = rev (omap (call_of c) guest_list) ++ guest_calls w
  /\ (omap success_of os = [] ->
      ranking r = []
      /\ map FailedAnalysis.guest_info (failed_analyses r) = guest_list).
Proof.
  cbn zeta.
  destruct (batch_result c guest_list url w) as (Hres & Hfail & Hrank & Hcalls).
  cbn zeta in Hres, Hfail, Hrank, Hcalls.
  rewrite Hrank, Hres, Hfail.
  split; [apply outcomes_guests |].
  split; [reflexivity |].
  split; [apply sort_desc_perm |].
  split; [apply batch_accounts_for_every_guest |].
  split; [exact Hcalls |].
  intros Hnone. rewrite Hnone. split; [reflexivity |].
  rewrite (failures_when_no_success _ Hnone). apply outcomes_guests.
Qed.

Lemma batch_isolates_failures_witness :
  ranking (fst (OneClickPodcastGuestTracker.batch_analyze_guests
                  Samples.mock_collaborators Samples.hopeless_batch
                  Samples.lex Samples.fresh_world)) = []
  /\ map FailedAnalysis.guest_info
         (failed_analyses
            (fst (OneClickPodcastGuestTracker.batch_analyze_guests
                    Samples.mock_collaborators Samples.hopeless_batch
                    Samples.lex Samples.fresh_world)))
     = Samples.hopeless_batch.
Proof.
  apply (batch_isolates_failures Samples.mock_collaborators
           Samples.hopeless_batch Samples.lex Samples.fresh_world).
  vm_compute. reflexivity.
Defined.

(** C8.  The ranking lists the successfully analysed guests and no one
    else: its names, scores and tiers are a rearrangement of those of the
    successes; its ranks are 1 to N; its scores never increase; and the
    guests of any one score are in their processing order.  A guest whose
    attempt failed is in the list of failures, and the two lists together
    account for every guest of the input once. *)
Theorem batch_ranking (c : Collaborators)
        (guest_list : list GuestInfo.t) (url : string) (w : World) :
  let os := outcomes c url guest_list
              (OneClickPodcastGuestTracker.analyze_host_once c url w) in
  let successes := map summary_of (omap success_of os) in
  let r := fst (OneClickPodcastGuestTracker.batch_analyze_guests c guest_list url w) in
  Permutation (map unranked (ranking r)) successes
  /\ map RankingEntry.rank (ranking r) = map Z.of_nat (seq 1 (length successes))
  /\ descending (map RankingEntry.score (ranking r))
  /\ (forall s, with_score s (map unranked (ranking r)) = with_score s successes)
  /\ failed_analyses r = omap failure_of os
  /\ (length (ranking r) + length (failed_analyses r) = length guest_list)%nat.
Proof.
  cbn zeta.
  destruct (batch_result c guest_list url w) as (Hres & Hfail & Hrank & _).
  cbn zeta in Hres, Hfail, Hrank.
  rewrite Hrank, Hres, Hfail.
  set (successes := omap success_of _).
  set (sorted := sort_desc OneClickPodcastGuestTracker.score_of successes).
  split; [| split; [| split; [| split; [| split]]]].
  - rewrite ranking_summaries. apply Permutation_map, sort_desc_perm.
  - rewrite ranking_counts_from_one. unfold sorted.
    rewrite sort_desc_length, length_map. reflexivity.
  - replace (map RankingEntry.score
               (imap OneClickPodcastGuestTracker.ranking_entry sorted))
      with (map OneClickPodcastGuestTracker.score_of sorted).
    + apply sort_desc_keys_descending.
    + transitivity (map (fun e => snd (fst e)) (map summary_of sorted)).
      * rewrite map_map. reflexivity.
      * rewrite <- ranking_summaries, map_map. reflexivity.
  - intros s. rewrite ranking_summaries, !with_score_summaries.
    unfold sorted. rewrite sort_desc_stable. reflexivity.
  - reflexivity.
  - rewrite length_imap. apply batch_accounts_for_every_guest.
Qed.

(** The ranking example of the specification, and a tie. *)
Example sort_desc_scores : sort_desc id [55; 90; 70] = [90; 70; 55].
Proof. reflexivity. Qed.

Example sort_desc_tie :
  sort_desc snd [("a", 70); ("b", 90); ("c", 70); ("d", 90)]
  = [("b", 90); ("d", 90); ("a", 70); ("c", 70)].
Proof. reflexivity. Qed.

(** ** The range of the sub-scores and of the overall score *)

Lemma min_glb (a b c : Q) : (c <= a)%Q -> (c <= b)%Q -> (c <= Py.min a b)%Q.
Proof. intros Ha Hb. unfold Py.min. destruct (Py.ltb b a); assumption. Qed.

Lemma len_nonneg {A} (l : list A) : (0 <= inject_Z (GuestRelevanceScorer.len l))%Q.
Proof.
  unfold GuestRelevanceScorer.len. change 0%Q with (inject_Z 0).
  rewrite <- Zle_Qle. lia.
Qed.

(** A capped bonus [min(cap, n * step)] is never negative. *)
Lemma bonus_nonneg {A} (cap step : Q) (l : list A) :
  (0 <= cap)%Q -> (0 <= step)%Q ->
  (0 <= Py.min cap (inject_Z (GuestRelevanceScorer.len l) * step))%Q.
Proof.
  intros Hcap Hstep. apply min_glb; [exact Hcap |].
  pose proof (len_nonneg l). nra.
Qed.

Lemma capped_unit (s : Q) : (0 <= s)%Q -> (0 <= Py.min 1.0 s <= 1)%Q.
Proof.
  intros Hs. split.
  - apply min_glb; [discriminate | exact Hs].
  - apply Qle_trans with 1.0%Q; [apply min_le_l | discriminate].
Qed.

Lemma boost_range (guest_expertise channel_topics : list string) (s : Q) :
  (0 <= s <= 1)%Q ->
  (0 <= GuestRelevanceScorer.boost guest_expertise channel_topics s <= 1)%Q.
Proof.
  unfold GuestRelevanceScorer.boost. revert s.
  induction guest_expertise as [| expertise rest IH]; intros s Hs; [exact Hs |].
  cbn [foldl]. apply IH. clear IH. revert s Hs.
  induction channel_topics as [| topic topics IH]; intros s Hs; [exact Hs |].
  cbn [foldl]. apply IH.
  destruct (GuestRelevanceScorer.overlap _ _); [| exact Hs].
  apply capped_unit. lra.
Qed.

Lemma topic_alignment_range (g : GuestProfile) (h : HostAnalysis) (v : Q) :
  GuestRelevanceScorer.calculate_topic_alignment g h = Py.Ok v ->
  (0 <= v <= 1)%Q.
Proof.
  unfold GuestRelevanceScorer.calculate_topic_alignment.
  destruct (_ || _); [intros [= <-]; split; discriminate |].
  destruct (bool_decide _); [intros [= <-]; split; discriminate |].
  rewrite truediv_max_returns. cbn [mbind Py.exc_bind mret Py.exc_ret].
  intros [= <-]. apply boost_range, capped_unit.
  apply Qle_shift_div_l.
  - change 0%Q with (inject_Z 0). rewrite <- Zlt_Qlt. lia.
  - rewrite Qmult_0_l. apply len_nonneg.
Qed.

Lemma add_follower_bonus_ge (s : Q) (followers : Py.xfloat) :
  (s <= GuestRelevanceScorer.add_follower_bonus s followers)%Q.
Proof.
  unfold GuestRelevanceScorer.add_follower_bonus.
  repeat (destruct (Py.gt followers _); [lra |]). lra.
Qed.

Lemma authority_score_range (g : GuestProfile) (h : HostAnalysis) (v : Q) :
  GuestRelevanceScorer.calculate_authority_score g h = Py.Ok v ->
  (0 <= v <= 1)%Q.
Proof.
  unfold GuestRelevanceScorer.calculate_authority_score.
  destruct (has_podcasts_returns (default [] (previous_podcasts g))) as [b ->].
  cbn [mbind Py.exc_bind mret Py.exc_ret]. intros [= <-].
  apply capped_unit.
  pose proof (bonus_nonneg 0.3 0.1
                (List.filter GuestRelevanceScorer.is_strong
                             (default [] (authority_indicators g)))) as H1.
  pose proof (bonus_nonneg 0.1 0.02 (default [] (previous_podcasts g))) as H2.
  specialize (H1 ltac:(discriminate) ltac:(discriminate)).
  specialize (H2 ltac:(discriminate) ltac:(discriminate)).
  set (s1 := if GuestRelevanceScorer.nonempty (default [] (authority_indicators g))
             then _ else _).
  assert (Hs1 : (0.5 <= s1)%Q).
  { subst s1. destruct (GuestRelevanceScorer.nonempty _); lra. }
  clearbody s1.
  match goal with
  | |- (0 <= if b then (?s2 + _)%Q else ?s2)%Q =>
      assert (Hs2 : (0.5 <= s2)%Q); [| destruct b; lra]
  end.
  destruct (bool_decide _); [| exact Hs1].
  match goal with
  | |- (0.5 <= if _ then (?s3 + _)%Q else ?s3)%Q =>
      assert (Hs3 : (0.5 <= s3)%Q); [| destruct (_ && _); lra]
  end.
  destruct (negb _); [| exact Hs1].
  destruct (GuestRelevanceScorer.followers_of _) as [followers |]; [| exact Hs1].
  pose proof (add_follower_bonus_ge s1 followers). lra.
Qed.

Lemma audience_appeal_range (g : GuestProfile) (h : HostAnalysis) (v : Q) :
  GuestRelevanceScorer.calculate_audience_appeal g h = Py.Ok v ->
  (0 <= v <= 1)%Q.
Proof.
  unfold GuestRelevanceScorer.calculate_audience_appeal.
  cbn [mret Py.exc_ret]. intros [= <-]. apply capped_unit.
  repeat match goal with
         | |- context [Py.min ?cap (inject_Z (GuestRelevanceScorer.len ?l) * ?step)%Q] =>
             let H := fresh "H" in
             pose proof (bonus_nonneg cap step l ltac:(discriminate) ltac:(discriminate)) as H;
             generalize dependent (Py.min cap (inject_Z (GuestRelevanceScorer.len l) * step)%Q);
             intros
         end.
  repeat match goal with
         | |- context [if ?b then _ else _] => destruct b
         end; lra.
Qed.

Lemma engagement_potential_range (g : GuestProfile) (h : HostAnalysis) (v : Q) :
  GuestRelevanceScorer.calculate_engagement_potential g h = Py.Ok v ->
  (0 <= v <= 1)%Q.
Proof.
  unfold GuestRelevanceScorer.calculate_engagement_potential.
  destruct (has_podcasts_returns (default [] (previous_podcasts g))) as [b ->].
  cbn [mbind Py.exc_bind mret Py.exc_ret]. intros [= <-]. apply capped_unit.
  repeat match goal with
         | |- context [Py.min ?cap (inject_Z (GuestRelevanceScorer.len ?l) * ?step)%Q] =>
             let H := fresh "H" in
             pose proof (bonus_nonneg cap step l ltac:(discriminate) ltac:(discriminate)) as H;
             generalize dependent (Py.min cap (inject_Z (GuestRelevanceScorer.len l) * step)%Q);
             intros
         end.
  repeat match goal with
         | |- context [if ?b then _ else _] => destruct b
         end; lra.
Qed.

(** Every result of the scorer carries an overall score between 0 and
    100. *)
Lemma overall_score_range (g : GuestProfile) (h : HostAnalysis) (now : Q)
      (r : RelevanceResult) :
  GuestRelevanceScorer.calculate_overall_relevance_score g h now = Py.Ok r ->
  0 <= overall_relevance_score r <= 100.
Proof.
  intros Hr.
  destruct (overall_is_weighted_score g h now r Hr)
    as (t & a & p & u & e & Ht & Ha & Hp & Hu & He & ->).
  pose proof (topic_alignment_range g h t Ht).
  pose proof (authority_score_range g h a Ha).
  pose proof (audience_appeal_range g h p Hp).
  pose proof (engagement_potential_range g h e He).
  assert (Hur : (0 <= u <= 1)%Q).
  { unfold GuestRelevanceScorer.calculate_uniqueness_factor in Hu.
    destruct (GuestRelevanceScorer.scan_titles _ _ _ _) in Hu.
    cbn [mret Py.exc_ret] in Hu. injection Hu as <-.
    match goal with
    | |- (0 <= Py.max 0.1 (Py.min 1.0 ?s) <= 1)%Q =>
        pose proof (clamp_range s) as Hc; unfold clamp in Hc
    end.
    lra. }
  unfold GuestRelevanceScorer.weighted_score, GuestRelevanceScorer.weights.
  apply round_bounds.
  - change (inject_Z 0) with 0%Q. nra.
  - change (inject_Z 100) with 100%Q. nra.
Qed.

(** * Further properties of the scorer *)

Lemma capped_floor (lo s : Q) :
  (lo <= 1.0)%Q -> (lo <= s)%Q -> (lo <= Py.min 1.0 s <= 1)%Q.
Proof.
  intros Hlo Hs. split.
  - apply min_glb; assumption.
  - apply Qle_trans with 1.0%Q; [apply min_le_l | discriminate].
Qed.

Lemma authority_score_band (g : GuestProfile) (h : HostAnalysis) (v : Q) :
  GuestRelevanceScorer.calculate_authority_score g h = Py.Ok v ->
  (0.5 <= v <= 1)%Q.
Proof.
  unfold GuestRelevanceScorer.calculate_authority_score.
  destruct (has_podcasts_returns (default [] (previous_podcasts g))) as [b ->].
  cbn [mbind Py.exc_bind mret Py.exc_ret]. intros [= <-].
  apply capped_floor; [discriminate |].
  pose proof (bonus_nonneg 0.3 0.1
                (List.filter GuestRelevanceScorer.is_strong
                             (default [] (authority_indicators g)))
                ltac:(discriminate) ltac:(discriminate)) as H1.
  pose proof (bonus_nonneg 0.1 0.02 (default [] (previous_podcasts g))
                ltac:(discriminate) ltac:(discriminate)) as H2.
  set (s1 := if GuestRelevanceScorer.nonempty (default [] (authority_indicators g))
             then _ else _).
  assert (Hs1 : (0.5 <= s1)%Q).
  { subst s1. destruct (GuestRelevanceScorer.nonempty _); lra. }
  clearbody s1.
  match goal with
  | |- (0.5 <= if b then (?s2 + _)%Q else ?s2)%Q =>
      assert (Hs2 : (0.5 <= s2)%Q); [| destruct b; lra]
  end.
  destruct (bool_decide _); [| exact Hs1].
  match goal with
  | |- (0.5 <= if _ then (?s3 + _)%Q else ?s3)%Q =>
      assert (Hs3 : (0.5 <= s3)%Q); [| destruct (_ && _); lra]
  end.
  destruct (negb _); [| exact Hs1].
  destruct (GuestRelevanceScorer.followers_of _) as [followers |]; [| exact Hs1].
  pose proof (add_follower_bonus_ge s1 followers). lra.
Qed.

Ltac bound_bonuses :=
  repeat match goal with
         | |- context [Py.min ?cap (inject_Z (GuestRelevanceScorer.len ?l) * ?step)%Q] =>
             let H := fresh "H" in
             pose proof (bonus_nonneg cap step l ltac:(discriminate) ltac:(discriminate)) as H;
             generalize dependent (Py.min cap (inject_Z (GuestRelevanceScorer.len l) * step)%Q);
             intros
         end;
  repeat match goal with
         | |- context [if ?b then _ else _] => destruct b
         end.

Lemma audience_appeal_band (g : GuestProfile) (h : HostAnalysis) (v : Q) :
  GuestRelevanceScorer.calculate_audience_appeal g h = Py.Ok v ->
  (0.6 <= v <= 1)%Q.
Proof.
  unfold GuestRelevanceScorer.calculate_audience_appeal.
  cbn [mret Py.exc_ret]. intros [= <-].
  apply capped_floor; [discriminate |]. bound_bonuses; lra.
Qed.

Lemma engagement_potential_band (g : GuestProfile) (h : HostAnalysis) (v : Q) :
  GuestRelevanceScorer.calculate_engagement_potential g h = Py.Ok v ->
  (0.5 <= v <= 1)%Q.
Proof.
  unfold GuestRelevanceScorer.calculate_engagement_potential.
  destruct (has_podcasts_returns (default [] (previous_podcasts g))) as [b ->].
  cbn [mbind Py.exc_bind mret Py.exc_ret]. intros [= <-].
  apply capped_floor; [discriminate |]. bound_bonuses; lra.
Qed.

Lemma uniqueness_factor_band (g : GuestProfile) (h : HostAnalysis) (v : Q) :
  GuestRelevanceScorer.calculate_uniqueness_factor g h = Py.Ok v ->
  (0.1 <= v <= 1)%Q.
Proof.
  unfold GuestRelevanceScorer.calculate_uniqueness_factor.
  destruct (GuestRelevanceScorer.scan_titles _ _ _ _).
  cbn [mret Py.exc_ret]. intros [= <-].
  match goal with
  | |- (0.1 <= Py.max 0.1 (Py.min 1.0 ?s) <= 1)%Q => exact (clamp_range s)
  end.
Qed.

(** X1.  Whatever the two records hold, the five sub-scores are computed
    and stay in their bands: topic alignment in [0, 1], authority in
    [0.5, 1], audience appeal in [0.6, 1], uniqueness in [0.1, 1] and
    engagement potential in [0.5, 1]. *)
Theorem subscores_within_bands (g : GuestProfile) (h : HostAnalysis) :
  exists t a p u e,
    GuestRelevanceScorer.calculate_topic_alignment g h = Py.Ok t
    /\ GuestRelevanceScorer.calculate_authority_score g h = Py.Ok a
    /\ GuestRelevanceScorer.calculate_audience_appeal g h = Py.Ok p
    /\ GuestRelevanceScorer.calculate_uniqueness_factor g h = Py.Ok u
    /\ GuestRelevanceScorer.calculate_engagement_potential g h = Py.Ok e
    /\ (0 <= t <= 1)%Q /\ (0.5 <= a <= 1)%Q /\ (0.6 <= p <= 1)%Q
    /\ (0.1 <= u <= 1)%Q /\ (0.5 <= e <= 1)%Q.
Proof.
  destruct (topic_alignment_returns g h) as [t Ht].
  destruct (authority_score_returns g h) as [a Ha].
  destruct (audience_appeal_returns g h) as [p Hp].
  destruct (uniqueness_factor_returns g h) as [u Hu].
  destruct (engagement_potential_returns g h) as [e He].
  exists t, a, p, u, e.
  repeat (split; [assumption |]).
  split; [exact (topic_alignment_range g h t Ht) |].
  split; [exact (authority_score_band g h a Ha) |].
  split; [exact (audience_appeal_band g h p Hp) |].
  split; [exact (uniqueness_factor_band g h u Hu) |].
  exact (engagement_potential_band g h e He).
Qed.

(** X2.  Every result of the scorer has an overall score between 30 and
    100: the floors of the sub-scores weigh 30.5 points together. *)
Theorem overall_score_floor (g : GuestProfile) (h : HostAnalysis) (now : Q)
        (r : RelevanceResult) :
  GuestRelevanceScorer.calculate_overall_relevance_score g h now = Py.Ok r ->
  30 <= overall_relevance_score r <= 100.
Proof.
  intros Hr.
  destruct (overall_is_weighted_score g h now r Hr)
    as (t & a & p & u & e & Ht & Ha & Hp & Hu & He & ->).
  pose proof (topic_alignment_range g h t Ht).
  pose proof (authority_score_band g h a Ha).
  pose proof (audience_appeal_band g h p Hp).
  pose proof (uniqueness_factor_band g h u Hu).
  pose proof (engagement_potential_band g h e He).
  unfold GuestRelevanceScorer.weighted_score, GuestRelevanceScorer.weights.
  apply round_bounds.
  - change (inject_Z 30) with 30%Q. lra.
  - change (inject_Z 100) with 100%Q. lra.
Qed.

Lemma overall_score_floor_witness :
  exists r,
    GuestRelevanceScorer.calculate_overall_relevance_score
      Samples.scenario_guest Samples.scenario_host 0 = Py.Ok r
    /\ 30 <= overall_relevance_score r <= 100.
Proof.
  eexists. split; [vm_compute; reflexivity |].
  eapply (overall_score_floor Samples.scenario_guest Samples.scenario_host 0).
  vm_compute. reflexivity.
Defined.

Lemma interview_recommendations_raise (g : GuestProfile) (h : HostAnalysis)
      (overall : Z) :
  previous_podcasts g = Some [] ->
  GuestRelevanceScorer.generate_interview_recommendations g h overall
  = Py.Raise Py.IndexError.
Proof.
  intros Hpp. unfold GuestRelevanceScorer.generate_interview_recommendations.
  rewrite Hpp.
  destruct (70 <=? overall); [reflexivity |].
  destruct (topic_alignment_returns g h) as [t ->]. reflexivity.
Qed.

Lemma interview_recommendations_return (g : GuestProfile) (h : HostAnalysis)
      (overall : Z) :
  previous_podcasts g <> Some [] ->
  Py.returns (GuestRelevanceScorer.generate_interview_recommendations g h overall).
Proof.
  intros Hpp. unfold GuestRelevanceScorer.generate_interview_recommendations.
  assert (Hfirst : exists first rest,
             default ["Unknown"] (previous_podcasts g) = first :: rest).
  { destruct (previous_podcasts g) as [[| first rest] |]; cbn; eauto.
    contradiction. }
  destruct Hfirst as (first & rest & ->).
  destruct (70 <=? overall).
  - eexists. reflexivity.
  - destruct (topic_alignment_returns g h) as [t ->]. eexists. reflexivity.
Qed.

(** X3.  The scorer raises exactly when the profile has a
    [previous_podcasts] key holding the empty list: the interview
    recommendations index that list without a guard, and the result is an
    [IndexError]; with the key absent or the list non-empty the scorer
    returns a result. *)
Theorem scorer_raises_iff_no_previous_podcasts
        (g : GuestProfile) (h : HostAnalysis) (now : Q) :
  (previous_podcasts g = Some [] ->
   GuestRelevanceScorer.calculate_overall_relevance_score g h now
   = Py.Raise Py.IndexError)
  /\ (previous_podcasts g <> Some [] ->
      Py.returns (GuestRelevanceScorer.calculate_overall_relevance_score g h now)).
Proof.
  unfold GuestRelevanceScorer.calculate_overall_relevance_score.
  destruct (topic_alignment_returns g h) as [t ->].
  destruct (authority_score_returns g h) as [a ->].
  destruct (audience_appeal_returns g h) as [p ->].
  destruct (uniqueness_factor_returns g h) as [u ->].
  destruct (engagement_potential_returns g h) as [e ->].
  cbn [mbind Py.exc_bind].
  split; intros Hpp.
  - rewrite (interview_recommendations_raise g h _ Hpp). reflexivity.
  - destruct (interview_recommendations_return g h
                (GuestRelevanceScorer.weighted_score t a p u e) Hpp) as [ir ->].
    eexists. reflexivity.
Qed.

Lemma scorer_raises_iff_no_previous_podcasts_witness :
  GuestRelevanceScorer.calculate_overall_relevance_score
    Samples.never_on_a_podcast Samples.mock_host 0 = Py.Raise Py.IndexError
  /\ Py.returns
       (GuestRelevanceScorer.calculate_overall_relevance_score
          Samples.scenario_guest Samples.mock_host 0).
Proof.
  split.
  - apply (scorer_raises_iff_no_previous_podcasts
             Samples.never_on_a_podcast Samples.mock_host 0).
    reflexivity.
  - apply (scorer_raises_iff_no_previous_podcasts
             Samples.scenario_guest Samples.mock_host 0).
    discriminate.
Defined.

(** A result of the scorer, read back: its lists of strengths and
    concerns, its tier and its interview recommendations come from its
    sub-scores and its overall score. *)
Lemma result_components (g : GuestProfile) (h : HostAnalysis) (now : Q)
      (r : RelevanceResult) :
  GuestRelevanceScorer.calculate_overall_relevance_score g h now = Py.Ok r ->
  exists t a p u e,
    GuestRelevanceScorer.calculate_topic_alignment g h = Py.Ok t
    /\ GuestRelevanceScorer.calculate_authority_score g h = Py.Ok a
    /\ GuestRelevanceScorer.calculate_audience_appeal g h = Py.Ok p
    /\ GuestRelevanceScorer.calculate_uniqueness_factor g h = Py.Ok u
    /\ GuestRelevanceScorer.calculate_engagement_potential g h = Py.Ok e
    /\ areas_of_concern r
       = GuestRelevanceScorer.identify_areas_of_concern
           [(topic_alignment, t); (authority_score, a); (audience_appeal, p);
            (uniqueness_factor, u); (engagement_potential, e)]
    /\ key_strengths r
       = GuestRelevanceScorer.identify_key_strengths
           [(topic_alignment, t); (authority_score, a); (audience_appeal, p);
            (uniqueness_factor, u); (engagement_potential, e)]
    /\ recommendation r
       = GuestRelevanceScorer.determine_recommendation (overall_relevance_score r)
    /\ GuestRelevanceScorer.generate_interview_recommendations
         g h (overall_relevance_score r)
       = Py.Ok (interview_recommendations r).
Proof.
  unfold GuestRelevanceScorer.calculate_overall_relevance_score.
  destruct (GuestRelevanceScorer.calculate_topic_alignment g h) as [t|]; [| discriminate].
  destruct (GuestRelevanceScorer.calculate_authority_score g h) as [a|]; [| discriminate].
  destruct (GuestRelevanceScorer.calculate_audience_appeal g h) as [p|]; [| discriminate].
  destruct (GuestRelevanceScorer.calculate_uniqueness_factor g h) as [u|]; [| discriminate].
  destruct (GuestRelevanceScorer.calculate_engagement_potential g h) as [e|]; [| discriminate].
  cbn [mbind Py.exc_bind].
  destruct (GuestRelevanceScorer.generate_interview_recommendations _ _ _) as [ir |] eqn:Hir;
    [| discriminate].
  cbn [mbind Py.exc_bind mret Py.exc_ret].
  intros [= <-]. exists t, a, p, u, e. cbn.
  repeat split; try reflexivity. exact Hir.
Qed.

Lemma no_concern_above_40 (f : Factor) (s : Q) :
  (0.4 < s)%Q -> Py.leb (s * 100) 40 = false.
Proof.
  intros Hs. unfold Py.leb.
  destruct (Qle_bool (s * 100) 40) eqn:E; [| reflexivity].
  apply Qle_bool_iff in E. lra.
Qed.

(** X4.  The only concerns a result can list are the one about topic
    alignment and the one about uniqueness, in that order: authority,
    audience appeal and engagement potential never fall to 0.4, so their
    three concern texts are never produced. *)
Theorem concerns_only_topic_or_uniqueness
        (g : GuestProfile) (h : HostAnalysis) (now : Q) (r : RelevanceResult) :
  GuestRelevanceScorer.calculate_overall_relevance_score g h now = Py.Ok r ->
  exists topic_concern uniqueness_concern : bool,
    areas_of_concern r
    = (if topic_concern
       then ["Limited alignment with channel topics"] else [])
      ++ (if uniqueness_concern
          then ["Similar to previous guests/content"] else []).
Proof.
  intros Hr.
  destruct (result_components g h now r Hr)
    as (t & a & p & u & e & Ht & Ha & Hp & Hu & He & Hc & _).
  pose proof (authority_score_band g h a Ha) as Ba.
  pose proof (audience_appeal_band g h p Hp) as Bp.
  pose proof (engagement_potential_band g h e He) as Be.
  rewrite Hc.
  unfold GuestRelevanceScorer.identify_areas_of_concern,
    GuestRelevanceScorer.select.
  cbn [List.filter fst snd].
  rewrite (no_concern_above_40 authority_score a) by lra.
  rewrite (no_concern_above_40 audience_appeal p) by lra.
  rewrite (no_concern_above_40 engagement_potential e) by lra.
  exists (Py.leb (t * 100) 40), (Py.leb (u * 100) 40).
  destruct (Py.leb (t * 100) 40), (Py.leb (u * 100) 40); reflexivity.
Qed.

Lemma concerns_only_topic_or_uniqueness_witness :
  exists r (topic_concern uniqueness_concern : bool),
    GuestRelevanceScorer.calculate_overall_relevance_score
      Samples.scenario_guest Samples.scenario_host 0 = Py.Ok r
    /\ areas_of_concern r
       = (if topic_concern
          then ["Limited alignment with channel topics"] else [])
         ++ (if uniqueness_concern
             then ["Similar to previous guests/content"] else []).
Proof.
  eexists.
  assert (H : GuestRelevanceScorer.calculate_overall_relevance_score
                Samples.scenario_guest Samples.scenario_host 0 = Py.Ok _)
    by (vm_compute; reflexivity).
  destruct (concerns_only_topic_or_uniqueness _ _ _ _ H) as (b1 & b2 & Hb).
  exists b1, b2. split; [exact H | exact Hb].
Defined.

(** X5.  The confidence level never drops when the data quality, the
    confidence score or the number of analysed videos grows; it is LOW
    when the profile has no extraction metadata or the host analysis has no
    video count. *)
Theorem confidence_level_monotone (g g' : GuestProfile) (h h' : HostAnalysis) :
  (data_quality_of g <= data_quality_of g' ->
   confidence_score_of g <= confidence_score_of g' ->
   videos_analyzed_of h <= videos_analyzed_of h' ->
   level_rank (GuestRelevanceScorer.determine_confidence_level g h)
   <= level_rank (GuestRelevanceScorer.determine_confidence_level g' h'))
  /\ (extraction_metadata g = None \/ videos_analyzed h = None ->
      GuestRelevanceScorer.determine_confidence_level g h = LOW).
Proof.
  split.
  - unfold data_quality_of, confidence_score_of, videos_analyzed_of,
      GuestRelevanceScorer.determine_confidence_level.
    intros Hq Hc Hv.
    repeat match goal with
           | |- context [?a <=? ?b] =>
               let E := fresh "E" in destruct (Z.leb_spec a b) as [E | E]
           end; cbn; lia.
  - unfold GuestRelevanceScorer.determine_confidence_level.
    intros [-> | ->]; cbn [default].
    + reflexivity.
    + cbn. rewrite !andb_false_r. reflexivity.
Qed.

Lemma confidence_level_monotone_witness :
  level_rank (GuestRelevanceScorer.determine_confidence_level
                Samples.no_guest Samples.mock_host)
  <= level_rank (GuestRelevanceScorer.determine_confidence_level
                   Samples.no_guest Samples.mock_host)
  /\ GuestRelevanceScorer.determine_confidence_level
       Samples.no_guest Samples.mock_host = LOW.
Proof.
  split.
  - apply (proj1 (confidence_level_monotone Samples.no_guest Samples.no_guest
                    Samples.mock_host Samples.mock_host)); reflexivity.
  - apply (proj2 (confidence_level_monotone Samples.no_guest Samples.no_guest
                    Samples.mock_host Samples.mock_host)).
    left. reflexivity.
Defined.

(** One round of the inner boost loop, for one expertise string. *)
Lemma boost_inner (expertise : string) (channel_topics : list string) (s : Q) :
  (0 <= s <= 1)%Q ->
  let s' :=
    foldl (fun s topic =>
             if GuestRelevanceScorer.overlap (Py.lower expertise) (Py.lower topic)
             then Py.min 1.0 (s + 0.2) else s)
          s channel_topics in
  (s <= s' <= 1)%Q
  /\ (existsb (fun topic =>
                 GuestRelevanceScorer.overlap (Py.lower expertise) (Py.lower topic))
              channel_topics = true ->
      (0.2 <= s')%Q).
Proof.
  cbn zeta. revert s.
  induction channel_topics as [| topic topics IH]; intros s Hs.
  - cbn. split; [lra | discriminate].
  - cbn [foldl existsb].
    destruct (GuestRelevanceScorer.overlap (Py.lower expertise) (Py.lower topic)).
    + pose proof (capped_floor (s + 0) (s + 0.2)) as Hcap.
      assert (Hstep : (0.2 <= Py.min 1.0 (s + 0.2))%Q)
        by (apply min_glb; [discriminate | lra]).
      assert (Hge : (s <= Py.min 1.0 (s + 0.2) <= 1)%Q).
      { split; [apply min_glb; lra |].
        apply Qle_trans with 1.0%Q; [apply min_le_l | discriminate]. }
      destruct (IH (Py.min 1.0 (s + 0.2))) as [Hmono _]; [lra |].
      split; [lra | intros _; lra].
    + destruct (IH s Hs) as [Hmono Hhit]. cbn [orb]. split; assumption.
Qed.

Lemma boost_floor (guest_expertise channel_topics : list string) (s : Q) :
  (0 <= s <= 1)%Q ->
  existsb
    (fun expertise =>
       existsb (fun topic =>
                  GuestRelevanceScorer.overlap (Py.lower expertise) (Py.lower topic))
               channel_topics)
    guest_expertise = true ->
  (0.2 <= GuestRelevanceScorer.boost guest_expertise channel_topics s)%Q.
Proof.
  unfold GuestRelevanceScorer.boost. revert s.
  induction guest_expertise as [| expertise rest IH]; intros s Hs Hhit;
    [discriminate |].
  cbn [foldl existsb] in *.
  destruct (boost_inner expertise channel_topics s Hs) as [Hmono Hinner].
  cbn zeta in Hmono, Hinner.
  set (s' := foldl _ s channel_topics) in *.
  destruct (existsb _ channel_topics) eqn:E.
  - specialize (Hinner eq_refl).
    pose proof (boost_range rest channel_topics s' ltac:(lra)) as Hr.
    unfold GuestRelevanceScorer.boost in Hr.
    assert (Hkeep : forall l x, (0 <= x <= 1)%Q -> (0.2 <= x)%Q ->
              (0.2 <= foldl (fun s0 expertise0 =>
                               foldl (fun s1 topic =>
                                        if GuestRelevanceScorer.overlap
                                             (Py.lower expertise0) (Py.lower topic)
                                        then Py.min 1.0 (s1 + 0.2) else s1)
                                     s0 channel_topics) x l)%Q).
    { induction l as [| e0 l IHl]; intros x Hx Hx2; [exact Hx2 |].
      cbn [foldl].
      destruct (boost_inner e0 channel_topics x Hx) as [Hm _]. cbn zeta in Hm.
      apply IHl; lra. }
    apply Hkeep; lra.
  - cbn [orb] in Hhit. apply IH; [lra | exact Hhit].
Qed.

(** X6.  When some expertise area and some primary topic contain one
    another, case aside, the topic alignment is at least 0.2, however few
    keywords overlap. *)
Theorem direct_match_floor (g : GuestProfile) (h : HostAnalysis) (v : Q) :
  direct_match g h = true ->
  GuestRelevanceScorer.calculate_topic_alignment g h = Py.Ok v ->
  (0.2 <= v <= 1)%Q.
Proof.
  intros Hmatch Hv.
  split; [| exact (proj2 (topic_alignment_range g h v Hv))].
  revert Hv. unfold GuestRelevanceScorer.calculate_topic_alignment.
  destruct (_ || _); [intros [= <-]; discriminate |].
  destruct (bool_decide _); [intros [= <-]; discriminate |].
  rewrite truediv_max_returns. cbn [mbind Py.exc_bind mret Py.exc_ret].
  intros [= <-]. apply boost_floor; [| exact Hmatch].
  apply capped_unit. apply Qle_shift_div_l.
  - change 0%Q with (inject_Z 0). rewrite <- Zlt_Qlt. lia.
  - rewrite Qmult_0_l. apply len_nonneg.
Qed.

Lemma direct_match_floor_witness :
  exists v,
    GuestRelevanceScorer.calculate_topic_alignment
      Samples.returning_guest Samples.mock_host = Py.Ok v
    /\ (0.2 <= v <= 1)%Q.
Proof.
  eexists. split; [vm_compute; reflexivity |].
  apply (direct_match_floor Samples.returning_guest Samples.mock_host).
  - vm_compute. reflexivity.
  - vm_compute. reflexivity.
Defined.

Lemma interview_recommendations_shape (g : GuestProfile) (h : HostAnalysis)
      (overall : Z) (ir : InterviewRecommendations) :
  GuestRelevanceScorer.generate_interview_recommendations g h overall = Py.Ok ir ->
  estimated_audience_engagement ir
  = (if 80 <=? overall then HIGH else if 60 <=? overall then MEDIUM else LOW)
  /\ (length (focus_topics ir) <= 3)%nat
  /\ preparation_notes ir <> [].
Proof.
  unfold GuestRelevanceScorer.generate_interview_recommendations.
  destruct (topic_alignment_returns g h) as [t ->].
  destruct (default ["Unknown"] (previous_podcasts g)) as [| first rest];
    [destruct (70 <=? overall); discriminate |].
  destruct (70 <=? overall); cbn [mbind Py.exc_bind mret Py.exc_ret Py.index0];
    intros [= <-]; cbn [estimated_audience_engagement focus_topics preparation_notes].
  all: split; [reflexivity |]; split;
    [destruct (GuestRelevanceScorer.nonempty _); rewrite length_take; lia |].
  all: destruct (String.eqb first "Unable to determine"); cbn; discriminate.
Qed.

(** X7.  In every result the interview recommendations agree with the
    tier: an estimated engagement of HIGH comes with a tier of RECOMMENDED
    or better, HIGHLY_RECOMMENDED always comes with HIGH, and LOW comes
    with a tier of CONSIDER or worse; there are at most three focus topics
    and at least one preparation note. *)
Theorem interview_recommendations_consistent
        (g : GuestProfile) (h : HostAnalysis) (now : Q) (r : RelevanceResult) :
  GuestRelevanceScorer.calculate_overall_relevance_score g h now = Py.Ok r ->
  let ir := interview_recommendations r in
  (estimated_audience_engagement ir = HIGH -> 3 <= tier_rank (recommendation r))
  /\ (recommendation r = HIGHLY_RECOMMENDED -> estimated_audience_engagement ir = HIGH)
  /\ (estimated_audience_engagement ir = LOW -> tier_rank (recommendation r) <= 2)
  /\ (length (focus_topics ir) <= 3)%nat
  /\ preparation_notes ir <> [].
Proof.
  intros Hr. cbn zeta.
  destruct (result_components g h now r Hr)
    as (t & a & p & u & e & _ & _ & _ & _ & _ & _ & _ & Hrec & Hir).
  destruct (interview_recommendations_shape g h _ _ Hir) as (Hest & Hlen & Hnotes).
  rewrite Hest, Hrec.
  unfold GuestRelevanceScorer.determine_recommendation.
  repeat split; try assumption.
  all: repeat match goal with
              | |- context [?a <=? ?b] =>
                  let E := fresh "E" in destruct (Z.leb_spec a b) as [E | E]
              end; cbn; intros; first [lia | congruence].
Qed.

Lemma interview_recommendations_consistent_witness :
  exists r,
    GuestRelevanceScorer.calculate_overall_relevance_score
      Samples.scenario_guest Samples.scenario_host 0 = Py.Ok r
    /\ (length (focus_topics (interview_recommendations r)) <= 3)%nat.
Proof.
  eexists.
  assert (H : GuestRelevanceScorer.calculate_overall_relevance_score
                Samples.scenario_guest Samples.scenario_host 0 = Py.Ok _)
    by (vm_compute; reflexivity).
  split; [exact H |].
  apply (interview_recommendations_consistent _ _ _ _ H).
Defined.

(** * Further properties of the orchestrator *)

(** The three ways the single-guest operation ends: the guest analysis
    raises; the scorer raises; or the analysis completes with the profile,
    the host analysis of step 2 and the scorer's result. *)
Lemma single_guest_cases (c : Collaborators)
      (guest_name guest_url host_channel_url : string) (use_cache : bool)
      (w : World) :
  let resolved := OneClickPodcastGuestTracker.resolve_name c guest_name guest_url in
  let extracted := analyze_guest c resolved guest_url (clock w) in
  let w1 := OneClickPodcastGuestTracker.set_clock (snd extracted)
              (OneClickPodcastGuestTracker.log_guest_call resolved guest_url w) in
  let run := OneClickPodcastGuestTracker.analyze_podcast_guest_complete
               c guest_name guest_url host_channel_url use_cache w in
  match fst extracted with
  | Py.Raise e =>
      run = (Failed (Py.str_of_exn e)
                    (OneClickPodcastGuestTracker.metadata_of
                       resolved guest_url host_channel_url w1), w1)
  | Py.Ok profile =>
      let step2 := OneClickPodcastGuestTracker.obtain_host_analysis
                     c use_cache host_channel_url w1 in
      match GuestRelevanceScorer.calculate_overall_relevance_score
              profile (fst step2) (clock (snd step2)) with
      | Py.Raise e =>
          run = (Failed (Py.str_of_exn e)
                        (OneClickPodcastGuestTracker.metadata_of
                           resolved guest_url host_channel_url (snd step2)),
                 snd step2)
      | Py.Ok scored =>
          exists a w',
            run = (Completed a, w')
            /\ guest_profile a = profile
            /\ host_analysis a = fst step2
            /\ relevance_analysis a = scored
            /\ AnalysisMetadata.guest_name (analysis_metadata a) = resolved
            /\ host_cache w' = host_cache (snd step2)
            /\ host_calls w' = host_calls (snd step2)
            /\ clock w'
               = snd (call_llm_for_scoring_validation c scored profile (fst step2)
                        (clock (snd step2)))
      end
  end.
Proof.
  cbn zeta.
  unfold OneClickPodcastGuestTracker.analyze_podcast_guest_complete.
  destruct (analyze_guest c _ guest_url (clock w)) as [[profile | e] t];
    cbn [fst snd]; [| reflexivity].
  destruct (OneClickPodcastGuestTracker.obtain_host_analysis c use_cache
              host_channel_url _) as [h w2].
  cbn [fst snd].
  destruct (GuestRelevanceScorer.calculate_overall_relevance_score profile h (clock w2))
    as [scored | e]; [| reflexivity].
  destruct (call_llm_for_scoring_validation c scored profile h (clock w2))
    as [text t3].
  eexists _, _. split; [reflexivity |]. cbn. repeat split; reflexivity.
Qed.

(** A hit: the stored analysis, and the world as it was. *)
Lemma obtain_hit (c : Collaborators) (url : string) (w : World) (entry : CacheEntry) :
  host_cache w !! url = Some entry ->
  (clock w - timestamp entry < 86400)%Q ->
  host_truthy (data entry) = true ->
  OneClickPodcastGuestTracker.obtain_host_analysis c true url w = (data entry, w).
Proof.
  intros Hentry Hage Htruthy.
  unfold OneClickPodcastGuestTracker.obtain_host_analysis,
    OneClickPodcastGuestTracker.cached.
  rewrite Hentry. apply ltb_lt in Hage. rewrite Hage, Htruthy. reflexivity.
Qed.

(** Step 2 either leaves the world as it is or calls the analyser once;
    it writes no other key of the cache than the channel's and removes
    none. *)
Lemma obtain_host_analysis_state (c : Collaborators) (use_cache : bool)
      (url : string) (w : World) :
  let w' := snd (OneClickPodcastGuestTracker.obtain_host_analysis c use_cache url w) in
  (forall other, other <> url -> host_cache w' !! other = host_cache w !! other)
  /\ (is_Some (host_cache w !! url) -> is_Some (host_cache w' !! url))
  /\ (host_calls w' = host_calls w \/ host_calls w' = url :: host_calls w).
Proof.
  cbn zeta. unfold OneClickPodcastGuestTracker.obtain_host_analysis.
  destruct (analyze_and_store_spec c use_cache url w) as (_ & Hcalls & _ & _ & Hcache).
  assert (Hmiss :
    (forall other, other <> url ->
       host_cache (snd (OneClickPodcastGuestTracker.analyze_and_store c use_cache url w))
         !! other = host_cache w !! other)
    /\ (is_Some (host_cache w !! url) ->
        is_Some (host_cache
                   (snd (OneClickPodcastGuestTracker.analyze_and_store c use_cache url w))
                   !! url))
    /\ (host_calls (snd (OneClickPodcastGuestTracker.analyze_and_store c use_cache url w))
        = host_calls w
        \/ host_calls (snd (OneClickPodcastGuestTracker.analyze_and_store c use_cache url w))
           = url :: host_calls w)).
  { rewrite Hcache, Hcalls.
    destruct (use_cache && _); repeat split; auto.
    - intros other Hne. apply lookup_insert_ne. congruence.
    - intros _. rewrite lookup_insert_eq. eauto. }
  destruct (OneClickPodcastGuestTracker.cached use_cache url w) as [h |];
    [destruct (host_truthy h) |]; first [exact Hmiss | cbn [snd]; auto].
Qed.

(** X9.  One single-guest request touches the cache at its own channel
    only: the entry of every other channel is what it was, and no entry is
    ever removed. *)
Theorem single_guest_cache_isolation (c : Collaborators)
        (guest_name guest_url host_channel_url : string) (use_cache : bool)
        (w : World) (other : string) :
  let w' := snd (OneClickPodcastGuestTracker.analyze_podcast_guest_complete
                   c guest_name guest_url host_channel_url use_cache w) in
  (other <> host_channel_url -> host_cache w' !! other = host_cache w !! other)
  /\ (is_Some (host_cache w !! other) -> is_Some (host_cache w' !! other)).
Proof.
  cbn zeta.
  pose proof (single_guest_cases c guest_name guest_url host_channel_url use_cache w)
    as Hcases. cbn zeta in Hcases.
  set (resolved := OneClickPodcastGuestTracker.resolve_name c guest_name guest_url) in *.
  set (w1 := OneClickPodcastGuestTracker.set_clock _ _) in *.
  destruct (obtain_host_analysis_state c use_cache host_channel_url w1)
    as (Hother & Hkeep & _).
  assert (Hstep2 :
    (other <> host_channel_url ->
     host_cache (snd (OneClickPodcastGuestTracker.obtain_host_analysis
                        c use_cache host_channel_url w1)) !! other
     = host_cache w !! other)
    /\ (is_Some (host_cache w !! other) ->
        is_Some (host_cache (snd (OneClickPodcastGuestTracker.obtain_host_analysis
                                    c use_cache host_channel_url w1)) !! other))).
  { split.
    - intros Hne. rewrite (Hother other Hne). reflexivity.
    - intros Hsome. destruct (decide (other = host_channel_url)) as [-> | Hne].
      + apply Hkeep. exact Hsome.
      + rewrite (Hother other Hne). exact Hsome. }
  destruct (fst (analyze_guest c resolved guest_url (clock w))) as [profile | e].
  - destruct (GuestRelevanceScorer.calculate_overall_relevance_score _ _ _).
    + destruct Hcases as (done & wn & -> & _ & _ & _ & _ & Hcache & _ & _).
      cbn [snd]. rewrite Hcache. exact Hstep2.
    + rewrite Hcases. cbn [snd]. exact Hstep2.
  - rewrite Hcases. cbn [snd]. split; auto.
Qed.

Lemma single_guest_cache_isolation_witness :
  host_cache
    (snd (OneClickPodcastGuestTracker.analyze_podcast_guest_complete
            Samples.mock_collaborators "Jane Doe" "https://twitter.com/jane"
            "https://youtube.com/@other" true (Samples.world_at 5000)))
    !! Samples.lex
  = Some Samples.mock_entry.
Proof.
  rewrite (proj1 (single_guest_cache_isolation
                    Samples.mock_collaborators "Jane Doe" "https://twitter.com/jane"
                    "https://youtube.com/@other" true (Samples.world_at 5000)
                    Samples.lex)).
  - vm_compute. reflexivity.
  - discriminate.
Defined.

(** X8.  A stored analysis is found again: when a request with caching
    enabled finds nothing in the cache and the analyser returns a non-empty
    analysis without an ["error"] key, a later request for the same channel
    at any time less than 86400 seconds after the analyser returned gets
    that analysis, from any analyser, without a call and without a change
    of the world. *)
Theorem cache_round_trip (c c' : Collaborators) (url : string) (w : World) (t : Q) :
  let fresh := analyze_host_channel c url (clock w) in
  let first := OneClickPodcastGuestTracker.obtain_host_analysis c true url w in
  let later := OneClickPodcastGuestTracker.set_clock t (snd first) in
  OneClickPodcastGuestTracker.cached true url w = None ->
  error (fst fresh) = None ->
  host_truthy (fst fresh) = true ->
  (t - snd fresh < 86400)%Q ->
  fst first = fst fresh
  /\ OneClickPodcastGuestTracker.obtain_host_analysis c' true url later
     = (fst fresh, later).
Proof.
  cbn zeta. intros Hmiss Herr Htruthy Hage.
  assert (Hfirst :
    OneClickPodcastGuestTracker.obtain_host_analysis c true url w
    = OneClickPodcastGuestTracker.analyze_and_store c true url w).
  { unfold OneClickPodcastGuestTracker.obtain_host_analysis.
    rewrite Hmiss. reflexivity. }
  rewrite Hfirst.
  destruct (analyze_and_store_spec c true url w) as (H1 & _ & _ & _ & H5).
  split; [exact H1 |].
  apply (obtain_hit c' url _ {| data := (analyze_host_channel c url (clock w)).1;
                                timestamp := (analyze_host_channel c url (clock w)).2 |}).
  - cbn [OneClickPodcastGuestTracker.set_clock host_cache].
    rewrite H5, Herr. cbn. apply lookup_insert_eq.
  - exact Hage.
  - exact Htruthy.
Qed.

Lemma cache_round_trip_witness :
  OneClickPodcastGuestTracker.obtain_host_analysis
    Samples.failing_host_collaborators true Samples.lex
    (OneClickPodcastGuestTracker.set_clock 5000
       (snd (OneClickPodcastGuestTracker.obtain_host_analysis
               Samples.mock_collaborators true Samples.lex Samples.fresh_world)))
  = (Samples.mock_host,
     OneClickPodcastGuestTracker.set_clock 5000
       (snd (OneClickPodcastGuestTracker.obtain_host_analysis
               Samples.mock_collaborators true Samples.lex Samples.fresh_world))).
Proof.
  apply (cache_round_trip Samples.mock_collaborators
           Samples.failing_host_collaborators Samples.lex Samples.fresh_world 5000).
  - vm_compute. reflexivity.
  - reflexivity.
  - reflexivity.
  - reflexivity.
Defined.

Lemma analyze_host_once_state (c : Collaborators) (url : string) (w : World) :
  let fresh := analyze_host_channel c url (clock w) in
  let w1 := OneClickPodcastGuestTracker.analyze_host_once c url w in
  host_cache w1
  = <[ url := {| data := fst fresh; timestamp := snd fresh |} ]> (host_cache w)
  /\ clock w1 = snd fresh
  /\ host_calls w1 = url :: host_calls w.
Proof.
  cbn zeta.
  unfold OneClickPodcastGuestTracker.analyze_host_once,
    OneClickPodcastGuestTracker.run_host_analyzer.
  destruct (analyze_host_channel c url (clock w)) as [h t].
  repeat split; reflexivity.
Qed.

(** X10.  The batch operation stores the host analysis whatever it is: a
    later request with caching enabled, less than 86400 seconds after the
    analyser returned, is served that analysis without a call to the
    analyser, also when it is the dictionary of a failed analysis, which
    the single-guest operation would not have stored. *)
Theorem batch_stores_any_host_analysis (c c' : Collaborators) (url : string)
        (w : World) (t : Q) :
  let fresh := analyze_host_channel c url (clock w) in
  let later := OneClickPodcastGuestTracker.set_clock t
                 (OneClickPodcastGuestTracker.analyze_host_once c url w) in
  host_cache (OneClickPodcastGuestTracker.analyze_host_once c url w) !! url
  = Some {| data := fst fresh; timestamp := snd fresh |}
  /\ (host_truthy (fst fresh) = true ->
      (t - snd fresh < 86400)%Q ->
      OneClickPodcastGuestTracker.obtain_host_analysis c' true url later
      = (fst fresh, later)).
Proof.
  cbn zeta.
  destruct (analyze_host_once_state c url w) as (Hcache & _ & _).
  cbn zeta in Hcache.
  split.
  - rewrite Hcache. apply lookup_insert_eq.
  - intros Htruthy Hage.
    apply (obtain_hit c' url _ {| data := (analyze_host_channel c url (clock w)).1;
                                  timestamp := (analyze_host_channel c url (clock w)).2 |}).
    + cbn [OneClickPodcastGuestTracker.set_clock host_cache].
      rewrite Hcache. apply lookup_insert_eq.
    + exact Hage.
    + exact Htruthy.
Qed.

Lemma batch_stores_any_host_analysis_witness :
  OneClickPodcastGuestTracker.obtain_host_analysis
    Samples.mock_collaborators true Samples.lex
    (OneClickPodcastGuestTracker.set_clock 5000
       (OneClickPodcastGuestTracker.analyze_host_once
          Samples.failing_host_collaborators Samples.lex Samples.fresh_world))
  = (Samples.error_host,
     OneClickPodcastGuestTracker.set_clock 5000
       (OneClickPodcastGuestTracker.analyze_host_once
          Samples.failing_host_collaborators Samples.lex Samples.fresh_world)).
Proof.
  apply (proj2 (batch_stores_any_host_analysis Samples.failing_host_collaborators
                  Samples.mock_collaborators Samples.lex Samples.fresh_world 5000)).
  - reflexivity.
  - reflexivity.
Defined.

(** One attempt of the batch loop while the stored host analysis is still
    valid: the analyser is not called, the cache is not written, the
    attempt takes no longer than the guest analysis and the narration, and
    a completed analysis holds the stored host analysis. *)
Lemma attempt_within_ttl (c : Collaborators) (url : string) (entry : CacheEntry)
      (dg dl : Q) (guest_info : GuestInfo.t) (w : World) :
  (0 <= dg)%Q -> (0 <= dl)%Q ->
  host_truthy (data entry) = true ->
  (forall n u t, (snd (analyze_guest c n u t) <= t + dg)%Q) ->
  (forall r g h t, (snd (call_llm_for_scoring_validation c r g h t) <= t + dl)%Q) ->
  host_cache w !! url = Some entry ->
  (clock w - timestamp entry + dg < 86400)%Q ->
  let run := OneClickPodcastGuestTracker.attempt c url guest_info w in
  host_cache (snd run) = host_cache w
  /\ host_calls (snd run) = host_calls w
  /\ (clock (snd run) <= clock w + (dg + dl))%Q
  /\ (forall a, fst run = Py.Ok (Completed a) -> host_analysis a = data entry).
Proof.
  intros Hdg Hdl Htruthy Hguest Hllm Hentry Hbudget. cbn zeta.
  unfold OneClickPodcastGuestTracker.attempt.
  destruct (GuestInfo.name guest_info) as [n |];
    [| cbn; repeat split; [lra | discriminate]].
  destruct (GuestInfo.url guest_info) as [u |];
    [| cbn; repeat split; [lra | discriminate]].
  cbn [OneClickPodcastGuestTracker.getitem].
  pose proof (single_guest_cases c n u url true w) as Hcases. cbn zeta in Hcases.
  set (resolved := OneClickPodcastGuestTracker.resolve_name c n u) in *.
  pose proof (Hguest resolved u (clock w)) as Ht1.
  set (w1 := OneClickPodcastGuestTracker.set_clock _ _) in *.
  assert (Hhit : OneClickPodcastGuestTracker.obtain_host_analysis c true url w1
                 = (data entry, w1)).
  { apply obtain_hit; [exact Hentry | | exact Htruthy].
    subst w1. cbn [OneClickPodcastGuestTracker.set_clock clock]. lra. }
  rewrite Hhit in Hcases. cbn [fst snd] in Hcases.
  destruct (fst (analyze_guest c resolved u (clock w))) as [profile | e].
  - destruct (GuestRelevanceScorer.calculate_overall_relevance_score
                profile (data entry) (clock w1)) as [scored | e].
    + destruct Hcases as (done & wn & -> & _ & Hhost & _ & _ & Hcache & Hcalls & Hclock).
      cbn [fst snd]. rewrite Hcache, Hcalls, Hclock.
      pose proof (Hllm scored profile (data entry) (clock w1)) as Ht3.
      repeat split.
      * subst w1. cbn [OneClickPodcastGuestTracker.set_clock clock] in *. lra.
      * intros a [= <-]. exact Hhost.
    + rewrite Hcases. cbn [fst snd]. repeat split.
      * subst w1. cbn [OneClickPodcastGuestTracker.set_clock clock]. lra.
      * discriminate.
  - rewrite Hcases. cbn [fst snd]. repeat split.
    + subst w1. cbn [OneClickPodcastGuestTracker.set_clock clock]. lra.
    + discriminate.
Qed.

Lemma analyze_each_within_ttl (c : Collaborators) (url : string) (entry : CacheEntry)
      (dg dl : Q) :
  (0 <= dg)%Q -> (0 <= dl)%Q ->
  host_truthy (data entry) = true ->
  (forall n u t, (snd (analyze_guest c n u t) <= t + dg)%Q) ->
  (forall r g h t, (snd (call_llm_for_scoring_validation c r g h t) <= t + dl)%Q) ->
  forall (guest_list : list GuestInfo.t) (results : list Analysis)
         (failed : list FailedAnalysis.t) (w : World),
    host_cache w !! url = Some entry ->
    (clock w - timestamp entry
     + inject_Z (Z.of_nat (length guest_list)) * (dg + dl) < 86400)%Q ->
    Forall (fun a => host_analysis a = data entry) results ->
    let run := OneClickPodcastGuestTracker.analyze_each
                 c url guest_list results failed w in
    Forall (fun a => host_analysis a = data entry) (fst (fst run))
    /\ host_calls (snd run) = host_calls w
    /\ host_cache (snd run) = host_cache w.
Proof.
  intros Hdg Hdl Htruthy Hguest Hllm.
  induction guest_list as [| guest_info rest IH];
    intros results failed w Hentry Hbudget Hres; cbn zeta.
  - cbn. auto.
  - cbn [OneClickPodcastGuestTracker.analyze_each].
    assert (Hlen : (inject_Z (Z.of_nat (length (guest_info :: rest)))
                    == inject_Z (Z.of_nat (length rest)) + 1)%Q).
    { cbn [length]. rewrite Nat2Z.inj_succ. unfold Z.succ.
      rewrite inject_Z_plus. reflexivity. }
    rewrite Hlen in Hbudget.
    assert (Hn : (0 <= inject_Z (Z.of_nat (length rest)))%Q).
    { change 0%Q with (inject_Z 0). rewrite <- Zle_Qle. lia. }
    destruct (attempt_within_ttl c url entry dg dl guest_info w
                Hdg Hdl Htruthy Hguest Hllm Hentry ltac:(nra))
      as (Hcache & Hcalls & Hclock & Hhost).
    destruct (OneClickPodcastGuestTracker.attempt c url guest_info w)
      as [outcome w1].
    cbn [fst snd] in *.
    assert (Hentry1 : host_cache w1 !! url = Some entry) by (rewrite Hcache; exact Hentry).
    assert (Hbudget1 : (clock w1 - timestamp entry
                        + inject_Z (Z.of_nat (length rest)) * (dg + dl) < 86400)%Q)
      by nra.
    destruct outcome as [[a | error metadata] | e].
    + destruct (IH (results ++ [a]) failed w1 Hentry1 Hbudget1) as (H1 & H2 & H3).
      { apply Forall_app. split; [exact Hres |].
        constructor; [apply Hhost; reflexivity | constructor]. }
      cbn zeta in H1, H2, H3. rewrite H2, H3. auto.
    + destruct (IH results
                  (failed ++ [{| FailedAnalysis.guest_info := guest_info;
                                 FailedAnalysis.error := error |}])
                  w1 Hentry1 Hbudget1 Hres) as (H1 & H2 & H3).
      cbn zeta in H1, H2, H3. rewrite H2, H3. auto.
    + destruct (IH results
                  (failed ++ [{| FailedAnalysis.guest_info := guest_info;
                                 FailedAnalysis.error := Py.str_of_exn e |}])
                  w1 Hentry1 Hbudget1 Hres) as (H1 & H2 & H3).
      cbn zeta in H1, H2, H3. rewrite H2, H3. auto.
Qed.

(** X11.  When the host analysis is not empty, every guest analysis takes
    at most dg seconds, every narration at most dl seconds, and the batch
    has fewer than 86400 / (dg + dl) guests, the batch operation calls the
    host analyser exactly once and every completed analysis holds the host
    analysis of that one call. *)
Theorem batch_analyses_host_once (c : Collaborators)
        (guest_list : list GuestInfo.t) (url : string) (w : World) (dg dl : Q) :
  let fresh := analyze_host_channel c url (clock w) in
  let run := OneClickPodcastGuestTracker.batch_analyze_guests c guest_list url w in
  (0 <= dg)%Q -> (0 <= dl)%Q ->
  host_truthy (fst fresh) = true ->
  (forall n u t, (snd (analyze_guest c n u t) <= t + dg)%Q) ->
  (forall r g h t, (snd (call_llm_for_scoring_validation c r g h t) <= t + dl)%Q) ->
  (inject_Z (Z.of_nat (length guest_list)) * (dg + dl) < 86400)%Q ->
  host_calls (snd run) = url :: host_calls w
  /\ Forall (fun a => host_analysis a = fst fresh) (guest_analyses (fst run)).
Proof.
  cbn zeta. intros Hdg Hdl Htruthy Hguest Hllm Hbudget.
  destruct (analyze_host_once_state c url w) as (Hcache & Hclock & Hcalls).
  cbn zeta in Hcache, Hclock, Hcalls.
  pose proof (analyze_each_within_ttl c url
                {| data := (analyze_host_channel c url (clock w)).1;
                   timestamp := (analyze_host_channel c url (clock w)).2 |}
                dg dl Hdg Hdl Htruthy Hguest Hllm guest_list [] []
                (OneClickPodcastGuestTracker.analyze_host_once c url w)) as Hloop.
  cbn zeta in Hloop. cbn [data timestamp] in Hloop.
  destruct Hloop as (Hall & Hcalls' & _).
  - rewrite Hcache. apply lookup_insert_eq.
  - rewrite Hclock. lra.
  - constructor.
  - unfold OneClickPodcastGuestTracker.batch_analyze_guests.
    destruct (OneClickPodcastGuestTracker.analyze_each c url guest_list [] []
                (OneClickPodcastGuestTracker.analyze_host_once c url w))
      as [[results failed] w1].
    cbn [fst snd guest_analyses] in *.
    split; [rewrite Hcalls', Hcalls; reflexivity |].
    apply (Permutation_Forall
             (Permutation_sym (sort_desc_perm OneClickPodcastGuestTracker.score_of results))).
    exact Hall.
Qed.

Lemma batch_analyses_host_once_witness :
  host_calls
    (snd (OneClickPodcastGuestTracker.batch_analyze_guests
            Samples.mock_collaborators Samples.sample_batch Samples.lex
            Samples.fresh_world))
  = [Samples.lex]
  /\ Forall (fun a => host_analysis a = Samples.mock_host)
            (guest_analyses
               (fst (OneClickPodcastGuestTracker.batch_analyze_guests
                       Samples.mock_collaborators Samples.sample_batch Samples.lex
                       Samples.fresh_world))).
Proof.
  apply (batch_analyses_host_once Samples.mock_collaborators Samples.sample_batch
           Samples.lex Samples.fresh_world 1 1).
  - discriminate.
  - discriminate.
  - reflexivity.
  - intros n u t. cbn. apply Qle_refl.
  - intros r g h t. cbn. apply Qle_refl.
  - reflexivity.
Defined.

Lemma scorer_raises (g : GuestProfile) (h : HostAnalysis) (now : Q) :
  previous_podcasts g = Some [] ->
  GuestRelevanceScorer.calculate_overall_relevance_score g h now
  = Py.Raise Py.IndexError.
Proof.
  intros Hpp. unfold GuestRelevanceScorer.calculate_overall_relevance_score.
  destruct (topic_alignment_returns g h) as [t ->].
  destruct (authority_score_returns g h) as [a ->].
  destruct (audience_appeal_returns g h) as [p ->].
  destruct (uniqueness_factor_returns g h) as [u ->].
  destruct (engagement_potential_returns g h) as [e ->].
  cbn [mbind Py.exc_bind].
  rewrite (interview_recommendations_raise g h _ Hpp). reflexivity.
Qed.

Lemma scorer_returns (g : GuestProfile) (h : HostAnalysis) (now : Q) :
  previous_podcasts g <> Some [] ->
  Py.returns (GuestRelevanceScorer.calculate_overall_relevance_score g h now).
Proof.
  intros Hpp. unfold GuestRelevanceScorer.calculate_overall_relevance_score.
  destruct (topic_alignment_returns g h) as [t ->].
  destruct (authority_score_returns g h) as [a ->].
  destruct (audience_appeal_returns g h) as [p ->].
  destruct (uniqueness_factor_returns g h) as [u ->].
  destruct (engagement_potential_returns g h) as [e ->].
  cbn [mbind Py.exc_bind].
  destruct (interview_recommendations_return g h
              (GuestRelevanceScorer.weighted_score t a p u e) Hpp) as [ir ->].
  eexists. reflexivity.
Qed.

(** X12.  The single-guest operation ends in the structural error record
    in two cases only.  When the guest analysis raises, the error is the
    text of the exception, and the host analyser has not been called nor
    the cache written.  When the extracted profile has an empty
    [previous_podcasts] list, the error is "list index out of range".  In
    every other case the analysis completes, with the extracted profile. *)
Theorem single_guest_failures (c : Collaborators)
        (guest_name guest_url host_channel_url : string) (use_cache : bool)
        (w : World) :
  let resolved := OneClickPodcastGuestTracker.resolve_name c guest_name guest_url in
  let run := OneClickPodcastGuestTracker.analyze_podcast_guest_complete
               c guest_name guest_url host_channel_url use_cache w in
  match fst (analyze_guest c resolved guest_url (clock w)) with
  | Py.Raise e =>
      (exists metadata, fst run = Failed (Py.str_of_exn e) metadata)
      /\ host_cache (snd run) = host_cache w
      /\ host_calls (snd run) = host_calls w
  | Py.Ok profile =>
      match previous_podcasts profile with
      | Some [] => exists metadata, fst run = Failed "list index out of range" metadata
      | _ => exists a, fst run = Completed a /\ guest_profile a = profile
      end
  end.
Proof.
  cbn zeta.
  pose proof (single_guest_cases c guest_name guest_url host_channel_url use_cache w)
    as Hcases. cbn zeta in Hcases.
  destruct (fst (analyze_guest c _ guest_url (clock w))) as [profile | e].
  - set (step2 := OneClickPodcastGuestTracker.obtain_host_analysis _ _ _ _) in *.
    destruct (previous_podcasts profile) as [[| first rest] |] eqn:Hpp.
    + rewrite (scorer_raises profile _ _ Hpp) in Hcases.
      rewrite Hcases. eexists. reflexivity.
    + destruct (scorer_returns profile (fst step2) (clock (snd step2))) as [r Hr];
        [congruence |].
      rewrite Hr in Hcases. destruct Hcases as (a & wn & -> & Hp & _).
      exists a. split; [reflexivity | exact Hp].
    + destruct (scorer_returns profile (fst step2) (clock (snd step2))) as [r Hr];
        [congruence |].
      rewrite Hr in Hcases. destruct Hcases as (a & wn & -> & Hp & _).
      exists a. split; [reflexivity | exact Hp].
  - rewrite Hcases. cbn [fst snd]. split; [eexists; reflexivity |].
    split; reflexivity.
Qed.

Lemma filter_length_bound {A} (f : A -> bool) (l : list A) :
  (length (List.filter f l) <= length l)%nat.
Proof.
  induction l as [| x t IH]; cbn; [lia |].
  destruct (f x); cbn; lia.
Qed.

Lemma factor_line_is_no_concern (fs : Factor * Z) :
  is_concern_line (factor_line fs) = false.
Proof. destruct fs as [[] s]; reflexivity. Qed.

(** X13.  The key decision factors are the lines of at most three factors
    of the breakdown, each with a score above 60 and none of them a concern
    line, followed by the line of the first concern when the overall score
    is below 60 and a concern is listed, and by nothing when the overall
    score is 60 or more or no concern is listed. *)
Theorem key_decision_factors_bounded (r : RelevanceResult) :
  exists factors : list (Factor * Z),
    (length factors <= 3)%nat
    /\ Forall (fun fs => In fs (factor_scores r) /\ 60 < snd fs) factors
    /\ Forall (fun line => is_concern_line line = false) (map factor_line factors)
    /\ (60 <= overall_relevance_score r \/ areas_of_concern r = [] ->
        OneClickPodcastGuestTracker.extract_key_decision_factors r
        = map factor_line factors)
    /\ (forall c rest,
          overall_relevance_score r < 60 -> areas_of_concern r = c :: rest ->
          OneClickPodcastGuestTracker.extract_key_decision_factors r
          = map factor_line factors ++ ["Main concern: " +:+ c]).
Proof.
  unfold OneClickPodcastGuestTracker.extract_key_decision_factors.
  fold (factor_scores r).
  set (sorted := sort_desc snd (factor_scores r)).
  exists (List.filter (fun fs : Factor * Z => 60 <? snd fs) (take 3 sorted)).
  split.
  { pose proof (filter_length_bound (fun fs : Factor * Z => 60 <? snd fs)
                  (take 3 sorted)) as H.
    rewrite length_take in H. lia. }
  split.
  { apply List.Forall_forall. intros fs Hin.
    apply filter_In in Hin. destruct Hin as [Hin Hgt].
    split; [| apply Z.ltb_lt; exact Hgt].
    apply (Permutation_in _ (sort_desc_perm snd (factor_scores r))).
    fold sorted. rewrite <- (firstn_skipn 3 sorted).
    apply in_or_app. left. exact Hin. }
  split.
  { apply Forall_map. apply List.Forall_forall. intros fs _.
    apply factor_line_is_no_concern. }
  split.
  - intros [Hhigh | Hnone].
    + destruct (Z.ltb_spec (overall_relevance_score r) 60); [lia | reflexivity].
    + rewrite Hnone. destruct (overall_relevance_score r <? 60); reflexivity.
  - intros c rest Hlow Hsome. rewrite Hsome.
    destruct (Z.ltb_spec (overall_relevance_score r) 60); [reflexivity | lia].
Qed.

Lemma key_decision_factors_bounded_witness :
  Forall (fun line => is_concern_line line = false)
         (OneClickPodcastGuestTracker.extract_key_decision_factors
            Samples.plain_result)
  /\ exists factors,
       OneClickPodcastGuestTracker.extract_key_decision_factors Samples.concerned_result
       = map factor_line factors
         ++ ["Main concern: Limited alignment with channel topics"].
Proof.
  split.
  - destruct (key_decision_factors_bounded Samples.plain_result) as (factors & _ & _ & Hall & Hnone & _).
    rewrite (Hnone (or_intror eq_refl)). exact Hall.
  - destruct (key_decision_factors_bounded Samples.concerned_result) as (factors & _ & _ & _ & _ & Hsome).
    exists factors. apply (Hsome _ []); [reflexivity | reflexivity].
Defined.

(** Two lists in decreasing order of key that hold the same elements of
    every key, in the same order, are equal. *)
Lemma descending_lists_equal {A} (key : A -> Z) (l1 l2 : list A) :
  StronglySorted (fun a b => key b <= key a) l1 ->
  StronglySorted (fun a b => key b <= key a) l2 ->
  (forall s, List.filter (fun a => key a =? s) l1
             = List.filter (fun a => key a =? s) l2) ->
  l1 = l2.
Proof.
  intros H1. revert l2.
  induction H1 as [| x t1 Hs1 IH Hall1]; intros l2 H2 Hfilter.
  - destruct l2 as [| y t2]; [reflexivity |].
    specialize (Hfilter (key y)). cbn in Hfilter.
    rewrite Z.eqb_refl in Hfilter. discriminate.
  - destruct H2 as [| y t2 Hs2 Hall2].
    { specialize (Hfilter (key x)). cbn in Hfilter.
      rewrite Z.eqb_refl in Hfilter. discriminate. }
    assert (Hyx : key y <= key x).
    { pose proof (Hfilter (key y)) as Hy. cbn [List.filter] in Hy.
      rewrite (Z.eqb_refl (key y)) in Hy.
      destruct (key x =? key y) eqn:E; [apply Z.eqb_eq in E; lia |].
      assert (Hin : In y (List.filter (fun a => key a =? key y) t1))
        by (rewrite Hy; left; reflexivity).
      apply filter_In in Hin. destruct Hin as [Hin _].
      rewrite Forall_forall in Hall1. apply Hall1.
      apply list_elem_of_In. exact Hin. }
    assert (Hxy : key x <= key y).
    { pose proof (Hfilter (key x)) as Hx. cbn [List.filter] in Hx.
      rewrite (Z.eqb_refl (key x)) in Hx.
      destruct (key y =? key x) eqn:E; [apply Z.eqb_eq in E; lia |].
      assert (Hin : In x (List.filter (fun a => key a =? key x) t2))
        by (rewrite <- Hx; left; reflexivity).
      apply filter_In in Hin. destruct Hin as [Hin _].
      rewrite Forall_forall in Hall2. apply Hall2.
      apply list_elem_of_In. exact Hin. }
    assert (Hkey : key x = key y) by lia.
    pose proof (Hfilter (key x)) as Hhead. cbn [List.filter] in Hhead.
    rewrite Z.eqb_refl, <- Hkey, Z.eqb_refl in Hhead.
    injection Hhead as -> Htail.
    f_equal. apply IH; [exact Hs2 |].
    intros s. destruct (Z.eq_dec s (key y)) as [-> | Hne]; [exact Htail |].
    specialize (Hfilter s). cbn [List.filter] in Hfilter.
    assert (E : (key y =? s) = false) by (apply Z.eqb_neq; congruence).
    rewrite E in Hfilter. exact Hfilter.
Qed.

(** X14.  The order of the analyses of a batch result is forced: any
    arrangement of the successful analyses that never increases in score
    and keeps the analyses of equal score in processing order is the one
    that the batch returns. *)
Theorem batch_order_is_forced (c : Collaborators)
        (guest_list : list GuestInfo.t) (url : string) (w : World)
        (arranged : list Analysis) :
  let successes :=
    omap success_of
         (outcomes c url guest_list
                   (OneClickPodcastGuestTracker.analyze_host_once c url w)) in
  StronglySorted
    (fun a b => OneClickPodcastGuestTracker.score_of b
                <= OneClickPodcastGuestTracker.score_of a) arranged ->
  (forall s,
      List.filter (fun a => OneClickPodcastGuestTracker.score_of a =? s) arranged
      = List.filter (fun a => OneClickPodcastGuestTracker.score_of a =? s) successes) ->
  guest_analyses
    (fst (OneClickPodcastGuestTracker.batch_analyze_guests c guest_list url w))
  = arranged.
Proof.
  cbn zeta. intros Hsorted Hstable.
  destruct (batch_result c guest_list url w) as (Hres & _).
  cbn zeta in Hres. rewrite Hres.
  apply (descending_lists_equal OneClickPodcastGuestTracker.score_of).
  - apply sort_desc_sorted.
  - exact Hsorted.
  - intros s. rewrite sort_desc_stable, Hstable. reflexivity.
Qed.

Lemma batch_order_is_forced_witness :
  guest_analyses
    (fst (OneClickPodcastGuestTracker.batch_analyze_guests
            Samples.mock_collaborators Samples.sample_batch Samples.lex
            Samples.fresh_world))
  = omap success_of
         (outcomes Samples.mock_collaborators Samples.lex Samples.sample_batch
                   (OneClickPodcastGuestTracker.analyze_host_once
                      Samples.mock_collaborators Samples.lex Samples.fresh_world)).
Proof.
  apply (batch_order_is_forced Samples.mock_collaborators Samples.sample_batch
           Samples.lex Samples.fresh_world).
  - vm_compute. repeat constructor; discriminate.
  - intros s. reflexivity.
Defined.

(** * Further properties of the narration *)

(** ** White space at the ends of a text *)

Lemma lstrip_length (l : list ascii) :
  (length (Py.lstrip l) <= length l)%nat.
Proof.
  induction l as [| c t IH]; cbn [Py.lstrip length]; [lia |].
  destruct (Py.isspace c); cbn [length]; lia.
Qed.

Lemma lstrip_idempotent (l : list ascii) :
  Py.lstrip (Py.lstrip l) = Py.lstrip l.
Proof.
  induction l as [| c t IH]; [reflexivity |].
  cbn [Py.lstrip]. destruct (Py.isspace c) eqn:E; [exact IH |].
  cbn [Py.lstrip]. rewrite E. reflexivity.
Qed.

(** A list that [lstrip] leaves alone is empty or starts with a character
    that is not white space. *)
Lemma lstrip_fixed_head (l : list ascii) :
  Py.lstrip l = l ->
  l = [] \/ exists a t, l = a :: t /\ Py.isspace a = false.
Proof.
  destruct l as [| a t]; [left; reflexivity |].
  intros H. right. exists a, t. split; [reflexivity |].
  destruct (Py.isspace a) eqn:E; [| reflexivity].
  cbn [Py.lstrip] in H. rewrite E in H.
  pose proof (lstrip_length t) as Hlen. rewrite H in Hlen.
  cbn [length] in Hlen. lia.
Qed.

Lemma lstrip_app_nonspace (l : list ascii) (x : ascii) (r : list ascii) :
  Py.isspace x = false -> exists k, Py.lstrip (l ++ x :: r) = k ++ x :: r.
Proof.
  intros Hx. induction l as [| c t IH].
  - exists []. cbn [app Py.lstrip]. rewrite Hx. reflexivity.
  - cbn [app Py.lstrip]. destruct (Py.isspace c).
    + exact IH.
    + exists (c :: t). reflexivity.
Qed.

Lemma lstrip_nonspace_app (a : ascii) (t r : list ascii) :
  Py.isspace a = false -> Py.lstrip ((a :: t) ++ r) = (a :: t) ++ r.
Proof. intros Ha. cbn [app Py.lstrip]. rewrite Ha. reflexivity. Qed.

(** Stripping on the right keeps a text free of white space on the left. *)
Lemma rstrip_keeps_left (l : list ascii) :
  Py.lstrip l = l ->
  Py.lstrip (rev (Py.lstrip (rev l))) = rev (Py.lstrip (rev l)).
Proof.
  intros H. destruct (lstrip_fixed_head l H) as [-> | (a & t & -> & Ha)];
    [reflexivity |].
  cbn [rev].
  destruct (lstrip_app_nonspace (rev t) a [] Ha) as [k ->].
  rewrite List.rev_app_distr. cbn [rev app Py.lstrip]. rewrite Ha. reflexivity.
Qed.

Lemma strip_trimmed (l : list ascii) :
  Py.lstrip l = l -> Py.lstrip (rev l) = rev l -> Py.strip l = l.
Proof.
  intros Hl Hr. unfold Py.strip. rewrite Hl, Hr. apply List.rev_involutive.
Qed.

Lemma strip_idempotent (l : list ascii) :
  Py.strip (Py.strip l) = Py.strip l.
Proof.
  unfold Py.strip at 2 3.
  apply strip_trimmed.
  - apply rstrip_keeps_left, lstrip_idempotent.
  - rewrite List.rev_involutive. apply lstrip_idempotent.
Qed.

Lemma strip_string_idempotent (s : string) :
  Py.strip_string (Py.strip_string s) = Py.strip_string s.
Proof.
  unfold Py.strip_string. rewrite list_ascii_of_string_of_list_ascii.
  rewrite strip_idempotent. reflexivity.
Qed.

Lemma list_ascii_of_string_app (s t : string) :
  list_ascii_of_string (s +:+ t)
  = (list_ascii_of_string s ++ list_ascii_of_string t)%list.
Proof.
  induction s as [| c s IH]; [reflexivity |].
  simpl. rewrite IH. reflexivity.
Qed.

Lemma starts_trimmed_app (s t : string) :
  starts_trimmed s -> starts_trimmed (s +:+ t).
Proof.
  intros (a & k & H & Ha). exists a, (k ++ list_ascii_of_string t)%list.
  rewrite list_ascii_of_string_app, H. split; [reflexivity | exact Ha].
Qed.

Lemma ends_trimmed_app (s t : string) :
  ends_trimmed t -> ends_trimmed (s +:+ t).
Proof.
  intros (a & k & H & Ha). exists a, (k ++ rev (list_ascii_of_string s))%list.
  rewrite list_ascii_of_string_app, List.rev_app_distr, H.
  split; [reflexivity | exact Ha].
Qed.

Lemma strip_string_trimmed (s : string) :
  starts_trimmed s -> ends_trimmed s -> Py.strip_string s = s.
Proof.
  intros (a & k & H & Ha) (b & j & Hr & Hb). unfold Py.strip_string.
  rewrite strip_trimmed.
  - apply string_of_list_ascii_of_string.
  - rewrite H. cbn [Py.lstrip]. rewrite Ha. reflexivity.
  - rewrite Hr. cbn [Py.lstrip]. rewrite Hb. reflexivity.
Qed.

Lemma starts_trimmed_nonempty (s : string) : starts_trimmed s -> s <> "".
Proof. intros (a & k & H & _) ->. discriminate H. Qed.

(** What is stripped from a text that starts with a character that is not
    white space and holds another one leaves the text up to that one. *)
Lemma strip_keeps_core (a : ascii) (m : list ascii) (x : ascii) (r : list ascii) :
  Py.isspace a = false -> Py.isspace x = false ->
  exists k, Py.strip (a :: m ++ x :: r) = a :: m ++ x :: k.
Proof.
  intros Ha Hx. unfold Py.strip. cbn [Py.lstrip]. rewrite Ha.
  cbn [rev]. rewrite List.rev_app_distr. cbn [rev].
  rewrite <- !List.app_assoc. cbn [app].
  destruct (lstrip_app_nonspace (rev r) x (rev m ++ [a]) Hx) as [k ->].
  exists (rev k).
  rewrite List.rev_app_distr. cbn [rev]. rewrite List.rev_app_distr.
  rewrite List.rev_involutive. cbn [rev app].
  rewrite <- List.app_assoc. reflexivity.
Qed.

(** ** Parts of a text *)

Lemma prefix_app_self (a c : string) : String.prefix a (a +:+ c) = true.
Proof.
  induction a as [| x a IH]; [destruct c; reflexivity |].
  simpl. destruct (ascii_dec x x); [exact IH | contradiction].
Qed.

Lemma prefix_app_same (a b c : string) :
  String.prefix (a +:+ b) (a +:+ c) = String.prefix b c.
Proof.
  induction a as [| x a IH]; [reflexivity |].
  simpl. destruct (ascii_dec x x); [exact IH | contradiction].
Qed.

Lemma contains_prefix (needle hay : string) :
  String.prefix needle hay = true -> Py.contains needle hay = true.
Proof. intros H. destruct hay; cbn [Py.contains]; rewrite H; reflexivity. Qed.

Lemma contains_app_r (needle p s : string) :
  Py.contains needle s = true -> Py.contains needle (p +:+ s) = true.
Proof.
  intros H. induction p as [| c p IH]; [exact H |].
  change (Py.contains needle (String c p +:+ s))
    with (if String.prefix needle (String c (p +:+ s)) then true
          else Py.contains needle (p +:+ s)).
  destruct (String.prefix needle (String c (p +:+ s))); [reflexivity | exact IH].
Qed.

(** ** The fallback explanation *)

Ltac to_the_end :=
  repeat match goal with
         | |- ends_trimmed (_ +:+ _) => apply ends_trimmed_app
         end;
  do 2 eexists; split; reflexivity.

Lemma fallback_starts_trimmed (r : RelevanceResult) :
  starts_trimmed (GuestRelevanceScorer.generate_fallback_validation r).
Proof.
  unfold GuestRelevanceScorer.generate_fallback_validation.
  destruct (recommendation r), (key_strengths r), (areas_of_concern r);
    apply starts_trimmed_app; do 2 eexists; split; reflexivity.
Qed.

Lemma fallback_ends_trimmed (r : RelevanceResult) :
  ends_trimmed (GuestRelevanceScorer.generate_fallback_validation r).
Proof.
  unfold GuestRelevanceScorer.generate_fallback_validation.
  destruct (recommendation r), (key_strengths r), (areas_of_concern r);
    to_the_end.
Qed.

Lemma fallback_is_no_error_text (r : RelevanceResult) :
  String.prefix "Error:" (GuestRelevanceScorer.generate_fallback_validation r)
  = false.
Proof.
  unfold GuestRelevanceScorer.generate_fallback_validation.
  destruct (recommendation r), (key_strengths r), (areas_of_concern r);
    reflexivity.
Qed.

(** X15.  Whatever the text-generation service answers, and whether or
    not the request succeeds, the explanation returned by
    [call_llm_for_scoring_validation] is not empty and has no white space
    at either end. *)
Theorem validation_never_blank (r : RelevanceResult) (g : GuestProfile)
        (h : HostAnalysis) (reply : Py.exc (option OllamaClient.value)) :
  let text := GuestRelevanceScorer.call_llm_for_scoring_validation r g h reply in
  text <> "" /\ Py.strip_string text = text.
Proof.
  cbn zeta.
  assert (Hfallback :
    GuestRelevanceScorer.generate_fallback_validation r <> ""
    /\ Py.strip_string (GuestRelevanceScorer.generate_fallback_validation r)
       = GuestRelevanceScorer.generate_fallback_validation r).
  { split.
    - apply starts_trimmed_nonempty, fallback_starts_trimmed.
    - apply strip_string_trimmed;
        [apply fallback_starts_trimmed | apply fallback_ends_trimmed]. }
  unfold GuestRelevanceScorer.call_llm_for_scoring_validation.
  destruct (OllamaClient.generated_text (OllamaClient.generate_with_70b reply))
    as [text |]; [| exact Hfallback].
  cbn zeta. destruct (String.eqb (Py.strip_string text) "") eqn:E;
    cbn [negb]; [exact Hfallback |].
  split.
  - apply String.eqb_neq. exact E.
  - apply strip_string_idempotent.
Qed.

(** X16.  When the request to the text-generation service raises, the
    client turns the exception into the text ["Error: <message>"], and the
    scorer takes it for the generated explanation: what it returns is that
    text, stripped, which starts with ["Error:"] and is not the fallback
    explanation. *)
Theorem validation_of_failed_request (r : RelevanceResult) (g : GuestProfile)
        (h : HostAnalysis) (e : Py.exn) :
  let text :=
    GuestRelevanceScorer.call_llm_for_scoring_validation r g h (Py.Raise e) in
  text = Py.strip_string ("Error: " +:+ Py.str_of_exn e)
  /\ String.prefix "Error:" text = true
  /\ text <> GuestRelevanceScorer.generate_fallback_validation r.
Proof.
  cbn zeta.
  unfold GuestRelevanceScorer.call_llm_for_scoring_validation.
  cbn [OllamaClient.generate_with_70b OllamaClient.generate_text
       OllamaClient.generated_text].
  cbn zeta.
  assert (Hcore : exists k,
    Py.strip_string ("Error: " +:+ Py.str_of_exn e)
    = "Error:" +:+ string_of_list_ascii k).
  { unfold Py.strip_string. rewrite list_ascii_of_string_app.
    destruct (strip_keeps_core "E" ["r"; "r"; "o"; "r"]%char ":"
                (" "%char :: list_ascii_of_string (Py.str_of_exn e))
                eq_refl eq_refl) as [k Hk].
    exists k. cbn [list_ascii_of_string app] in *. rewrite Hk. reflexivity. }
  destruct Hcore as [k Hk]. rewrite Hk.
  assert (Hne : String.eqb ("Error:" +:+ string_of_list_ascii k) "" = false)
    by reflexivity.
  rewrite Hne. cbn [negb].
  split; [reflexivity |].
  split; [apply prefix_app_self |].
  intros Heq. pose proof (fallback_is_no_error_text r) as Hno.
  rewrite <- Heq, prefix_app_self in Hno. discriminate Hno.
Qed.

Ltac find_in_text :=
  repeat first
    [ reflexivity
    | apply contains_prefix;
      first [ apply prefix_app_self | rewrite prefix_app_same; reflexivity ]
    | apply contains_app_r ].

(** X17.  The fallback explanation always quotes the overall score, as
    ["<score>/100"], and names the recommendation tier. *)
Theorem fallback_quotes_score_and_tier (r : RelevanceResult) :
  let text := GuestRelevanceScorer.generate_fallback_validation r in
  Py.contains (pretty (overall_relevance_score r) +:+ "/100") text = true
  /\ Py.contains
       (GuestRelevanceScorer.recommendation_name (recommendation r)) text
     = true.
Proof.
  cbn zeta. unfold GuestRelevanceScorer.generate_fallback_validation.
  destruct (recommendation r), (key_strengths r), (areas_of_concern r);
    cbn [GuestRelevanceScorer.recommendation_name];
    split; find_in_text.
Qed.

(** * Further properties of the callers *)

(** X18.  The command-line runner never gets to saving the analysis, nor
    to returning it: it raises [KeyError] whatever the tracker returned.  Of
    a completed analysis it reads the key ["confidence_level"] of the
    summary, which the tracker never sets; of the error record it reads the
    key ["recommendation_summary"], which that record does not have.  The
    state is the one the tracker left. *)
Theorem runner_never_saves (c : Collaborators)
        (guest_name guest_url host_channel : string) (w : World) :
  let tracked :=
    OneClickPodcastGuestTracker.analyze_podcast_guest_complete
      c guest_name guest_url host_channel true (RunAnalyzer.new_tracker w) in
  fst (RunAnalyzer.analyze_guest c guest_name guest_url host_channel w)
  = match fst tracked with
    | Completed _ => Py.Raise (Py.KeyError "confidence_level")
    | Failed _ _ => Py.Raise (Py.KeyError "recommendation_summary")
    end
  /\ snd (RunAnalyzer.analyze_guest c guest_name guest_url host_channel w)
     = snd tracked.
Proof.
  cbn zeta. unfold RunAnalyzer.analyze_guest.
  destruct (OneClickPodcastGuestTracker.analyze_podcast_guest_complete
              c guest_name guest_url host_channel true (RunAnalyzer.new_tracker w))
    as [[a | error meta] w'];
    split; reflexivity.
Qed.

(** X19.  The single-guest endpoint reports the first of [guest_name],
    [guest_url] and [host_channel_url] that the request lacks, and then
    leaves the tracker as it was; a request that has the three of them gets
    [success: True] with whatever the tracker returned, so the endpoint
    never answers [success: False]. *)
Theorem api_single_guest_validation (c : Collaborators)
        (request_data : gmap string string) (w : World) :
  PodcastGuestTrackerAPI.analyze_single_guest c request_data w
  = match request_data !! "guest_name", request_data !! "guest_url",
          request_data !! "host_channel_url" with
    | None, _, _ =>
        (PodcastGuestTrackerAPI.Invalid "Missing required field: guest_name", w)
    | Some _, None, _ =>
        (PodcastGuestTrackerAPI.Invalid "Missing required field: guest_url", w)
    | Some _, Some _, None =>
        (PodcastGuestTrackerAPI.Invalid
           "Missing required field: host_channel_url", w)
    | Some guest_name, Some guest_url, Some host_channel_url =>
        let tracked :=
          OneClickPodcastGuestTracker.analyze_podcast_guest_complete
            c guest_name guest_url host_channel_url true w in
        (PodcastGuestTrackerAPI.Success (fst tracked), snd tracked)
    end.
Proof.
  unfold PodcastGuestTrackerAPI.analyze_single_guest,
    PodcastGuestTrackerAPI.required_fields, PodcastGuestTrackerAPI.getitem.
  cbn [PodcastGuestTrackerAPI.first_missing].
  destruct (request_data !! "guest_name") as [n |]; [| reflexivity].
  destruct (request_data !! "guest_url") as [u |]; [| reflexivity].
  destruct (request_data !! "host_channel_url") as [h |]; [| reflexivity].
  cbn [mbind mret Py.exc_bind Py.exc_ret].
  destruct (OneClickPodcastGuestTracker.analyze_podcast_guest_complete
              c n u h true w) as [result w'].
  reflexivity.
Qed.

(** X20.  [success: True] does not mean that the analysis succeeded: when
    the analysis of the guest raises, the endpoint still answers
    [success: True], and its data is the error record with the text of the
    exception. *)
Theorem api_success_wraps_failed_analysis (c : Collaborators)
        (request_data : gmap string string) (w : World)
        (guest_name guest_url host_channel_url : string) (e : Py.exn) (t : Q) :
  request_data !! "guest_name" = Some guest_name ->
  request_data !! "guest_url" = Some guest_url ->
  request_data !! "host_channel_url" = Some host_channel_url ->
  analyze_guest c
    (OneClickPodcastGuestTracker.resolve_name c guest_name guest_url)
    guest_url (clock w) = (Py.Raise e, t) ->
  exists meta,
    fst (PodcastGuestTrackerAPI.analyze_single_guest c request_data w)
    = PodcastGuestTrackerAPI.Success (Failed (Py.str_of_exn e) meta).
Proof.
  intros Hn Hu Hh Hraise.
  unfold PodcastGuestTrackerAPI.analyze_single_guest,
    PodcastGuestTrackerAPI.required_fields, PodcastGuestTrackerAPI.getitem.
  cbn [PodcastGuestTrackerAPI.first_missing].
  rewrite Hn, Hu, Hh. cbn [mbind mret Py.exc_bind Py.exc_ret].
  unfold OneClickPodcastGuestTracker.analyze_podcast_guest_complete.
  rewrite Hraise. eexists. reflexivity.
Qed.

Lemma api_success_wraps_failed_analysis_witness :
  exists meta,
    fst (PodcastGuestTrackerAPI.analyze_single_guest
           Samples.mock_collaborators Samples.nameless_request Samples.fresh_world)
    = PodcastGuestTrackerAPI.Success (Failed "no such person" meta).
Proof.
  apply (api_success_wraps_failed_analysis Samples.mock_collaborators
           Samples.nameless_request Samples.fresh_world
           "" "https://twitter.com/nobody" Samples.lex
           (Py.RuntimeError "no such person") 1%Q).
  - reflexivity.
  - reflexivity.
  - reflexivity.
  - reflexivity.
Defined.

(** * Properties of the data quality score *)

Lemma profile_step_invariant (score : Z) (p : PremiumGuestAnalyzer.Profile) :
  0 <= score /\ (5 | score) ->
  0 <= PremiumGuestAnalyzer.profile_step score p
  /\ (5 | PremiumGuestAnalyzer.profile_step score p).
Proof.
  intros [Hpos [k ->]]. unfold PremiumGuestAnalyzer.profile_step.
  destruct (PremiumGuestAnalyzer.truthy (PremiumGuestAnalyzer.bio p) && _);
    destruct (PremiumGuestAnalyzer.truthy (PremiumGuestAnalyzer.content_snippet p) && _);
    (split; [lia |]);
    first [ exists (k + 10); lia | exists (k + 6); lia
          | exists (k + 4); lia | exists k; lia ].
Qed.

Lemma profiles_invariant (ps : list PremiumGuestAnalyzer.Profile) (score : Z) :
  0 <= score /\ (5 | score) ->
  0 <= fold_left PremiumGuestAnalyzer.profile_step ps score
  /\ (5 | fold_left PremiumGuestAnalyzer.profile_step ps score).
Proof.
  revert score. induction ps as [| p ps IH]; intros score H; [exact H |].
  cbn [fold_left]. apply IH, profile_step_invariant, H.
Qed.

(** X21.  The data quality score is a multiple of 5 between 0 and 100,
    whatever the profiles, the search results and the sources are, and
    whichever of them are missing. *)
Theorem data_quality_range (d : PremiumGuestAnalyzer.AnalysisData) :
  0 <= PremiumGuestAnalyzer.calculate_data_quality d <= 100
  /\ (5 | PremiumGuestAnalyzer.calculate_data_quality d).
Proof.
  unfold PremiumGuestAnalyzer.calculate_data_quality. cbn zeta.
  destruct (profiles_invariant
              (default [] (PremiumGuestAnalyzer.profiles d)) 0)
    as [Hpos [k Hk]]; [split; [lia | exists 0; lia] |].
  rewrite Hk in *.
  set (n := Z.of_nat (size _)).
  assert (Hn : 0 <= n) by (unfold n; lia).
  destruct (_ && _).
  - split; [lia |].
    destruct (Z.min_spec (k * 5 + 25 + n * 5) 100) as [[_ ->] | [_ ->]];
      [exists (k + 5 + n); lia | exists 20; lia].
  - split; [lia |].
    destruct (Z.min_spec (k * 5 + n * 5) 100) as [[_ ->] | [_ ->]];
      [exists (k + n); lia | exists 20; lia].
Qed.

(** X22.  What does not count towards the data quality: a profile whose
    biography mentions "manual" in any case, or is missing, and whose
    snippet has at most 50 characters, or is missing; and a source that is
    already listed. *)
Theorem data_quality_ignores (d : PremiumGuestAnalyzer.AnalysisData)
        (p : PremiumGuestAnalyzer.Profile) (source : string) :
  ((forall b, PremiumGuestAnalyzer.bio p = Some b ->
              Py.contains "manual" (Py.lower b) = true) ->
   (forall s, PremiumGuestAnalyzer.content_snippet p = Some s ->
              Py.len s <= 50) ->
   PremiumGuestAnalyzer.calculate_data_quality (add_profile p d)
   = PremiumGuestAnalyzer.calculate_data_quality d)
  /\ (In source (default [] (PremiumGuestAnalyzer.data_sources d)) ->
      PremiumGuestAnalyzer.calculate_data_quality (add_source source d)
      = PremiumGuestAnalyzer.calculate_data_quality d).
Proof.
  unfold PremiumGuestAnalyzer.calculate_data_quality, add_profile, add_source.
  cbn [PremiumGuestAnalyzer.profiles PremiumGuestAnalyzer.search_results
       PremiumGuestAnalyzer.data_sources].
  set (ps := default [] (PremiumGuestAnalyzer.profiles d)).
  set (sources := default [] (PremiumGuestAnalyzer.data_sources d)) in *.
  change (default [] (Some (ps ++ [p]))) with (ps ++ [p]).
  change (default [] (Some (sources ++ [source]))) with (sources ++ [source]).
  split.
  - intros Hbio Hsnippet. rewrite List.fold_left_app. cbn [fold_left].
    assert (Hstep : forall score,
      PremiumGuestAnalyzer.profile_step score p = score).
    { intros score. unfold PremiumGuestAnalyzer.profile_step.
      assert (Hb :
        PremiumGuestAnalyzer.truthy (PremiumGuestAnalyzer.bio p)
        && negb (Py.contains "manual"
                   (Py.lower (default "" (PremiumGuestAnalyzer.bio p))))
        = false).
      { destruct (PremiumGuestAnalyzer.bio p) as [b |]; [| reflexivity].
        simpl. rewrite (Hbio b eq_refl). apply andb_false_r. }
      assert (Hs :
        PremiumGuestAnalyzer.truthy (PremiumGuestAnalyzer.content_snippet p)
        && (50 <? Py.len (default "" (PremiumGuestAnalyzer.content_snippet p)))
        = false).
      { destruct (PremiumGuestAnalyzer.content_snippet p) as [s |];
          [| reflexivity].
        simpl. pose proof (Hsnippet s eq_refl) as Hle.
        destruct (Z.ltb_spec 50 (Py.len s)); [lia | apply andb_false_r]. }
      rewrite Hb, Hs. reflexivity. }
    rewrite Hstep. reflexivity.
  - intros Hin. assert (Hset :
      (list_to_set (sources ++ [source]) : gset string) = list_to_set sources).
    { apply list_elem_of_In in Hin.
      rewrite list_to_set_app_L. apply set_eq. intros x.
      rewrite elem_of_union, !elem_of_list_to_set.
      split; [intros [Hx | Hx]; [exact Hx |] | intros Hx; left; exact Hx].
      apply list_elem_of_singleton in Hx. subst x. exact Hin. }
    rewrite Hset. reflexivity.
Qed.

Lemma data_quality_ignores_witness :
  PremiumGuestAnalyzer.calculate_data_quality
    (add_profile Samples.unread_profile Samples.twitter_only)
  = PremiumGuestAnalyzer.calculate_data_quality Samples.twitter_only
  /\ PremiumGuestAnalyzer.calculate_data_quality
       (add_source "twitter" Samples.twitter_only)
     = PremiumGuestAnalyzer.calculate_data_quality Samples.twitter_only.
Proof.
  split.
  - apply (proj1 (data_quality_ignores Samples.twitter_only
                    Samples.unread_profile "twitter")).
    + intros b Hb. injection Hb as <-. reflexivity.
    + intros s Hs. injection Hs as <-. vm_compute. discriminate.
  - apply (proj2 (data_quality_ignores Samples.twitter_only
                    Samples.unread_profile "twitter")).
    simpl. left. reflexivity.
Defined.

(** * The verdict and its reasons *)

Lemma leb_false_lt (a b : Q) : Py.leb a b = false -> (b < a)%Q.
Proof.
  unfold Py.leb. intros H. apply Qnot_le_lt. intros Hle.
  apply Qle_bool_iff in Hle. congruence.
Qed.

(** X23.  A verdict comes with a reason: a result whose overall score is
    above 70 lists at least one key strength, and a result whose overall
    score is below 40, the tier NOT_RECOMMENDED, lists at least one
    concern. *)
Theorem verdict_comes_with_reasons (g : GuestProfile) (h : HostAnalysis)
        (now : Q) (r : RelevanceResult) :
  GuestRelevanceScorer.calculate_overall_relevance_score g h now = Py.Ok r ->
  (70 < overall_relevance_score r -> key_strengths r <> [])
  /\ (overall_relevance_score r < 40 -> areas_of_concern r <> []).
Proof.
  intros Hr.
  destruct (result_components g h now r Hr)
    as (t & a & p & u & e & Ht & Ha & Hp & Hu & He & Hconcerns & Hstrengths & _).
  destruct (overall_is_weighted_score g h now r Hr)
    as (t' & a' & p' & u' & e' & Ht' & Ha' & Hp' & Hu' & He' & Hoverall).
  rewrite Ht in Ht'. rewrite Ha in Ha'. rewrite Hp in Hp'.
  rewrite Hu in Hu'. rewrite He in He'.
  injection Ht' as <-. injection Ha' as <-. injection Hp' as <-.
  injection Hu' as <-. injection He' as <-.
  pose proof (topic_alignment_range g h t Ht).
  pose proof (authority_score_band g h a Ha).
  pose proof (audience_appeal_band g h p Hp).
  pose proof (uniqueness_factor_band g h u Hu).
  pose proof (engagement_potential_band g h e He).
  rewrite Hoverall, Hstrengths, Hconcerns.
  unfold GuestRelevanceScorer.weighted_score, GuestRelevanceScorer.weights.
  split.
  - intros Hhigh Hnone.
    unfold GuestRelevanceScorer.identify_key_strengths in Hnone. cbn zeta in Hnone.
    destruct (GuestRelevanceScorer.nonempty
                (GuestRelevanceScorer.select (fun s => Py.leb 80 s)
                   GuestRelevanceScorer.strong_strength _)) eqn:Estrong;
      cbn [negb] in Hnone.
    { rewrite Hnone in Estrong. discriminate Estrong. }
    unfold GuestRelevanceScorer.select in Hnone. cbn [List.filter fst snd] in Hnone.
    destruct (Py.leb 70 (t * 100)) eqn:E1; [discriminate Hnone |].
    destruct (Py.leb 70 (a * 100)) eqn:E2; [discriminate Hnone |].
    destruct (Py.leb 70 (p * 100)) eqn:E3; [discriminate Hnone |].
    destruct (Py.leb 70 (u * 100)) eqn:E4; [discriminate Hnone |].
    destruct (Py.leb 70 (e * 100)) eqn:E5; [discriminate Hnone |].
    apply leb_false_lt in E1, E2, E3, E4, E5.
    assert (Hround : 30 <= Py.round
              ((t * 0.35 + a * 0.25 + p * 0.20 + u * 0.10 + e * 0.10) * 100)%Q <= 70).
    { apply round_bounds.
      - change (inject_Z 30) with 30%Q. lra.
      - change (inject_Z 70) with 70%Q. lra. }
    lia.
  - intros Hlow Hnone.
    unfold GuestRelevanceScorer.identify_areas_of_concern,
      GuestRelevanceScorer.select in Hnone.
    cbn [List.filter fst snd] in Hnone.
    destruct (Py.leb (t * 100) 40) eqn:E1; [discriminate Hnone |].
    destruct (Py.leb (a * 100) 40) eqn:E2; [discriminate Hnone |].
    destruct (Py.leb (p * 100) 40) eqn:E3; [discriminate Hnone |].
    destruct (Py.leb (u * 100) 40) eqn:E4; [discriminate Hnone |].
    destruct (Py.leb (e * 100) 40) eqn:E5; [discriminate Hnone |].
    apply leb_false_lt in E1, E2, E3, E4, E5.
    assert (Hround : 40 <= Py.round
              ((t * 0.35 + a * 0.25 + p * 0.20 + u * 0.10 + e * 0.10) * 100)%Q <= 100).
    { apply round_bounds.
      - change (inject_Z 40) with 40%Q. lra.
      - change (inject_Z 100) with 100%Q. lra. }
    lia.
Qed.

Lemma verdict_comes_with_reasons_witness :
  exists r,
    GuestRelevanceScorer.calculate_overall_relevance_score
      Samples.matching_guest Samples.scenario_host 0 = Py.Ok r
    /\ key_strengths r <> [].
Proof.
  eexists. split; [vm_compute; reflexivity |].
  eapply (verdict_comes_with_reasons Samples.matching_guest Samples.scenario_host 0).
  - vm_compute. reflexivity.
  - vm_compute. reflexivity.
Defined.
